(** * r-pixi-venv: a shallow embedding of [src/extension.ts]

    The extension is sequential glue between the editor host and three
    command-line tools.  This development models

    - JavaScript strings as lists of UTF-16 code units (a chunk is the
      string that [data.toString()] returns);
    - the regular expressions of the source with a backtracking matcher
      that follows the ECMAScript matcher (priority order of
      alternatives, greedy quantifiers, the empty-iteration check);
    - the calls the extension makes on its host (log view, notifications,
      file system, settings, child processes) as a trace of [Effect]s,
      with exceptions and [try]/[catch];
    - the paths that exist on disk, the module-level variable
      [previewProcess] and the [browserOpened] variable of each
      [handleOutput] closure as an explicit world;
    - what the host and the outside decide ([process.platform], the
      [path] module, whether a call throws or a signal cannot be sent,
      the answer of the info command, the output of a command) as the
      variables of a section.

    The answer of the info command is taken in the shape the extension
    expects: a list of records with a name and an optional prefix.  Every
    command runs to its end before the next event is handled. *)

From Stdlib Require Import String Ascii NArith ZArith DecimalString List Bool Arith Lia.
From stdpp Require Import base decidable option list gmap.
Import ListNotations.

Set Default Proof Using "Type".
Open Scope list_scope.

(** ** JavaScript strings *)

(** A JavaScript string is a sequence of UTF-16 code units. *)
Abbreviation jsstring := (list N).

(** An ASCII literal of the source, as code units. *)
Fixpoint lit (s : string) : jsstring :=
  match s with
  | EmptyString => []
  | String a t => N_of_ascii a :: lit t
  end.

(** The double quote and the line feed, which the source writes inside
    template literals. *)
Definition dq : jsstring := [34%N].
Definition nl : jsstring := [10%N].

(** [String.prototype.startsWith]: strips the prefix when it is there. *)
Fixpoint stripPrefix (w s : jsstring) : option jsstring :=
  match w, s with
  | [], _ => Some s
  | a :: w', c :: s' => if N.eqb a c then stripPrefix w' s' else None
  | _ :: _, [] => None
  end.

Definition startsWith (s w : jsstring) : bool :=
  match stripPrefix w s with Some _ => true | None => false end.

(** [String.prototype.endsWith]. *)
Definition endsWith (s w : jsstring) : bool :=
  startsWith (rev s) (rev w).

(** [String.prototype.includes]. *)
Fixpoint includes (s w : jsstring) : bool :=
  startsWith s w ||
  match s with
  | [] => false
  | _ :: t => includes t w
  end.

(** [args.join(' ')] *)
Fixpoint joinWith (sep : jsstring) (l : list jsstring) : jsstring :=
  match l with
  | [] => []
  | [a] => a
  | a :: t => a ++ sep ++ joinWith sep t
  end.

(** JavaScript truthiness of a string-or-undefined value: [undefined] and
    the empty string are falsy. *)
Definition truthy (o : option jsstring) : bool :=
  match o with
  | Some (_ :: _) => true
  | _ => false
  end.

(** ** Regular expressions *)

Module Regex.

(** The fragment of the ECMAScript pattern syntax that the source uses:
    character classes, sequence, alternation and greedy quantifiers. *)
Inductive regex : Type :=
| Cls (p : N -> bool)
| Eps
| Cat (r1 r2 : regex)
| Alt (r1 r2 : regex)
| Rep (r : regex) (lo : nat) (hi : option nat).

Definition chr (c : N) : regex := Cls (N.eqb c).

Definition range (a b : N) (c : N) : bool := (a <=? c)%N && (c <=? b)%N.

Definition oneOf (l : jsstring) (c : N) : bool := existsb (N.eqb c) l.

(** A literal word of a pattern. *)
Fixpoint word (w : jsstring) : regex :=
  match w with
  | [] => Eps
  | c :: t => Cat (chr c) (word t)
  end.

Definition star (r : regex) : regex := Rep r 0 None.
Definition plus (r : regex) : regex := Rep r 1 None.
Definition opt (r : regex) : regex := Rep r 0 (Some 1).

(** ECMAScript's RepeatMatcher, as a list of successes: the remainders of
    the input after each way of matching, in backtracking priority order.
    [m] is the matcher of the quantified atom.  A greedy quantifier tries
    one more iteration before it tries to stop; once [lo] iterations are
    done an iteration that consumes nothing is rejected.  Each iteration
    lowers [lo] or consumes input, so [lo + length x + 1] units of fuel
    are never used up (see [repeatMatcher_fuel]). *)
Fixpoint repeatMatcher (m : jsstring -> list jsstring) (fuel lo : nat)
    (hi : option nat) (x : jsstring) : list jsstring :=
  match fuel with
  | O => []
  | S fuel' =>
    match hi with
    | Some O => [x]
    | _ =>
      let d (y : jsstring) :=
        if Nat.eqb lo 0 && Nat.eqb (length y) (length x) then []
        else repeatMatcher m fuel' (Nat.pred lo) (option_map Nat.pred hi) y in
      match lo with
      | O => flat_map d (m x) ++ [x]
      | S _ => flat_map d (m x)
      end
    end
  end.

(** All the ways [r] matches a prefix of [s], as remainders, in priority
    order. *)
Fixpoint run (r : regex) (s : jsstring) : list jsstring :=
  match r with
  | Cls p =>
    match s with
    | c :: t => if p c then [t] else []
    | [] => []
    end
  | Eps => [s]
  | Cat a b => flat_map (run b) (run a s)
  | Alt a b => run a s ++ run b s
  | Rep a lo hi => repeatMatcher (run a) (lo + length s + 1) lo hi s
  end.

(** The match the backtracking engine finds at the start of [s]: the first
    success.  The result is the remainder of the input. *)
Definition matchAt (r : regex) (s : jsstring) : option jsstring :=
  head (run r s).

(** [String.prototype.match] with a pattern without the [g] flag: the text
    of the leftmost match ([match[0]]), or [None] for [null]. *)
Fixpoint search (r : regex) (s : jsstring) : option jsstring :=
  match matchAt r s with
  | Some rest => Some (take (length s - length rest) s)
  | None =>
    match s with
    | [] => None
    | _ :: t => search r t
    end
  end.

(** [String.prototype.replace] with a pattern with the [g] flag and a
    replacement without [$] patterns.  [skip] counts the code units of the
    current match that are still to be dropped. *)
Fixpoint replaceFrom (r : regex) (by_ : jsstring) (skip : nat) (s : jsstring)
    : jsstring :=
  match s with
  | [] =>
    match skip, matchAt r [] with
    | O, Some _ => by_
    | _, _ => []
    end
  | c :: t =>
    match skip with
    | S k => replaceFrom r by_ k t
    | O =>
      match matchAt r s with
      | Some rest =>
        match length s - length rest with
        | O => by_ ++ c :: replaceFrom r by_ 0 t
        | S k => by_ ++ replaceFrom r by_ k t
        end
      | None => c :: replaceFrom r by_ 0 t
      end
    end
  end.

Definition replaceAll (r : regex) (by_ : jsstring) (s : jsstring) : jsstring :=
  replaceFrom r by_ 0 s.

End Regex.

Import Regex.

(** ** Output sanitization *)

Definition digit : N -> bool := range 48 57.

(** The last code unit of the pattern of [stripAnsi]: one of the digits,
    [A] to [O], [R], [Z], [c], [f] to [n], [q], [r], [y], [=], [>], [<]. *)
Definition ansiFinal (c : N) : bool :=
  range 48 57 c || range 65 79 c || oneOf (lit "RZc") c ||
  range 102 110 c || oneOf (lit "qry=><") c.

(** The pattern of [stripAnsi] (it has the [g] flag): the code unit 001b
    or 009b; any number of the code units of "[()#;?"; optionally one to
    four digits and then any number of groups made of a semicolon and up
    to four digits; one code unit of [ansiFinal]. *)
Definition ansiRe : regex :=
  Cat (Cls (oneOf [27; 155]%N))
 (Cat (star (Cls (oneOf (lit "[()#;?"))))
 (Cat (opt (Cat (Rep (Cls digit) 1 (Some 4))
                (star (Cat (chr 59) (Rep (Cls digit) 0 (Some 4))))))
      (Cls ansiFinal))).

Definition stripAnsi (str : jsstring) : jsstring :=
  replaceAll ansiRe [] str.

(** The negated class from 00 to 7F (with the [g] flag); every match is
    replaced by one space. *)
Definition nonAscii (c : N) : bool := negb (range 0 127 c).

Definition replaceNonAscii (str : jsstring) : jsstring :=
  replaceAll (Cls nonAscii) (lit " ") str.

(** [stripAnsi] followed by the replacement of non-ASCII code units: the
    cleaning of the standard-error handlers and of the preview's
    [handleOutput]. *)
Definition cleanedStr (str : jsstring) : jsstring :=
  replaceNonAscii (stripAnsi str).

(** The pattern of [handleOutput] (no flags): the word "http://", then
    "localhost" or "127.0.0.1", then a colon and one or more digits. *)
Definition urlRe : regex :=
  Cat (word (lit "http://"))
 (Cat (Alt (word (lit "localhost")) (word (lit "127.0.0.1")))
 (Cat (chr 58) (plus (Cls digit)))).

(** ** Host calls, state and exceptions *)

(** [vscode.ConfigurationTarget]. *)
Inductive ConfigurationTarget : Type :=
| Global
| Workspace
| WorkspaceFolderTarget.

(** A [ChildProcess] object, by identity. *)
Definition handle := nat.

Inductive Stream : Type := Stdout | Stderr.

(** A thrown value or a rejection: its [message] and [stderr] properties
    when it has them, and the text it has inside a template literal. *)
Record JsError : Type := mkJsError {
  message : option jsstring;
  stderr : option jsstring;
  shown : jsstring
}.

(** The calls the extension makes on its host, in the order it makes them.
    [Assign] records a write to the module-level variable
    [previewProcess]. *)
Inductive Effect : Type :=
| AppendLine (value : jsstring)
| Append (value : jsstring)
| ShowChannel
| ShowInformationMessage (msg : jsstring)
| ShowWarningMessage (msg : jsstring)
| ShowErrorMessage (msg : jsstring)
| WithProgress (title : jsstring)
| MkdirSync (path : jsstring)
| WriteFileSync (path data : jsstring)
| ChmodSync (path : jsstring) (mode : N)
| ConfigUpdate (resource section key value : jsstring)
    (target : ConfigurationTarget)
| Exec (command cwd : jsstring)
| Spawn (command : jsstring) (args : list jsstring) (cwd : jsstring)
    (child : handle)
| Kill (child : handle) (signal : jsstring)
| Assign (value : option handle)
| OpenSimpleBrowser (url : jsstring).

(** What the extension reads and writes: the paths that exist on disk, the
    variable [previewProcess], the [browserOpened] variable of each
    process's [handleOutput] closure (the set of processes where it is
    true), and the identity of the next [ChildProcess]. *)
Record World : Type := mkWorld {
  files : gset jsstring;
  previewProcess : option handle;
  browserOpened : gset handle;
  nextHandle : handle
}.

Inductive outcome (A : Type) : Type :=
| Ok (a : A)
| Throw (e : JsError).
Arguments Ok {A} a.
Arguments Throw {A} e.

Record Res (A : Type) : Type := mkRes {
  trace : list Effect;
  world : World;
  out : outcome A
}.
Arguments mkRes {A} trace world out.
Arguments trace {A} r.
Arguments world {A} r.
Arguments out {A} r.

(** A computation of the extension: from a world to the host calls made,
    the world left behind, and a value or a thrown error. *)
Definition M (A : Type) : Type := World -> Res A.

Definition ret {A} (a : A) : M A := fun w => mkRes [] w (Ok a).

Definition bind {A B} (m : M A) (k : A -> M B) : M B := fun w =>
  let r := m w in
  match out r with
  | Ok a => let r' := k a (world r) in
            mkRes (trace r ++ trace r') (world r') (out r')
  | Throw e => mkRes (trace r) (world r) (Throw e)
  end.

Definition throw {A} (e : JsError) : M A := fun w => mkRes [] w (Throw e).

(** [try { m } catch (e) { h e }]. *)
Definition tryCatch {A} (m : M A) (h : JsError -> M A) : M A := fun w =>
  let r := m w in
  match out r with
  | Ok _ => r
  | Throw e => let r' := h e (world r) in
               mkRes (trace r ++ trace r') (world r') (out r')
  end.

(** A call whose promise is not awaited: its rejection is not seen. *)
Definition detached {A} (m : M A) : M unit := fun w =>
  let r := m w in mkRes (trace r) (world r) (Ok tt).

Notation "x <- m ;; k" := (bind m (fun x => k))
  (at level 62, m at next level, right associativity).
Notation "m ;;; k" := (bind m (fun _ => k))
  (at level 62, right associativity).

Definition emit (e : Effect) : M unit := fun w => mkRes [e] w (Ok tt).

Definition existsSync (path : jsstring) : M bool := fun w =>
  mkRes [] w (Ok (bool_decide (path ∈ files w))).

Definition getPreviewProcess : M (option handle) := fun w =>
  mkRes [] w (Ok (previewProcess w)).

Definition setPreviewProcess (o : option handle) : M unit := fun w =>
  mkRes [Assign o]
        (mkWorld (files w) o (browserOpened w) (nextHandle w)) (Ok tt).

(** The paths a successful call of the [fs] module creates.  A settings
    update goes through the host's configuration service, which writes
    the settings file of the folder or of the workspace: [files] holds
    the paths the extension asks [fs] about, and does not follow that
    file. *)
Definition created (e : Effect) : gset jsstring :=
  match e with
  | MkdirSync p => {[ p ]}
  | WriteFileSync p _ => {[ p ]}
  | _ => ∅
  end.

Fixpoint forEach {A} (l : list A) (body : A -> M unit) : M unit :=
  match l with
  | [] => ret tt
  | a :: t => body a ;;; forEach t body
  end.


(** ** The environment manager's answer *)

(** One record of [environments_info]; [prefix] is [None] when the field
    is absent. *)
Record EnvInfo : Type := mkEnvInfo {
  name : jsstring;
  prefix : option jsstring
}.

(** The parsed output of the info command; [environments_info] is [None]
    when the field is absent. *)
Record PixiInfo : Type := mkPixiInfo {
  environments_info : option (list EnvInfo)
}.

(** How [getPixiInfo] ends: the command fails ([execMessage] is the
    [message] of the error, [rejection] the object built from it and the
    standard error), its output is not JSON, or it parses ([None] is the
    JSON value [null]). *)
Inductive PixiOutcome : Type :=
| PixiExecError (execMessage : jsstring) (rejection : JsError)
| PixiParseError (stdout : jsstring) (parseError : JsError)
| PixiJson (info : option PixiInfo).

(** How a command run with [exec] goes: the chunks its two streams
    deliver, then the error of the callback ([None] on success) and the
    collected outputs. *)
Record ExecOutcome : Type := mkExecOutcome {
  chunks : list (Stream * jsstring);
  failure : option JsError;
  stdoutText : jsstring;
  stderrText : jsstring
}.

Record WorkspaceFolder : Type := mkWorkspaceFolder {
  folderName : jsstring;
  fsPath : jsstring
}.

(** The active editor's document, with the result of
    [getWorkspaceFolder] on its URI. *)
Record TextDocument : Type := mkTextDocument {
  languageId : jsstring;
  fileName : jsstring;
  workspaceFolder : option WorkspaceFolder
}.

Record WrapperPaths : Type := mkWrapperPaths {
  rPath : jsstring;
  rTermPath : jsstring;
  quartoPath : jsstring
}.

(** [e.name === 'default'] *)
Definition isDefault (e : EnvInfo) : bool :=
  bool_decide (name e = lit "default").

(** The guard of [setupPixiEnvironment] on the parsed answer: the list of
    environments when there is one and it is not empty. *)
Definition environmentsOf (pixiInfo : option PixiInfo) : option (list EnvInfo) :=
  match pixiInfo with
  | Some info =>
    match environments_info info with
    | Some (e :: l) => Some (e :: l)
    | _ => None
    end
  | None => None
  end.

(** [envs.find(e => e.name === 'default') || envs[0]] *)
Definition defaultEnv (envs : list EnvInfo) : option EnvInfo :=
  match find isDefault envs with
  | Some e => Some e
  | None => head envs
  end.

(** [`${err.message}`] *)
Definition messageText (e : JsError) : jsstring :=
  match message e with
  | Some m => m
  | None => lit "undefined"
  end.

(** [`${error.message || error}`] *)
Definition messageOrError (e : JsError) : jsstring :=
  match message e with
  | Some (c :: m) => c :: m
  | _ => shown e
  end.

(** The render command line:
    [`"${quartoWrapperPath}" render "${document.fileName}"${formatArg}`] *)
Definition formatArg (format : option jsstring) : jsstring :=
  match format with
  | Some (c :: f) => lit " --to " ++ c :: f
  | _ => []
  end.

Definition renderCommand (quartoWrapperPath fileName : jsstring)
    (format : option jsstring) : jsstring :=
  dq ++ quartoWrapperPath ++ dq ++ lit " render " ++ dq ++ fileName ++ dq
     ++ formatArg format.

Definition formatDisplay (format : option jsstring) : jsstring :=
  match format with
  | Some (c :: f) => lit " to " ++ c :: f
  | _ => []
  end.

(** The data handlers of [renderQuartoDocument] and
    [installPixiDependencies]: the standard-output handler appends
    [stripAnsi(str)], the standard-error handler the cleaned string. *)
Definition execOutput (chunk : Stream * jsstring) : Effect :=
  match chunk with
  | (Stdout, str) => Append (stripAnsi str)
  | (Stderr, str) => Append (cleanedStr str)
  end.

(** [handleOutput] of [previewQuartoDocument], on the closure variable
    [browserOpened]: the new value of the variable and the calls made. *)
Definition handleOutput (opened : bool) (data : jsstring) : bool * list Effect :=
  let cleaned := cleanedStr data in
  if negb opened then
    match search urlRe cleaned with
    | Some url =>
      (true,
       [Append cleaned;
        AppendLine (nl ++ lit "[Detected local server: " ++ url
                       ++ lit ", opening inside VS Code...]" ++ nl);
        OpenSimpleBrowser url])
    | None => (opened, [Append cleaned])
    end
  else (opened, [Append cleaned]).

(** [`${code}`] for the exit code of the close event ([None] is [null]). *)
Definition codeText (code : option Z) : jsstring :=
  match code with
  | Some z => lit (DecimalString.NilZero.string_of_int (Z.to_int z))
  | None => lit "null"
  end.

(** ** Notions of the specification *)

(** A call that writes to the file system, a call that updates a setting,
    and a call that opens the embedded browser. *)
Definition isFileWrite (e : Effect) : bool :=
  match e with
  | MkdirSync _ | WriteFileSync _ _ | ChmodSync _ _ => true
  | _ => false
  end.

Definition isSettingsUpdate (e : Effect) : bool :=
  match e with
  | ConfigUpdate _ _ _ _ _ => true
  | _ => false
  end.

Definition isBrowserOpen (e : Effect) : bool :=
  match e with
  | OpenSimpleBrowser _ => true
  | _ => false
  end.

(** The calls that concern the preview process: signals, spawns and writes
    to [previewProcess]. *)
Definition isSupervision (e : Effect) : bool :=
  match e with
  | Kill _ _ | Spawn _ _ _ _ | Assign _ => true
  | _ => false
  end.

(** The variable [previewProcess] after a sequence of calls: the value of
    the last write, if any. *)
Fixpoint tracked (init : option handle) (calls : list Effect) : option handle :=
  match calls with
  | [] => init
  | Assign o :: rest => tracked o rest
  | _ :: rest => tracked init rest
  end.

(** A settings update names the workspace target. *)
Definition targetsWorkspace (e : Effect) : Prop :=
  match e with
  | ConfigUpdate _ _ _ _ target => target = Workspace
  | _ => True
  end.

(** A string contains a loopback HTTP URL: "http://", then "localhost"
    or "127.0.0.1", then a colon and a port that starts with a digit. *)
Definition containsLoopbackUrl (s : jsstring) : Prop :=
  exists pre host d post,
    s = pre ++ lit "http://" ++ host ++ lit ":" ++ d :: post /\
    (host = lit "localhost" \/ host = lit "127.0.0.1") /\
    digit d = true.

(** A wrapper script in the words of the specification: one invocation
    of the run subcommand with the manifest path and the environment
    name, the tool, and the forwarding of the arguments. *)
Definition pixiRun (manifestPath envName : jsstring) : jsstring :=
  lit "pixi run --manifest-path " ++ dq ++ manifestPath ++ dq ++ lit " -e " ++ envName.

Definition wrapperScript (windows : bool) (manifestPath envName tool : jsstring)
    : jsstring :=
  if windows then
    lit "@echo off" ++ nl ++ pixiRun manifestPath envName ++ lit " " ++ tool ++ lit " %*"
  else
    lit "#!/bin/sh" ++ nl ++ lit "exec " ++ pixiRun manifestPath envName ++ lit " "
      ++ tool ++ lit " " ++ dq ++ lit "$@" ++ dq.

(** The chunks of one preview process, handled in order by its
    [handleOutput] closure: the final [browserOpened] and all the calls. *)
Fixpoint handleOutputs (opened : bool) (datas : list jsstring)
    : bool * list Effect :=
  match datas with
  | [] => (opened, [])
  | data :: rest =>
    let r := handleOutput opened data in
    let r' := handleOutputs (fst r) rest in
    (fst r', snd r ++ snd r')
  end.

(** Every call of a computation satisfies [P], from every world. *)
Definition always {A} (P : Effect -> Prop) (m : M A) : Prop :=
  forall w, Forall P (trace (m w)).

(** The writes to [previewProcess] among the calls of a computation give
    the value of the variable in the world it leaves. *)
Definition records {A} (m : M A) : Prop :=
  forall w, tracked (previewProcess w) (trace (m w)) = previewProcess (world (m w)).

Definition notAssign (e : Effect) : Prop :=
  match e with
  | Assign _ => False
  | _ => True
  end.

(** A string goes on without a code unit of the class [p]: it is empty or
    its first code unit is outside [p]. *)
Definition stops (p : N -> bool) (s : jsstring) : Prop :=
  match s with
  | [] => True
  | c :: _ => p c = false
  end.

(** The code units that start a control sequence in the pattern of
    [stripAnsi]: escape and the one-unit control sequence introducer. *)
Definition isIntroducer (c : N) : bool := oneOf [27; 155]%N c.

(** The parameters of a control sequence: a first parameter, then
    parameters each after a semicolon. *)
Definition csiParams (first : jsstring) (others : list jsstring) : jsstring :=
  first ++ flat_map (fun p => 59%N :: p) others.

(** A parameter of a control sequence: up to four digits. *)
Definition isParam (p : jsstring) : Prop :=
  Forall (fun c => digit c = true) p /\ length p <= 4.

(** A loopback URL as the extension opens it: "http://", the host
    "localhost" or "127.0.0.1", a colon and a port of one or more
    digits. *)
Definition isLoopbackUrl (url : jsstring) : Prop :=
  exists host port,
    url = lit "http://" ++ host ++ lit ":" ++ port /\
    (host = lit "localhost" \/ host = lit "127.0.0.1") /\
    port <> [] /\ Forall (fun c => digit c = true) port.

Definition opensLoopback (e : Effect) : Prop :=
  match e with
  | OpenSimpleBrowser url => isLoopbackUrl url
  | _ => True
  end.

(** The parameter part of a control sequence: nothing, or a first
    parameter of one to four digits and then parameters of up to four
    digits, each after a semicolon. *)
Definition isParams (body : jsstring) : Prop :=
  body = [] \/
  exists first others,
    body = csiParams first others /\ first <> [] /\
    isParam first /\ Forall isParam others.

(** A computation leaves the state of the preview supervisor as it is:
    the variable [previewProcess], the [browserOpened] variables and the
    identity of the next process. *)
Definition leavesSupervisor {A} (m : M A) : Prop :=
  forall w,
    previewProcess (world (m w)) = previewProcess w /\
    browserOpened (world (m w)) = browserOpened w /\
    nextHandle (world (m w)) = nextHandle w.

(** A call that neither concerns the preview process nor opens the
    browser. *)
Definition noSupervision (e : Effect) : Prop :=
  isSupervision e = false /\ isBrowserOpen e = false.

(** The handle in [previewProcess], when there is one, is the handle of
    the process spawned last. *)
Definition tracksLatest (w : World) : Prop :=
  forall child, previewProcess w = Some child -> S child = nextHandle w.

(** A computation returns, with a value that satisfies [P], from every
    world. *)
Definition returns {A} (P : A -> Prop) (m : M A) : Prop :=
  forall w, exists a, out (m w) = Ok a /\ P a.

Definition isExec (e : Effect) : bool :=
  match e with
  | Exec _ _ => true
  | _ => false
  end.

(** From every world where [I] holds, the computation makes only calls that
    satisfy [P] and leaves a world where [I] holds. *)
Definition maintains {A} (I : World -> Prop) (P : Effect -> Prop) (m : M A) : Prop :=
  forall w, I w -> Forall P (trace (m w)) /\ I (world (m w)).

(** The call writes or changes the mode of no file outside [paths]. *)
Definition writesOnly (paths : list jsstring) (e : Effect) : Prop :=
  match e with
  | WriteFileSync path _ | ChmodSync path _ => path ∈ paths
  | _ => True
  end.

(** A host for the examples: a POSIX [path.join] on already normal
    segments, calls that never throw. *)
Definition posixJoin (l : list jsstring) : jsstring := joinWith (lit "/") l.

Definition lastSegment (p : jsstring) : jsstring :=
  fold_left (fun acc c => if N.eqb c 47 then [] else acc ++ [c]) p [].

Definition noThrow (e : Effect) : option JsError := None.

Definition sampleFolder : WorkspaceFolder :=
  mkWorkspaceFolder (lit "proj") (lit "/w/proj").

Definition sampleDocument : TextDocument :=
  mkTextDocument (lit "quarto") (lit "/w/proj/doc.qmd") (Some sampleFolder).

Definition noOutput (command cwd : jsstring) : ExecOutcome :=
  mkExecOutcome [] None [] [].

(** Answers of the info command: two environments with "default" last,
    two environments none of which is named "default", and one
    environment without prefix. *)
Definition devEnv : EnvInfo :=
  mkEnvInfo (lit "dev") (Some (lit "/w/proj/.pixi/envs/dev")).
Definition defaultEnvInfo : EnvInfo :=
  mkEnvInfo (lit "default") (Some (lit "/w/proj/.pixi/envs/default")).
Definition testEnv : EnvInfo :=
  mkEnvInfo (lit "test") (Some (lit "/w/proj/.pixi/envs/test")).
Definition bareEnv : EnvInfo := mkEnvInfo (lit "default") None.

Definition answers (envs : list EnvInfo) (workspacePath : jsstring) : PixiOutcome :=
  PixiJson (Some (mkPixiInfo (Some envs))).

(** Worlds: a folder with a [pyproject.toml] only; a folder that is set
    up, without and with a tracked preview process. *)
Definition manifestWorld : World :=
  mkWorld {[ lit "/w/proj/pyproject.toml" ]} None ∅ 0.

Definition idleWorld : World :=
  mkWorld {[ lit "/w/proj/.vscode/quarto-pixi-wrapper.sh" ]} None ∅ 0.

Definition runningWorld : World :=
  mkWorld {[ lit "/w/proj/.vscode/quarto-pixi-wrapper.sh" ]} (Some 0) ∅ 1.

Definition emptyWorld : World := mkWorld ∅ None ∅ 0.

(** A chunk made of the escape sequence of "cursor up 2" and of the
    box-drawing character U+2500. *)
Definition boxChunk : jsstring := [27%N] ++ lit "[2A" ++ [9472%N].

(** A render whose standard output delivers [boxChunk]. *)
Definition boxOnStdout (command cwd : jsstring) : ExecOutcome :=
  mkExecOutcome [(Stdout, boxChunk)] None [] [].

Definition someError : JsError :=
  mkJsError (Some (lit "spawn /bin/sh ENOENT")) None (lit "Error: spawn /bin/sh ENOENT").

(** ** The commands of the extension *)

Section Extension.

(** [process.platform], and [path.join] and [path.basename] of the host's
    [path] module. *)
Variable platform : jsstring.
Variable path_join : list jsstring -> jsstring.
Variable path_basename : jsstring -> jsstring.

(** What the outside does: whether a file-system call or a settings update
    throws and whether a signal cannot be sent ([throws] gives the error
    the call fails with), what the info command answers in a folder, how
    a command run with [exec] goes. *)
Variable throws : Effect -> option JsError.
Variable pixiInfoIn : jsstring -> PixiOutcome.
Variable execOf : jsstring -> jsstring -> ExecOutcome.

(** A file-system call or a settings update: it is made, and it either
    throws or takes effect. *)
Definition call (e : Effect) : M unit := fun w =>
  match throws e with
  | Some err => mkRes [e] w (Throw err)
  | None =>
    mkRes [e]
          (mkWorld (files w ∪ created e) (previewProcess w)
                   (browserOpened w) (nextHandle w))
          (Ok tt)
  end.

Definition isWindows : bool := bool_decide (platform = lit "win32").

Definition wrapperExt : jsstring :=
  if isWindows then lit ".bat" else lit ".sh".

Definition getPixiInfo (workspacePath : jsstring) : M (option PixiInfo) :=
  emit (AppendLine (lit "Executing 'pixi info --json' in " ++ workspacePath)) ;;;
  emit (Exec (lit "pixi info --json") workspacePath) ;;;
  match pixiInfoIn workspacePath with
  | PixiExecError execMessage rejection =>
    emit (AppendLine (lit "Command execution error: " ++ execMessage)) ;;;
    throw rejection
  | PixiParseError stdout parseError =>
    emit (AppendLine (lit "Failed to parse pixi info JSON. Stdout: " ++ stdout)) ;;;
    throw parseError
  | PixiJson info => ret info
  end.

Definition condaShimContent : jsstring :=
  lit "#!/bin/sh" ++ nl ++
  lit "# Minimal conda shim for reticulate compatibility." ++ nl ++
  lit "# reticulate calls: conda run --prefix <prefix> python -c " ++ dq ++
  lit "import os; print(os.environ['PATH'])" ++ dq ++ nl ++
  lit "# to resolve the activated PATH. Return prefix/bin prepended to PATH." ++ nl ++
  lit "PREFIX=" ++ dq ++ dq ++ nl ++
  lit "for arg in " ++ dq ++ lit "$@" ++ dq ++ lit "; do" ++ nl ++
  lit "  [ " ++ dq ++ lit "$prev" ++ dq ++ lit " = " ++ dq ++ lit "--prefix" ++ dq ++
  lit " ] || [ " ++ dq ++ lit "$prev" ++ dq ++ lit " = " ++ dq ++ lit "-p" ++ dq ++
  lit " ] && PREFIX=$arg" ++ nl ++
  lit "  prev=$arg" ++ nl ++
  lit "done" ++ nl ++
  lit "[ -n " ++ dq ++ lit "$PREFIX" ++ dq ++ lit " ] && echo " ++ dq ++
  lit "${PREFIX}/bin:${PATH}" ++ dq ++ lit " || echo " ++ dq ++ lit "${PATH}" ++ dq ++ nl.

Definition activateShimContent : jsstring :=
  lit "#!/bin/sh" ++ nl ++
  lit "# Minimal activate shim for reticulate compatibility (no-op for pixi envs)." ++ nl.

(** The first line of a wrapper and the start of its second, up to the
    command to run:
    [`@echo off\npixi run --manifest-path "${manifestPath}" -e ${envName}`]
    on Windows, [`#!/bin/sh\nexec pixi run ...`] elsewhere. *)
Definition baseContent (manifestPath envName : jsstring) : jsstring :=
  if isWindows then
    lit "@echo off" ++ nl ++ lit "pixi run --manifest-path " ++ dq ++
    manifestPath ++ dq ++ lit " -e " ++ envName
  else
    lit "#!/bin/sh" ++ nl ++ lit "exec pixi run --manifest-path " ++ dq ++
    manifestPath ++ dq ++ lit " -e " ++ envName.

Definition rTermScriptContent (manifestPath envName : jsstring) : jsstring :=
  if isWindows then baseContent manifestPath envName ++ lit " R %*"
  else baseContent manifestPath envName ++ lit " R " ++ dq ++ lit "$@" ++ dq.

Definition quartoScriptContent (manifestPath envName : jsstring) : jsstring :=
  if isWindows then baseContent manifestPath envName ++ lit " quarto %*"
  else baseContent manifestPath envName ++ lit " quarto " ++ dq ++ lit "$@" ++ dq.

Definition vscodeDirOf (workspacePath : jsstring) : jsstring :=
  path_join [workspacePath; lit ".vscode"].

Definition rTermWrapperPathOf (workspacePath : jsstring) : jsstring :=
  path_join [vscodeDirOf workspacePath; lit "rterm-pixi-wrapper" ++ wrapperExt].

Definition quartoWrapperPathOf (workspacePath : jsstring) : jsstring :=
  path_join [vscodeDirOf workspacePath; lit "quarto-pixi-wrapper" ++ wrapperExt].

Definition when (b : bool) (m : M unit) : M unit :=
  if b then m else ret tt.

Definition createWrapperScripts (workspacePath envName prefix : jsstring)
    : M WrapperPaths :=
  let vscodeDir := vscodeDirOf workspacePath in
  hasDir <- existsSync vscodeDir ;;
  when (negb hasDir) (call (MkdirSync vscodeDir)) ;;;
  let rTermWrapperPath := rTermWrapperPathOf workspacePath in
  let quartoWrapperPath := quartoWrapperPathOf workspacePath in
  let pixiTomlPath := path_join [workspacePath; lit "pixi.toml"] in
  let pyprojectTomlPath := path_join [workspacePath; lit "pyproject.toml"] in
  hasPixiToml <- existsSync pixiTomlPath ;;
  let manifestPath := if hasPixiToml then pixiTomlPath else pyprojectTomlPath in
  call (WriteFileSync rTermWrapperPath (rTermScriptContent manifestPath envName)) ;;;
  call (WriteFileSync quartoWrapperPath (quartoScriptContent manifestPath envName)) ;;;
  when (negb isWindows)
    (call (ChmodSync rTermWrapperPath 493) ;;;
     call (ChmodSync quartoWrapperPath 493)) ;;;
  let pixiActivatePath := path_join [workspacePath; lit ".pixi-activate.sh"] in
  hasActivate <- existsSync pixiActivatePath ;;
  when (negb hasActivate)
    (call (WriteFileSync pixiActivatePath
             (lit "#!/bin/sh" ++ nl ++
              lit "# Project-level pixi activation hook (intentionally empty)" ++ nl)) ;;;
     when (negb isWindows) (call (ChmodSync pixiActivatePath 493)) ;;;
     emit (AppendLine (lit "Created " ++ pixiActivatePath))) ;;;
  let rBinPath :=
    if isWindows then path_join [prefix; lit "lib"; lit "R"; lit "bin"; lit "R.exe"]
    else path_join [prefix; lit "bin"; lit "R"] in
  when (negb isWindows)
    (let envBin := path_join [prefix; lit "bin"] in
     let condaShimPath := path_join [envBin; lit "conda"] in
     call (WriteFileSync condaShimPath condaShimContent) ;;;
     call (ChmodSync condaShimPath 493) ;;;
     emit (AppendLine (lit "Created conda shim: " ++ condaShimPath)) ;;;
     let activateShimPath := path_join [envBin; lit "activate"] in
     call (WriteFileSync activateShimPath activateShimContent) ;;;
     call (ChmodSync activateShimPath 493) ;;;
     emit (AppendLine (lit "Created activate shim: " ++ activateShimPath))) ;;;
  emit (AppendLine (lit "Created wrapper scripts in " ++ vscodeDir)) ;;;
  emit (AppendLine (lit "R binary path for r.rpath: " ++ rBinPath)) ;;;
  ret (mkWrapperPaths rBinPath rTermWrapperPath quartoWrapperPath).

Definition configureWorkspaceSettings (folder : WorkspaceFolder)
    (rPath rTermPath quartoPath : jsstring) : M unit :=
  emit (AppendLine (lit "Configuring settings for platform: " ++ platform)) ;;;
  emit (AppendLine (lit "Calculated R binary path (r.rpath): " ++ rPath)) ;;;
  emit (AppendLine (lit "Calculated R term path  (r.rterm): " ++ rTermPath)) ;;;
  emit (AppendLine (lit "Calculated Quarto path  (quarto.path): " ++ quartoPath)) ;;;
  tryCatch
    ((if isWindows then
        call (ConfigUpdate (fsPath folder) (lit "r") (lit "rpath.windows") rPath Workspace) ;;;
        call (ConfigUpdate (fsPath folder) (lit "r") (lit "rterm.windows") rTermPath Workspace) ;;;
        emit (AppendLine (lit "Updated Windows R paths."))
      else if bool_decide (platform = lit "darwin") then
        call (ConfigUpdate (fsPath folder) (lit "r") (lit "rpath.mac") rPath Workspace) ;;;
        call (ConfigUpdate (fsPath folder) (lit "r") (lit "rterm.mac") rTermPath Workspace) ;;;
        emit (AppendLine (lit "Updated macOS R paths."))
      else
        call (ConfigUpdate (fsPath folder) (lit "r") (lit "rpath.linux") rPath Workspace) ;;;
        call (ConfigUpdate (fsPath folder) (lit "r") (lit "rterm.linux") rTermPath Workspace) ;;;
        emit (AppendLine (lit "Updated Linux R paths."))) ;;;
     call (ConfigUpdate (fsPath folder) (lit "quarto") (lit "path") quartoPath Workspace) ;;;
     emit (AppendLine (lit "Updated Quarto path.")) ;;;
     emit (AppendLine (lit "Successfully applied settings to .vscode/settings.json.")))
    (fun err =>
     emit (AppendLine (lit "Error updating workspace configuration: " ++ messageText err))).

(** The [TypeError] of reading [prefix] from [undefined]. *)
Definition undefinedPrefix : JsError :=
  mkJsError (Some (lit "Cannot read properties of undefined (reading 'prefix')"))
            None
            (lit "TypeError: Cannot read properties of undefined (reading 'prefix')").

(** The body of the loop of [setupPixiEnvironment]. *)
Definition setupFolder (folder : WorkspaceFolder) : M unit :=
  let pixiTomlPath := path_join [fsPath folder; lit "pixi.toml"] in
  let pyprojectTomlPath := path_join [fsPath folder; lit "pyproject.toml"] in
  emit (AppendLine (lit "Checking for pixi.toml or pyproject.toml at: " ++ fsPath folder)) ;;;
  hasPixiToml <- existsSync pixiTomlPath ;;
  hasPyproject <- existsSync pyprojectTomlPath ;;
  if hasPixiToml || hasPyproject then
    emit (AppendLine (lit "Found Pixi manifest in " ++ folderName folder)) ;;;
    tryCatch
      (pixiInfo <- getPixiInfo (fsPath folder) ;;
       match environmentsOf pixiInfo with
       | Some envs =>
         match defaultEnv envs with
         | Some env =>
           if truthy (prefix env) then
             let prefix := default [] (prefix env) in
             emit (AppendLine (lit "Detected Pixi environment prefix: " ++ prefix)) ;;;
             wrapperPaths <- createWrapperScripts (fsPath folder) (name env) prefix ;;
             configureWorkspaceSettings folder (rPath wrapperPaths)
               (rTermPath wrapperPaths) (quartoPath wrapperPaths) ;;;
             emit (ShowInformationMessage
                     (lit "R and Quarto configured to use Pixi environment: " ++ name env))
           else
             emit (AppendLine (lit "Error: No prefix found for environment " ++ name env))
         | None => throw undefinedPrefix
         end
       | None =>
         emit (AppendLine (lit "Warning: Valid pixi info obtained, but no environments found."))
       end)
      (fun error =>
       emit (AppendLine (lit "Failed to setup Pixi environment. Error: " ++ messageOrError error)) ;;;
       when (truthy (stderr error))
         (emit (AppendLine (lit "Stderr: " ++ default [] (stderr error)))) ;;;
       emit (ShowErrorMessage
               (lit "Failed to configure Pixi environment for R and Quarto. Check the " ++ dq ++
                lit "R Pixi Venv" ++ dq ++ lit " output channel for details.")))
  else
    emit (AppendLine (lit "No pixi.toml found in " ++ folderName folder)).

(** [workspaceFolders] is [None] when the host has no folder open. *)
Definition setupPixiEnvironment (workspaceFolders : option (list WorkspaceFolder))
    : M unit :=
  match workspaceFolders with
  | None => emit (AppendLine (lit "No workspace folders found."))
  | Some folders => forEach folders setupFolder
  end.

(** The checks that [renderQuartoDocument] and [previewQuartoDocument]
    share: the document and the path of the Quarto wrapper when every
    check passes, the error message shown otherwise. *)
Definition isQuartoDocument (document : TextDocument) : bool :=
  bool_decide (languageId document = lit "quarto")
  || endsWith (fileName document) (lit ".qmd")
  || endsWith (fileName document) (lit ".rmd").

Definition checkDocument (editor : option TextDocument)
    : M (option (TextDocument * WorkspaceFolder * jsstring)) :=
  match editor with
  | None =>
    emit (ShowErrorMessage
            (lit "No active editor found. Please open a Quarto (.qmd) file.")) ;;;
    ret None
  | Some document =>
    if negb (isQuartoDocument document) then
      emit (ShowErrorMessage
              (lit "The active file is not a Quarto or RMarkdown document.")) ;;;
      ret None
    else
      match workspaceFolder document with
      | None =>
        emit (ShowErrorMessage (lit "File is not part of a workspace.")) ;;;
        ret None
      | Some folder =>
        let quartoWrapperPath := quartoWrapperPathOf (fsPath folder) in
        hasWrapper <- existsSync quartoWrapperPath ;;
        if negb hasWrapper then
          emit (ShowErrorMessage
                  (lit "Pixi wrapper for Quarto not found. Please run " ++ dq ++
                   lit "Setup R and Quarto from Pixi" ++ dq ++ lit " first.")) ;;;
          ret None
        else ret (Some (document, folder, quartoWrapperPath))
      end
  end.

(** [renderQuartoDocument]: the command is run with [exec]; its chunks go
    through the data handlers, then the callback reports the result. *)
Definition renderQuartoDocument (format : option jsstring)
    (editor : option TextDocument) : M unit :=
  checked <- checkDocument editor ;;
  match checked with
  | None => ret tt
  | Some (document, folder, quartoWrapperPath) =>
    emit (WithProgress (lit "Rendering " ++ path_basename (fileName document)
                          ++ formatDisplay format ++ lit " via Pixi...")) ;;;
    let command := renderCommand quartoWrapperPath (fileName document) format in
    emit (AppendLine (lit "Executing: " ++ command)) ;;;
    emit (ShowChannel) ;;;
    let cwd := fsPath folder in
    emit (Exec command cwd) ;;;
    let result := execOf command cwd in
    forEach (chunks result) (fun chunk => emit (execOutput chunk)) ;;;
    match failure result with
    | Some error =>
      emit (AppendLine (lit "Render error: " ++ messageText error)) ;;;
      emit (ShowErrorMessage
              (lit "Failed to render Quarto document" ++ formatDisplay format ++
               lit ". Check the " ++ dq ++ lit "R Pixi Venv" ++ dq ++ lit " output channel."))
    | None =>
      emit (ShowInformationMessage
              (lit "Quarto document rendered" ++ formatDisplay format ++ lit " successfully!"))
    end
  end.

(** [renderQuartoDocumentWithFormat]: [picked] is the label the user
    chose in the quick pick, [None] when the pick was cancelled. *)
Definition formats : list jsstring :=
  [lit "html"; lit "pdf"; lit "docx"; lit "typst"; lit "revealjs"; lit "pptx"; lit "gfm"].

Definition renderQuartoDocumentWithFormat (picked : option jsstring)
    (editor : option TextDocument) : M unit :=
  match picked with
  | None => ret tt
  | Some label => renderQuartoDocument (Some label) editor
  end.

(** [spawn] returns a new [ChildProcess]. *)
Definition spawn (command : jsstring) (args : list jsstring) (cwd : jsstring)
    : M handle := fun w =>
  mkRes [Spawn command args cwd (nextHandle w)]
        (mkWorld (files w) (previewProcess w) (browserOpened w) (S (nextHandle w)))
        (Ok (nextHandle w)).

(** A write to the [browserOpened] variable of the closure of [child]. *)
Definition setBrowserOpened (child : handle) (opened : bool) : M unit := fun w =>
  mkRes []
        (mkWorld (files w) (previewProcess w)
                 (if opened then browserOpened w ∪ {[ child ]}
                  else browserOpened w ∖ {[ child ]})
                 (nextHandle w))
        (Ok tt).

(** The error event of the preview process [child]: the handler that
    [previewQuartoDocument] registers on the process it spawns. *)
Definition onError (child : handle) (err : JsError) : M unit :=
  emit (AppendLine (nl ++ lit "[Preview process error: " ++ messageText err
                       ++ lit "]" ++ nl)).

(** [child.kill(signal)] on a preview process.  When the signal cannot be
    sent, the runtime raises the error as an error event of the process
    inside the call: the error handler of the process runs, then the call
    returns. *)
Definition kill (child : handle) (signal : jsstring) : M unit :=
  emit (Kill child signal) ;;;
  match throws (Kill child signal) with
  | Some err => onError child err
  | None => ret tt
  end.

Definition previewQuartoDocument (editor : option TextDocument) : M unit :=
  checked <- checkDocument editor ;;
  match checked with
  | None => ret tt
  | Some (document, folder, quartoWrapperPath) =>
    running <- getPreviewProcess ;;
    match running with
    | Some child =>
      emit (AppendLine (lit "Killing existing preview process...")) ;;;
      kill child (lit "SIGINT") ;;;
      setPreviewProcess None
    | None => ret tt
    end ;;;
    let args := [lit "preview"; fileName document; lit "--no-browser"] in
    let cwd := fsPath folder in
    emit (AppendLine (lit "Starting Preview: " ++ dq ++ quartoWrapperPath ++ dq
                        ++ lit " " ++ joinWith (lit " ") args)) ;;;
    emit ShowChannel ;;;
    child <- spawn (dq ++ quartoWrapperPath ++ dq) args cwd ;;
    setPreviewProcess (Some child) ;;;
    setBrowserOpened child false
  end.

(** The data event of a stream of the preview process [child]. *)
Definition onData (child : handle) (data : jsstring) : M unit := fun w =>
  let r := handleOutput (bool_decide (child ∈ browserOpened w)) data in
  mkRes (snd r) (world (setBrowserOpened child (fst r) w)) (Ok tt).

(** The close event of the preview process [child]. *)
Definition onClose (child : handle) (code : option Z) : M unit :=
  emit (AppendLine (nl ++ lit "[Preview process exited with code " ++ codeText code
                       ++ lit "]" ++ nl)) ;;;
  running <- getPreviewProcess ;;
  match running with
  | Some _ => setPreviewProcess None
  | None => ret tt
  end.

Definition deactivate : M unit :=
  running <- getPreviewProcess ;;
  match running with
  | Some child =>
    kill child (lit "SIGINT") ;;;
    setPreviewProcess None
  | None => ret tt
  end.

(** The body of the loop of [installPixiDependencies].  The call of
    [setupPixiEnvironment] in the callback is not awaited; its calls are
    listed here where it starts. *)
Definition installFolder (workspaceFolders : option (list WorkspaceFolder))
    (folder : WorkspaceFolder) : M unit :=
  let pixiTomlPath := path_join [fsPath folder; lit "pixi.toml"] in
  let pyprojectTomlPath := path_join [fsPath folder; lit "pyproject.toml"] in
  hasPixiToml <- existsSync pixiTomlPath ;;
  hasPyproject <- existsSync pyprojectTomlPath ;;
  if hasPixiToml || hasPyproject then
    emit (WithProgress (lit "Installing R and Quarto via Pixi in " ++ folderName folder
                          ++ lit "...")) ;;;
    emit (AppendLine (lit "Executing 'pixi add r-base r-languageserver quarto -c conda-forge' in "
                        ++ fsPath folder)) ;;;
    let command := lit "pixi add r-base r-languageserver quarto -c conda-forge" in
    emit (Exec command (fsPath folder)) ;;;
    let result := execOf command (fsPath folder) in
    forEach (chunks result) (fun chunk => emit (execOutput chunk)) ;;;
    match failure result with
    | Some error =>
      emit (AppendLine (lit "Install error: " ++ messageText error)) ;;;
      emit (AppendLine (lit "Stderr: " ++ stderrText result)) ;;;
      emit (ShowErrorMessage
              (lit "Failed to install R and Quarto via Pixi. Check the " ++ dq ++
               lit "R Pixi Venv" ++ dq ++ lit " output channel.")) ;;;
      throw error
    | None =>
      emit (AppendLine (lit "Install output: " ++ stdoutText result)) ;;;
      emit (ShowInformationMessage (lit "Successfully installed R and Quarto via Pixi.")) ;;;
      detached (setupPixiEnvironment workspaceFolders)
    end
  else
    emit (ShowWarningMessage (lit "No pixi.toml or pyproject.toml found in the workspace.")).

Definition installPixiDependencies (workspaceFolders : option (list WorkspaceFolder))
    : M unit :=
  match workspaceFolders with
  | None => emit (ShowErrorMessage (lit "No workspace folders found."))
  | Some folders => forEach folders (installFolder workspaceFolders)
  end.

(** What the host delivers to the extension: the activation, a command of
    the user, an event of a preview process, or the shutdown. *)
Inductive Event : Type :=
| EvActivate (workspaceFolders : option (list WorkspaceFolder))
| CmdSetup (workspaceFolders : option (list WorkspaceFolder))
| CmdInstall (workspaceFolders : option (list WorkspaceFolder))
| CmdRender (editor : option TextDocument)
| CmdRenderFormat (picked : option jsstring) (editor : option TextDocument)
| CmdPreview (editor : option TextDocument)
| EvData (child : handle) (data : jsstring)
| EvClose (child : handle) (code : option Z)
| EvError (child : handle) (err : JsError)
| EvDeactivate.

(** [activate] logs and starts the setup; the handlers it registers run
    their command after a log line.  No handler awaits its command: a
    command is run here to its end before the next event is taken. *)
Definition handle_event (ev : Event) : M unit :=
  match ev with
  | EvActivate folders =>
    emit (AppendLine (lit "Activating r-pixi-venv extension")) ;;;
    detached (setupPixiEnvironment folders)
  | CmdSetup folders =>
    emit (AppendLine (lit "Manual setup command triggered.")) ;;;
    detached (setupPixiEnvironment folders)
  | CmdInstall folders =>
    emit (AppendLine (lit "Install dependencies command triggered.")) ;;;
    detached (installPixiDependencies folders)
  | CmdRender editor =>
    emit (AppendLine (lit "Render Quarto command triggered.")) ;;;
    detached (renderQuartoDocument None editor)
  | CmdRenderFormat picked editor =>
    emit (AppendLine (lit "Render Quarto (Format) command triggered.")) ;;;
    detached (renderQuartoDocumentWithFormat picked editor)
  | CmdPreview editor =>
    emit (AppendLine (lit "Preview Quarto command triggered.")) ;;;
    detached (previewQuartoDocument editor)
  | EvData child data => onData child data
  | EvClose child code => onClose child code
  | EvError child err => onError child err
  | EvDeactivate => deactivate
  end.

(** A run of the extension over a sequence of events. *)
Definition handle_events (evs : list Event) : M unit :=
  forEach evs handle_event.


(** What a file written by [createWrapperScripts] is: one of the two
    wrappers, with a manifest path of the folder, or one of the three
    other files (the activation hook and the two shims). *)
Definition wrapperOrShim (workspacePath envName prefix : jsstring)
    (e : Effect) : Prop :=
  match e with
  | WriteFileSync path data =>
    (exists manifestPath,
       (manifestPath = path_join [workspacePath; lit "pixi.toml"] \/
        manifestPath = path_join [workspacePath; lit "pyproject.toml"]) /\
       ((path = rTermWrapperPathOf workspacePath /\
         data = wrapperScript isWindows manifestPath envName (lit "R")) \/
        (path = quartoWrapperPathOf workspacePath /\
         data = wrapperScript isWindows manifestPath envName (lit "quarto")))) \/
    path = path_join [workspacePath; lit ".pixi-activate.sh"] \/
    path = path_join [path_join [prefix; lit "bin"]; lit "conda"] \/
    path = path_join [path_join [prefix; lit "bin"]; lit "activate"]
  | _ => True
  end.

(** The last part of the keys of the R settings on this platform. *)
Definition osKey : jsstring :=
  if isWindows then lit "windows"
  else if bool_decide (platform = lit "darwin") then lit "mac"
  else lit "linux".

(** The path of the R binary in an environment, as [createWrapperScripts]
    returns it for [r.rpath]. *)
Definition rBinPathOf (prefix : jsstring) : jsstring :=
  if isWindows then path_join [prefix; lit "lib"; lit "R"; lit "bin"; lit "R.exe"]
  else path_join [prefix; lit "bin"; lit "R"].

(** The message shown when the setup of a folder fails. *)
Definition setupFailedMessage : jsstring :=
  lit "Failed to configure Pixi environment for R and Quarto. Check the " ++ dq ++
  lit "R Pixi Venv" ++ dq ++ lit " output channel for details.".

(** What the runtime delivers for a preview process that could not be
    started: the error event, then the close event of the process. *)
Definition spawnFailure (child : handle) (err : JsError) (code : option Z)
    : list Event :=
  [EvError child err; EvClose child code].

(** The processes that a sequence of calls spawns, and the processes
    whose close event is in a sequence of events. *)
Definition spawnedIn (calls : list Effect) : list handle :=
  flat_map (fun e => match e with Spawn _ _ _ child => [child] | _ => [] end) calls.

Definition closedIn (evs : list Event) : list handle :=
  flat_map (fun ev => match ev with EvClose child _ => [child] | _ => [] end) evs.

(** The preview processes that are alive after a run: the ones the run
    has spawned and whose close event has not come. *)
Definition live (evs : list Event) (w : World) : list handle :=
  List.filter (fun child => negb (bool_decide (child ∈ closedIn evs)))
              (spawnedIn (trace (handle_events evs w))).

(** What the setup of [folder] shows of the environment record it works
    with.  Without a prefix: the line that names the record, and nothing
    after it.  With a prefix: the line with the prefix, then the calls of
    [createWrapperScripts] for the name and the prefix of the record; and
    when no file-system call throws, the message that names the record
    comes last. *)
Definition setupUses (folder : WorkspaceFolder) (w : World) (env : EnvInfo) : Prop :=
  (truthy (prefix env) = false ->
   trace (setupFolder folder w)
   = [AppendLine (lit "Checking for pixi.toml or pyproject.toml at: " ++ fsPath folder);
      AppendLine (lit "Found Pixi manifest in " ++ folderName folder);
      AppendLine (lit "Executing 'pixi info --json' in " ++ fsPath folder);
      Exec (lit "pixi info --json") (fsPath folder);
      AppendLine (lit "Error: No prefix found for environment " ++ name env)]) /\
  (forall c p, prefix env = Some (c :: p) ->
     (exists rest,
        trace (setupFolder folder w)
        = [AppendLine (lit "Checking for pixi.toml or pyproject.toml at: "
                         ++ fsPath folder);
           AppendLine (lit "Found Pixi manifest in " ++ folderName folder);
           AppendLine (lit "Executing 'pixi info --json' in " ++ fsPath folder);
           Exec (lit "pixi info --json") (fsPath folder);
           AppendLine (lit "Detected Pixi environment prefix: " ++ c :: p)]
          ++ trace (createWrapperScripts (fsPath folder) (name env) (c :: p) w)
          ++ rest) /\
     ((forall e, isFileWrite e = true -> throws e = None) ->
      last (trace (setupFolder folder w))
      = Some (ShowInformationMessage
                (lit "R and Quarto configured to use Pixi environment: " ++ name env)))).

(** * Properties *)

(** ** Strings *)

Lemma stripPrefix_spec (w s t : jsstring) :
  stripPrefix w s = Some t <-> s = w ++ t.
Proof.
  revert s. induction w as [|a w IH]; intros s; simpl.
  - split; [intros [= ->]; reflexivity | intros ->; reflexivity].
  - destruct s as [|c s]; [split; discriminate|].
    destruct (N.eqb_spec a c) as [->|Hne].
    + rewrite IH. split; [intros ->; reflexivity | intros [= ->]; reflexivity].
    + split; [discriminate | intros [= -> _]; contradiction].
Qed.

Lemma startsWith_spec (s w : jsstring) :
  startsWith s w = true <-> exists t, s = w ++ t.
Proof.
  unfold startsWith. destruct (stripPrefix w s) as [t|] eqn:E.
  - split; [intros _; exists t; by apply stripPrefix_spec | done].
  - split; [done | intros [t Ht]]. apply stripPrefix_spec in Ht. congruence.
Qed.

(** [includes] finds exactly the substrings. *)
Lemma includes_spec (s w : jsstring) :
  includes s w = true <-> exists pre post, s = pre ++ w ++ post.
Proof.
  induction s as [|c s IH]; simpl.
  - rewrite orb_false_r, startsWith_spec. split.
    + intros [t Ht]. exists [], t. exact Ht.
    + intros (pre & post & H). destruct pre; [|discriminate]. eauto.
  - rewrite orb_true_iff, startsWith_spec, IH. split.
    + intros [[t Ht]|(pre & post & ->)].
      * exists [], t. exact Ht.
      * exists (c :: pre), post. reflexivity.
    + intros (pre & post & H). destruct pre as [|c' pre]; simpl in H.
      * left. eauto.
      * right. injection H as -> ->. eauto.
Qed.

(** A word with no [c] in it that starts [a ++ c :: b] lies within [a]. *)
Lemma stripPrefix_app_sep (w a b : jsstring) (c : N) :
  c ∉ w -> startsWith (a ++ c :: b) w = true -> startsWith a w = true.
Proof.
  unfold startsWith. revert a. induction w as [|y w IH]; intros a Hc; simpl; [done|].
  destruct a as [|x a]; simpl.
  - destruct (N.eqb_spec y c) as [->|]; [|done].
    exfalso. apply Hc. left.
  - destruct (N.eqb y x); [|done]. apply IH. intros Hin. apply Hc. by right.
Qed.

(** A non-empty word with no [c] in it does not straddle a [c]. *)
Lemma includes_app_sep (w a b : jsstring) (c : N) :
  w <> [] -> c ∉ w ->
  includes (a ++ c :: b) w = includes a w || includes b w.
Proof.
  intros Hw Hc. induction a as [|x a IH]; simpl.
  - destruct w as [|y w]; [done|].
    unfold startsWith at 1 2. simpl.
    destruct (N.eqb_spec y c) as [->|]; [|done].
    exfalso. apply Hc. left.
  - rewrite IH. destruct (startsWith (x :: a ++ c :: b) w) eqn:E.
    + apply (stripPrefix_app_sep w (x :: a) b c Hc) in E. by rewrite E.
    + destruct (startsWith (x :: a) w) eqn:E'; [|done].
      apply startsWith_spec in E' as [t Ht].
      assert (startsWith (x :: a ++ c :: b) w = true); [|congruence].
      apply startsWith_spec. exists (t ++ c :: b).
      change (x :: a ++ c :: b) with ((x :: a) ++ c :: b).
      rewrite Ht. by rewrite <- app_assoc.
Qed.

(** ** The choice of the environment *)

Lemma find_isDefault_none (envs : list EnvInfo) :
  find isDefault envs = None <-> forall e, e ∈ envs -> name e <> lit "default".
Proof.
  induction envs as [|a l IH]; simpl.
  - split; [intros _ e He; inversion He | done].
  - unfold isDefault at 1. case_bool_decide as Ha.
    + split; [done | intros H]. exfalso. eapply H; [left | exact Ha].
    + rewrite IH. split.
      * intros H e He. inversion He; subst; auto.
      * intros H e He. apply H. by right.
Qed.

Lemma find_isDefault_some (envs : list EnvInfo) (d : EnvInfo) :
  find isDefault envs = Some d ->
  exists pre post, envs = pre ++ d :: post /\ name d = lit "default" /\
                   forall x, x ∈ pre -> name x <> lit "default".
Proof.
  induction envs as [|a l IH]; simpl; [done|].
  unfold isDefault at 1. case_bool_decide as Ha.
  - intros [= <-]. exists [], l. split; [done|]. split; [done|].
    intros x Hx. inversion Hx.
  - intros H. destruct (IH H) as (pre & post & -> & Hd & Hpre).
    exists (a :: pre), post. split; [done|]. split; [done|].
    intros x Hx. inversion Hx; subst; auto.
Qed.

(** Whenever a record of the list is named "default", [defaultEnv]
    picks a record of the list with that name, the first one, wherever
    it stands (and the record itself when it is the only one with that
    name); when no record has that name it picks the first element of the
    list. *)
Lemma defaultEnv_spec (envs : list EnvInfo) :
  (forall e, e ∈ envs -> name e = lit "default" ->
     exists d pre post,
       defaultEnv envs = Some d /\ name d = lit "default" /\
       envs = pre ++ d :: post /\
       (forall x, x ∈ pre -> name x <> lit "default") /\
       ((forall x, x ∈ envs -> name x = lit "default" -> x = e) -> d = e)) /\
  ((forall e, e ∈ envs -> name e <> lit "default") ->
     defaultEnv envs = head envs).
Proof.
  split.
  - intros e He Hname. unfold defaultEnv.
    destruct (find isDefault envs) as [d|] eqn:E.
    + destruct (find_isDefault_some envs d E) as (pre & post & Heq & Hd & Hpre).
      exists d, pre, post. split; [done|]. split; [done|]. split; [done|].
      split; [done|].
      intros Huniq. apply Huniq; [|done]. rewrite Heq.
      apply elem_of_app. right. left.
    + exfalso. destruct (find_isDefault_none envs) as [H1 _].
      exact (H1 E e He Hname).
  - intros H. unfold defaultEnv.
    apply find_isDefault_none in H. by rewrite H.
Qed.

(** ** The render command line *)

Lemma renderCommand_none (quartoWrapperPath fileName : jsstring) :
  renderCommand quartoWrapperPath fileName None
  = dq ++ quartoWrapperPath ++ dq ++ lit " render " ++ dq ++ fileName ++ dq.
Proof. unfold renderCommand. simpl formatArg. by rewrite !app_nil_r. Qed.

Lemma renderCommand_format (quartoWrapperPath fileName : jsstring) (c : N)
    (f : jsstring) :
  renderCommand quartoWrapperPath fileName (Some (c :: f))
  = renderCommand quartoWrapperPath fileName None ++ lit " --to " ++ c :: f.
Proof.
  unfold renderCommand. simpl formatArg. rewrite app_nil_r.
  by rewrite <- !app_assoc.
Qed.

Lemma renderCommand_includes_format (quartoWrapperPath fileName : jsstring)
    (c : N) (f : jsstring) :
  includes (renderCommand quartoWrapperPath fileName (Some (c :: f)))
           (lit "--to " ++ c :: f) = true.
Proof.
  apply includes_spec.
  exists (dq ++ quartoWrapperPath ++ dq ++ lit " render " ++ dq ++ fileName
            ++ dq ++ lit " "), [].
  unfold renderCommand. rewrite app_nil_r, <- !app_assoc. reflexivity.
Qed.

(** Every label of the format picker gives a command line with [--to]
    and the label. *)
Lemma renderCommand_formats (quartoWrapperPath fileName : jsstring) :
  Forall (fun label =>
            includes (renderCommand quartoWrapperPath fileName (Some label))
                     (lit "--to " ++ label) = true) formats.
Proof.
  unfold formats. repeat constructor;
    apply (renderCommand_includes_format quartoWrapperPath fileName).
Qed.

(** With a format (a non-empty string) the command line is the
    command line without format followed by [--to] and the format, so it
    contains [--to] followed by the format; without a format (or with the
    empty string) the command line stops after the quoted file name, and
    contains [--to] nowhere unless one of the two paths does. *)
Lemma renderCommand_to_flag (quartoWrapperPath fileName : jsstring) :
  (forall format, format <> [] ->
     renderCommand quartoWrapperPath fileName (Some format)
       = renderCommand quartoWrapperPath fileName None ++ lit " --to " ++ format /\
     includes (renderCommand quartoWrapperPath fileName (Some format))
              (lit "--to " ++ format) = true) /\
  renderCommand quartoWrapperPath fileName None
    = dq ++ quartoWrapperPath ++ dq ++ lit " render " ++ dq ++ fileName ++ dq /\
  renderCommand quartoWrapperPath fileName (Some [])
    = renderCommand quartoWrapperPath fileName None /\
  (includes quartoWrapperPath (lit "--to") = false ->
   includes fileName (lit "--to") = false ->
   includes (renderCommand quartoWrapperPath fileName None) (lit "--to") = false).
Proof.
  split; [|split; [apply renderCommand_none|split]].
  - intros [|c f] Hf; [done|]. split.
    + apply renderCommand_format.
    + apply renderCommand_includes_format.
  - reflexivity.
  - intros Hw Hf. rewrite renderCommand_none.
    assert (Hq : 34%N ∉ lit "--to").
    { intros H. apply list_elem_of_In in H. simpl in H.
      repeat (destruct H as [H|H]; [discriminate|]). destruct H. }
    assert (Hne : lit "--to" <> []) by done.
    unfold dq.
    change ([34%N] ++ quartoWrapperPath ++ [34%N] ++ lit " render " ++ [34%N] ++ fileName ++ [34%N])
      with ([] ++ 34%N :: (quartoWrapperPath ++ 34%N :: (lit " render " ++ 34%N :: (fileName ++ 34%N :: [])))).
    rewrite !(includes_app_sep _ _ _ _ Hne Hq), Hw, Hf. reflexivity.
Qed.

(** ** The matcher *)

Lemma flat_map_ext_In {A B} (f g : A -> list B) (l : list A) :
  (forall a, In a l -> f a = g a) -> flat_map f l = flat_map g l.
Proof.
  induction l as [|a l IH]; intros H; simpl; [done|].
  rewrite (H a (or_introl eq_refl)), IH; [done|].
  intros b Hb. apply H. by right.
Qed.

(** A quantifier leaves a suffix of its input when its atom does. *)
Lemma repeatMatcher_length (m : jsstring -> list jsstring) :
  (forall s y, In y (m s) -> length y <= length s) ->
  forall fuel lo hi x y,
    In y (repeatMatcher m fuel lo hi x) -> length y <= length x.
Proof.
  intros Hm. induction fuel as [|fuel IH]; intros lo hi x y; simpl; [done|].
  assert (Hiter : In y (flat_map (fun y0 : jsstring =>
      if Nat.eqb lo 0 && Nat.eqb (length y0) (length x) then []
      else repeatMatcher m fuel (Nat.pred lo) (option_map Nat.pred hi) y0) (m x))
      -> length y <= length x).
  { intros Hin. apply in_flat_map in Hin as (z & Hz & Hy).
    destruct (Nat.eqb lo 0 && Nat.eqb (length z) (length x)); [done|].
    apply IH in Hy. apply Hm in Hz. lia. }
  assert (Hstop : In y [x] -> length y <= length x).
  { intros [<-|[]]. lia. }
  destruct hi as [[|n]|], lo as [|lo]; try exact Hstop;
    try exact Hiter; intros Hin; apply in_app_or in Hin as [Hin|Hin]; auto.
Qed.

Lemma run_length (r : regex) (s y : jsstring) :
  In y (run r s) -> length y <= length s.
Proof.
  revert s y. induction r as [p| |a IHa b IHb|a IHa b IHb|a IHa lo hi];
    intros s y; simpl.
  - destruct s as [|c t]; [done|]. destruct (p c); [|done].
    intros [<-|[]]. simpl. lia.
  - intros [<-|[]]. lia.
  - intros Hin. apply in_flat_map in Hin as (z & Hz & Hy).
    apply IHa in Hz. apply IHb in Hy. lia.
  - intros Hin. apply in_app_or in Hin as [Hin|Hin]; auto.
  - apply repeatMatcher_length. exact IHa.
Qed.

(** The fuel of a quantifier is never used up: any larger amount gives
    the same matches. *)
Lemma repeatMatcher_fuel (m : jsstring -> list jsstring) :
  (forall s y, In y (m s) -> length y <= length s) ->
  forall f1 f2 lo hi x,
    lo + length x < f1 -> lo + length x < f2 ->
    repeatMatcher m f1 lo hi x = repeatMatcher m f2 lo hi x.
Proof.
  intros Hm. induction f1 as [|f1 IH]; intros f2 lo hi x H1 H2; [lia|].
  destruct f2 as [|f2]; [lia|]. simpl.
  assert (Hiter : flat_map (fun y : jsstring =>
      if Nat.eqb lo 0 && Nat.eqb (length y) (length x) then []
      else repeatMatcher m f1 (Nat.pred lo) (option_map Nat.pred hi) y) (m x)
    = flat_map (fun y : jsstring =>
      if Nat.eqb lo 0 && Nat.eqb (length y) (length x) then []
      else repeatMatcher m f2 (Nat.pred lo) (option_map Nat.pred hi) y) (m x)).
  { apply flat_map_ext_In. intros y Hy. apply Hm in Hy.
    destruct (Nat.eqb_spec lo 0) as [->|Hlo]; simpl.
    - destruct (Nat.eqb_spec (length y) (length x)); [done|].
      apply IH; simpl; lia.
    - apply IH; lia. }
  destruct hi as [[|n]|], lo as [|lo]; try reflexivity; by rewrite Hiter.
Qed.

Lemma run_Rep_fuel (a : regex) (lo : nat) (hi : option nat) (s : jsstring)
    (fuel : nat) :
  lo + length s < fuel ->
  run (Rep a lo hi) s = repeatMatcher (run a) fuel lo hi s.
Proof.
  intros H. simpl. apply repeatMatcher_fuel; [|lia|lia].
  intros s' y. apply run_length.
Qed.

Lemma In_run_chr (c : N) (s y : jsstring) :
  In y (run (chr c) s) <-> s = c :: y.
Proof.
  simpl. destruct s as [|x t]; [split; [intros [] | discriminate]|].
  destruct (N.eqb_spec c x) as [->|Hne]; simpl.
  - split; [intros [->|[]]; reflexivity | intros [= ->]; by left].
  - split; [intros [] | intros [= -> _]; contradiction].
Qed.

Lemma In_run_word (w s y : jsstring) :
  In y (run (word w) s) <-> s = w ++ y.
Proof.
  revert s. induction w as [|c w IH]; intros s.
  - simpl. split; [intros [->|[]]; reflexivity | intros ->; by left].
  - change (run (word (c :: w)) s) with (flat_map (run (word w)) (run (chr c) s)).
    rewrite in_flat_map. split.
    + intros (x & Hx & Hy). apply In_run_chr in Hx as ->.
      apply IH in Hy as ->. reflexivity.
    + intros ->. exists (w ++ y). split; [by apply In_run_chr | by apply IH].
Qed.

(** One or more code units of a class match exactly where the first code
    unit is in the class. *)
Lemma run_plus_Cls (p : N -> bool) (s : jsstring) :
  run (plus (Cls p)) s <> [] <-> exists c t, s = c :: t /\ p c = true.
Proof.
  unfold plus. rewrite (run_Rep_fuel _ _ _ _ (S (S (length s)))); [|lia].
  simpl. destruct s as [|c t]; simpl.
  - split; [done | intros (c & t & H & _); discriminate].
  - destruct (p c) eqn:Hp; simpl.
    + split; [intros _; eauto | intros _].
      rewrite app_nil_r. by destruct (flat_map _ _).
    + split; [done | intros (c' & t' & [= <- <-] & H); congruence].
Qed.

Lemma matchAt_Some (r : regex) (s : jsstring) :
  is_Some (matchAt r s) <-> run r s <> [].
Proof.
  unfold matchAt. destruct (run r s) as [|y l]; simpl.
  - split; [intros [? ?]; done | done].
  - split; [done | eauto].
Qed.

(** The pattern of the URL matches at the start of [s] exactly when [s]
    starts with a loopback URL. *)
Lemma matchAt_urlRe (s : jsstring) :
  is_Some (matchAt urlRe s) <->
  exists host d post,
    s = lit "http://" ++ host ++ lit ":" ++ d :: post /\
    (host = lit "localhost" \/ host = lit "127.0.0.1") /\ digit d = true.
Proof.
  rewrite matchAt_Some. unfold urlRe. split.
  - intros H. destruct (run _ s) as [|y l] eqn:E; [done|]. clear H.
    assert (Hy : In y (y :: l)) by (by left). rewrite <- E in Hy. clear E.
    change (run (Cat ?a ?b) s) with (flat_map (run b) (run a s)) in Hy.
    apply in_flat_map in Hy as (x1 & H1 & Hy). apply In_run_word in H1.
    change (run (Cat ?a ?b) x1) with (flat_map (run b) (run a x1)) in Hy.
    apply in_flat_map in Hy as (x2 & H2 & Hy).
    change (run (Alt ?a ?b) x1) with (run a x1 ++ run b x1) in H2.
    change (run (Cat ?a ?b) x2) with (flat_map (run b) (run a x2)) in Hy.
    apply in_flat_map in Hy as (x3 & H3 & Hy). apply In_run_chr in H3.
    assert (Hd : run (plus (Cls digit)) x3 <> []) by (by intros E; rewrite E in Hy).
    apply run_plus_Cls in Hd as (d & post & -> & Hd).
    apply in_app_or in H2 as [H2|H2]; apply In_run_word in H2; subst.
    + exists (lit "localhost"), d, post. auto.
    + exists (lit "127.0.0.1"), d, post. auto.
  - intros (host & d & post & -> & Hhost & Hd).
    assert (Hp : exists y, In y (run (plus (Cls digit)) (d :: post))).
    { destruct (run (plus (Cls digit)) (d :: post)) as [|y l] eqn:E.
      - exfalso. revert E. apply run_plus_Cls. eauto.
      - exists y. by left. }
    destruct Hp as [y Hy].
    assert (Hin : In y (run (Cat (word (lit "http://"))
      (Cat (Alt (word (lit "localhost")) (word (lit "127.0.0.1")))
           (Cat (chr 58) (plus (Cls digit)))))
      (lit "http://" ++ host ++ lit ":" ++ d :: post))).
    { change (run (Cat ?a ?b) ?s) with (flat_map (run b) (run a s)).
      apply in_flat_map. exists (host ++ lit ":" ++ d :: post).
      split; [by apply In_run_word|].
      change (run (Cat ?a ?b) ?s) with (flat_map (run b) (run a s)).
      apply in_flat_map. exists (lit ":" ++ d :: post). split.
      - change (run (Alt ?a ?b) ?s) with (run a s ++ run b s).
        apply in_or_app. destruct Hhost as [->| ->]; [left|right];
          by apply In_run_word.
      - change (run (Cat ?a ?b) ?s) with (flat_map (run b) (run a s)).
        apply in_flat_map. exists (d :: post). split; [by apply In_run_chr|done]. }
    intros E. by rewrite E in Hin.
Qed.

(** [search] finds a match exactly when the pattern matches at the start
    of some suffix. *)
Lemma search_Some (r : regex) (s : jsstring) :
  is_Some (search r s) <-> exists pre suf, s = pre ++ suf /\ is_Some (matchAt r suf).
Proof.
  induction s as [|c s IH]; simpl.
  - destruct (matchAt r []) eqn:E.
    + split; [intros _; exists [], []; by rewrite E | eauto].
    + split; [intros [? ?]; done|].
      intros (pre & suf & H & Hs). symmetry in H.
      apply app_eq_nil in H as [-> ->]. rewrite E in Hs. by destruct Hs.
  - destruct (matchAt r (c :: s)) eqn:E.
    + split; [intros _; exists [], (c :: s); by rewrite E | eauto].
    + rewrite IH. split.
      * intros (pre & suf & -> & Hs). by exists (c :: pre), suf.
      * intros (pre & suf & H & Hs). destruct pre as [|c' pre]; simpl in H.
        -- subst suf. rewrite E in Hs. by destruct Hs.
        -- injection H as -> ->. eauto.
Qed.

(** The scan of [handleOutput] succeeds exactly on the strings that
    contain a loopback URL. *)
Lemma search_urlRe_spec (s : jsstring) :
  is_Some (search urlRe s) <-> containsLoopbackUrl s.
Proof.
  rewrite search_Some. unfold containsLoopbackUrl. split.
  - intros (pre & suf & -> & H). apply matchAt_urlRe in H as (host & d & post & -> & Hh & Hd).
    by exists pre, host, d, post.
  - intros (pre & host & d & post & -> & Hh & Hd).
    exists pre, (lit "http://" ++ host ++ lit ":" ++ d :: post). split; [done|].
    apply matchAt_urlRe. by exists host, d, post.
Qed.

(** ** Sanitization *)



(** ** C3: the latch of [handleOutput] *)

Lemma handleOutput_latched (data : jsstring) :
  handleOutput true data = (true, [Append (cleanedStr data)]).
Proof. reflexivity. Qed.

Lemma handleOutputs_latched (datas : list jsstring) :
  fst (handleOutputs true datas) = true /\
  List.filter isBrowserOpen (snd (handleOutputs true datas)) = [].
Proof. induction datas as [|d l [IH1 IH2]]; simpl; auto. Qed.

Lemma handleOutputs_app (opened : bool) (l1 l2 : list jsstring) :
  handleOutputs opened (l1 ++ l2) =
  (fst (handleOutputs (fst (handleOutputs opened l1)) l2),
   snd (handleOutputs opened l1) ++ snd (handleOutputs (fst (handleOutputs opened l1)) l2)).
Proof.
  revert opened. induction l1 as [|d l IH]; intros opened; simpl.
  - by destruct (handleOutputs opened l2).
  - rewrite IH. simpl. by rewrite app_assoc.
Qed.

Lemma handleOutput_no_url (data : jsstring) :
  ~ containsLoopbackUrl (cleanedStr data) ->
  handleOutput false data = (false, [Append (cleanedStr data)]).
Proof.
  intros H. unfold handleOutput. simpl.
  destruct (search urlRe (cleanedStr data)) as [u|] eqn:E; [|done].
  exfalso. apply H, search_urlRe_spec. by rewrite E.
Qed.

Lemma handleOutputs_no_url (datas : list jsstring) :
  (forall d, d ∈ datas -> ~ containsLoopbackUrl (cleanedStr d)) ->
  fst (handleOutputs false datas) = false /\
  List.filter isBrowserOpen (snd (handleOutputs false datas)) = [].
Proof.
  induction datas as [|d l IH]; intros H; [done|].
  simpl. rewrite handleOutput_no_url by (apply H; left).
  simpl. apply IH. intros x Hx. apply H. by right.
Qed.

(** The data events of one process run its closure on the chunks. *)
Lemma onData_forEach (child : handle) (datas : list jsstring) (w : World) :
  trace (forEach datas (onData child) w)
  = snd (handleOutputs (bool_decide (child ∈ browserOpened w)) datas).
Proof.
  revert w. induction datas as [|d l IH]; intros w; [reflexivity|].
  change (forEach (d :: l) (onData child))
    with (bind (onData child d) (fun _ => forEach l (onData child))).
  unfold bind, onData. cbn [out trace world handleOutputs snd fst].
  rewrite IH. f_equal. f_equal. f_equal. unfold setBrowserOpened. simpl.
  destruct (bool_decide (child ∈ browserOpened w)) eqn:Hin.
  - simpl. apply bool_decide_eq_true in Hin. apply bool_decide_eq_true.
    apply elem_of_union. by left.
  - apply bool_decide_eq_false in Hin. unfold handleOutput. simpl.
    destruct (search urlRe (cleanedStr d)); simpl.
    + apply bool_decide_eq_true. apply elem_of_union. right.
      by apply elem_of_singleton.
    + apply bool_decide_eq_false. intros H.
      apply elem_of_difference in H as [H _]. contradiction.
Qed.

(** C3.  Take the chunks of one preview process, from the start of its
    [handleOutput] closure ([browserOpened] is false).  The first chunk
    whose cleaned form contains a loopback URL opens the embedded browser
    once, on the URL matched in it: no call is made before it, and the
    whole sequence, whatever follows, makes this one call only. *)
Theorem C3_browser_opened_once (child : handle) (w : World)
    (before : list jsstring) (data : jsstring) (after : list jsstring) :
  child ∉ browserOpened w ->
  (forall d, d ∈ before -> ~ containsLoopbackUrl (cleanedStr d)) ->
  containsLoopbackUrl (cleanedStr data) ->
  exists url,
    search urlRe (cleanedStr data) = Some url /\
    List.filter isBrowserOpen (trace (forEach before (onData child) w)) = [] /\
    List.filter isBrowserOpen (trace (forEach (before ++ [data]) (onData child) w))
      = [OpenSimpleBrowser url] /\
    List.filter isBrowserOpen
      (trace (forEach (before ++ data :: after) (onData child) w))
      = [OpenSimpleBrowser url].
Proof.
  intros Hfresh Hbefore Hdata.
  apply search_urlRe_spec in Hdata as [url Hurl]. exists url.
  split; [exact Hurl|].
  rewrite !onData_forEach. rewrite (bool_decide_eq_false_2 _ Hfresh).
  destruct (handleOutputs_no_url before Hbefore) as [Hfst Hnone].
  assert (Hone : handleOutput false data =
    (true, [Append (cleanedStr data);
            AppendLine (nl ++ lit "[Detected local server: " ++ url
                           ++ lit ", opening inside VS Code...]" ++ nl);
            OpenSimpleBrowser url])).
  { unfold handleOutput. simpl. by rewrite Hurl. }
  split; [exact Hnone|]. split.
  - rewrite handleOutputs_app. simpl. rewrite Hfst, Hone. simpl.
    rewrite List.filter_app, Hnone. reflexivity.
  - rewrite handleOutputs_app. simpl. rewrite Hfst, Hone. simpl.
    rewrite List.filter_app, Hnone. simpl.
    by rewrite (proj2 (handleOutputs_latched after)).
Qed.

(** ** Calls of a computation *)

Lemma always_ret {A} (P : Effect -> Prop) (a : A) : always P (ret a).
Proof. intros w. constructor. Qed.

Lemma always_throw {A} (P : Effect -> Prop) (e : JsError) :
  always P (throw (A := A) e).
Proof. intros w. constructor. Qed.

Lemma always_emit (P : Effect -> Prop) (e : Effect) : P e -> always P (emit e).
Proof. intros H w. simpl. by repeat constructor. Qed.

Lemma always_call (P : Effect -> Prop) (e : Effect) : P e -> always P (call e).
Proof.
  intros H w. unfold call. destruct (throws e); simpl; by repeat constructor.
Qed.

Lemma always_existsSync (P : Effect -> Prop) (path : jsstring) :
  always P (existsSync path).
Proof. intros w. constructor. Qed.

Lemma always_getPreviewProcess (P : Effect -> Prop) : always P getPreviewProcess.
Proof. intros w. constructor. Qed.

Lemma always_setPreviewProcess (P : Effect -> Prop) (o : option handle) :
  P (Assign o) -> always P (setPreviewProcess o).
Proof. intros H w. simpl. by repeat constructor. Qed.

Lemma always_setBrowserOpened (P : Effect -> Prop) (child : handle) (b : bool) :
  always P (setBrowserOpened child b).
Proof. intros w. constructor. Qed.

Lemma always_spawn (P : Effect -> Prop) (command : jsstring)
    (args : list jsstring) (cwd : jsstring) :
  (forall child, P (Spawn command args cwd child)) ->
  always P (spawn command args cwd).
Proof. intros H w. simpl. by repeat constructor. Qed.

Lemma always_bind {A B} (P : Effect -> Prop) (m : M A) (k : A -> M B) :
  always P m -> (forall a, always P (k a)) -> always P (bind m k).
Proof.
  intros Hm Hk w. unfold bind. destruct (out (m w)) as [a|e]; simpl.
  - apply Forall_app. split; [apply Hm | apply Hk].
  - apply Hm.
Qed.

Lemma always_tryCatch {A} (P : Effect -> Prop) (m : M A) (h : JsError -> M A) :
  always P m -> (forall e, always P (h e)) -> always P (tryCatch m h).
Proof.
  intros Hm Hh w. unfold tryCatch. destruct (out (m w)) as [a|e]; simpl.
  - apply Hm.
  - apply Forall_app. split; [apply Hm | apply Hh].
Qed.

Lemma always_detached {A} (P : Effect -> Prop) (m : M A) :
  always P m -> always P (detached m).
Proof. intros Hm w. apply Hm. Qed.

Lemma always_when (P : Effect -> Prop) (b : bool) (m : M unit) :
  always P m -> always P (when b m).
Proof. intros Hm. destruct b; [exact Hm | apply always_ret]. Qed.

Lemma always_forEach {A} (P : Effect -> Prop) (l : list A) (body : A -> M unit) :
  (forall a, always P (body a)) -> always P (forEach l body).
Proof.
  intros H. induction l as [|a l IH]; simpl; [apply always_ret|].
  apply always_bind; [apply H | intros _; exact IH].
Qed.

(** One step of the proof that every call of a computation satisfies a
    property: through the sequencing, then case by case. *)
Ltac always_step :=
  lazymatch goal with
  | |- always _ (bind _ _) => apply always_bind; [|intros ?]
  | |- always _ (ret _) => apply always_ret
  | |- always _ (throw _) => apply always_throw
  | |- always _ (existsSync _) => apply always_existsSync
  | |- always _ getPreviewProcess => apply always_getPreviewProcess
  | |- always _ (setBrowserOpened _ _) => apply always_setBrowserOpened
  | |- always _ (emit _) => apply always_emit
  | |- always _ (call _) => apply always_call
  | |- always _ (kill _ _) => unfold kill, onError
  | |- always _ (setPreviewProcess _) => apply always_setPreviewProcess
  | |- always _ (spawn _ _ _) => apply always_spawn; intros ?
  | |- always _ (when _ _) => apply always_when
  | |- always _ (detached _) => apply always_detached
  | |- always _ (forEach _ _) => apply always_forEach; intros ?
  | |- always _ (tryCatch _ _) => apply always_tryCatch; [|intros ?]
  | |- always _ (if ?b then _ else _) => destruct b
  | |- always _ (match ?x with _ => _ end) => destruct x
  end.

Ltac always_tac := repeat always_step.

(** ** Running a computation step by step *)

Lemma bind_ret {A B} (a : A) (k : A -> M B) (w : World) :
  bind (ret a) k w = k a w.
Proof. unfold bind, ret. simpl. by destruct (k a w). Qed.

Lemma bind_emit {B} (e : Effect) (k : unit -> M B) (w : World) :
  bind (emit e) k w
  = mkRes (e :: trace (k tt w)) (world (k tt w)) (out (k tt w)).
Proof. reflexivity. Qed.

Lemma bind_existsSync {B} (path : jsstring) (k : bool -> M B) (w : World) :
  bind (existsSync path) k w = k (bool_decide (path ∈ files w)) w.
Proof. unfold bind, existsSync. simpl. by destruct (k _ w). Qed.

Lemma bind_getPreviewProcess {B} (k : option handle -> M B) (w : World) :
  bind getPreviewProcess k w = k (previewProcess w) w.
Proof. unfold bind, getPreviewProcess. simpl. by destruct (k _ w). Qed.

Lemma bind_ok {A B} (m : M A) (k : A -> M B) (w w' : World)
    (calls : list Effect) (a : A) :
  m w = mkRes calls w' (Ok a) ->
  bind m k w
  = mkRes (calls ++ trace (k a w')) (world (k a w')) (out (k a w')).
Proof. intros H. unfold bind. by rewrite H. Qed.

Lemma tryCatch_ok {A} (m : M A) (h : JsError -> M A) (w w' : World)
    (calls : list Effect) (a : A) :
  m w = mkRes calls w' (Ok a) -> tryCatch m h w = mkRes calls w' (Ok a).
Proof. intros H. unfold tryCatch. by rewrite H. Qed.

Lemma getPixiInfo_json (workspacePath : jsstring) (info : option PixiInfo)
    (w : World) :
  pixiInfoIn workspacePath = PixiJson info ->
  getPixiInfo workspacePath w
  = mkRes [AppendLine (lit "Executing 'pixi info --json' in " ++ workspacePath);
           Exec (lit "pixi info --json") workspacePath] w (Ok info).
Proof.
  intros H. unfold getPixiInfo. rewrite !bind_emit, H. reflexivity.
Qed.

(** ** C10: the target of the settings updates *)

Lemma always_getPixiInfo (P : Effect -> Prop) (workspacePath : jsstring) :
  (forall s, P (AppendLine s)) -> (forall c d, P (Exec c d)) ->
  always P (getPixiInfo workspacePath).
Proof. intros H1 H2. unfold getPixiInfo. always_tac; auto. Qed.

Lemma configureWorkspaceSettings_targets (folder : WorkspaceFolder)
    (rPath rTermPath quartoPath : jsstring) :
  always targetsWorkspace
    (configureWorkspaceSettings folder rPath rTermPath quartoPath).
Proof. unfold configureWorkspaceSettings. always_tac; exact I || reflexivity. Qed.

Lemma createWrapperScripts_targets (workspacePath envName prefix : jsstring) :
  always targetsWorkspace (createWrapperScripts workspacePath envName prefix).
Proof. unfold createWrapperScripts. always_tac; exact I. Qed.

Lemma setupFolder_targets (folder : WorkspaceFolder) :
  always targetsWorkspace (setupFolder folder).
Proof.
  unfold setupFolder. always_tac;
    try apply always_getPixiInfo;
    try apply createWrapperScripts_targets;
    try apply configureWorkspaceSettings_targets;
    try exact I; try (intros; exact I).
Qed.

Lemma setupPixiEnvironment_targets (folders : option (list WorkspaceFolder)) :
  always targetsWorkspace (setupPixiEnvironment folders).
Proof.
  unfold setupPixiEnvironment. always_tac;
    try apply setupFolder_targets; exact I.
Qed.

Lemma checkDocument_targets (editor : option TextDocument) :
  always targetsWorkspace (checkDocument editor).
Proof. unfold checkDocument. always_tac; exact I. Qed.

Lemma execOutput_targets (chunk : Stream * jsstring) :
  targetsWorkspace (execOutput chunk).
Proof. by destruct chunk as [[|] str]. Qed.

Lemma renderQuartoDocument_targets (format : option jsstring)
    (editor : option TextDocument) :
  always targetsWorkspace (renderQuartoDocument format editor).
Proof.
  unfold renderQuartoDocument. apply always_bind; [apply checkDocument_targets|].
  intros [[[document folder] quartoWrapperPath]|]; always_tac;
    try apply execOutput_targets; exact I.
Qed.

Lemma previewQuartoDocument_targets (editor : option TextDocument) :
  always targetsWorkspace (previewQuartoDocument editor).
Proof.
  unfold previewQuartoDocument. apply always_bind; [apply checkDocument_targets|].
  intros [[[document folder] quartoWrapperPath]|]; always_tac; exact I.
Qed.

Lemma onData_targets (child : handle) (data : jsstring) :
  always targetsWorkspace (onData child data).
Proof.
  intros w. unfold onData, handleOutput. simpl.
  destruct (negb _); [destruct (search _ _)|]; simpl; by repeat constructor.
Qed.

Lemma installPixiDependencies_targets (folders : option (list WorkspaceFolder)) :
  always targetsWorkspace (installPixiDependencies folders).
Proof.
  unfold installPixiDependencies, installFolder. always_tac;
    try apply setupPixiEnvironment_targets;
    try apply execOutput_targets; exact I.
Qed.

Lemma handle_event_targets (ev : Event) :
  always targetsWorkspace (handle_event ev).
Proof.
  destruct ev;
    unfold handle_event, onClose, onError, deactivate,
      renderQuartoDocumentWithFormat;
    always_tac;
    try apply setupPixiEnvironment_targets;
    try apply installPixiDependencies_targets;
    try apply renderQuartoDocument_targets;
    try apply previewQuartoDocument_targets;
    try apply onData_targets;
    exact I.
Qed.

(** C10.  Every settings update of the settings writer names the
    workspace target, and so does every settings update made while the
    extension handles any sequence of commands and events: no call
    updates the global (user) settings or the folder settings. *)
Theorem C10_updates_target_workspace :
  (forall folder rPath rTermPath quartoPath w e,
     e ∈ trace (configureWorkspaceSettings folder rPath rTermPath quartoPath w) ->
     targetsWorkspace e) /\
  (forall evs w resource section key value target,
     ConfigUpdate resource section key value target ∈ trace (handle_events evs w) ->
     target = Workspace).
Proof.
  split.
  - intros folder rPath rTermPath quartoPath w e He.
    pose proof (configureWorkspaceSettings_targets folder rPath rTermPath quartoPath w) as H.
    rewrite Forall_forall in H. by apply H.
  - intros evs w resource section key value target He.
    assert (H : always targetsWorkspace (handle_events evs)).
    { apply always_forEach, handle_event_targets. }
    specialize (H w). rewrite Forall_forall in H. exact (H _ He).
Qed.

(** ** C8 and C5: setup without a manifest, and without a prefix *)

(** C8.  In a folder where neither [pixi.toml] nor [pyproject.toml]
    exists, the setup of the folder makes two calls, both log lines: it
    writes no file (so no wrapper script) and updates no setting, and it
    leaves the world as it was. *)
Theorem C8_no_manifest_nothing_produced (folder : WorkspaceFolder) (w : World) :
  path_join [fsPath folder; lit "pixi.toml"] ∉ files w ->
  path_join [fsPath folder; lit "pyproject.toml"] ∉ files w ->
  trace (setupFolder folder w)
    = [AppendLine (lit "Checking for pixi.toml or pyproject.toml at: " ++ fsPath folder);
       AppendLine (lit "No pixi.toml found in " ++ folderName folder)] /\
  world (setupFolder folder w) = w /\
  out (setupFolder folder w) = Ok tt /\
  Forall (fun e => isFileWrite e = false /\ isSettingsUpdate e = false)
         (trace (setupFolder folder w)).
Proof.
  intros H1 H2.
  assert (E : setupFolder folder w = mkRes
    [AppendLine (lit "Checking for pixi.toml or pyproject.toml at: " ++ fsPath folder);
     AppendLine (lit "No pixi.toml found in " ++ folderName folder)] w (Ok tt)).
  { unfold setupFolder. cbv zeta. rewrite bind_emit, !bind_existsSync.
    rewrite (bool_decide_eq_false_2 _ H1), (bool_decide_eq_false_2 _ H2).
    reflexivity. }
  rewrite E. cbn [trace world out]. repeat split; by repeat constructor.
Qed.

(** C5.  When the folder has a manifest, the info command answers with a
    non-empty list of environments, and the record chosen has no prefix
    (the field is absent or empty), the setup of the folder ends with the
    log line of the missing prefix: it writes no file, updates no setting
    and leaves the world as it was. *)
Theorem C5_no_prefix_no_writes (folder : WorkspaceFolder) (w : World)
    (info : option PixiInfo) (envs : list EnvInfo) (env : EnvInfo) :
  path_join [fsPath folder; lit "pixi.toml"] ∈ files w \/
  path_join [fsPath folder; lit "pyproject.toml"] ∈ files w ->
  pixiInfoIn (fsPath folder) = PixiJson info ->
  environmentsOf info = Some envs ->
  defaultEnv envs = Some env ->
  truthy (prefix env) = false ->
  trace (setupFolder folder w)
    = [AppendLine (lit "Checking for pixi.toml or pyproject.toml at: " ++ fsPath folder);
       AppendLine (lit "Found Pixi manifest in " ++ folderName folder);
       AppendLine (lit "Executing 'pixi info --json' in " ++ fsPath folder);
       Exec (lit "pixi info --json") (fsPath folder);
       AppendLine (lit "Error: No prefix found for environment " ++ name env)] /\
  world (setupFolder folder w) = w /\
  Forall (fun e => isFileWrite e = false /\ isSettingsUpdate e = false)
         (trace (setupFolder folder w)).
Proof.
  intros Hmanifest Hinfo Henvs Henv Hprefix.
  assert (Hb : bool_decide (path_join [fsPath folder; lit "pixi.toml"] ∈ files w)
            || bool_decide (path_join [fsPath folder; lit "pyproject.toml"] ∈ files w)
            = true).
  { apply orb_true_iff. destruct Hmanifest as [H|H]; [left|right];
      by apply bool_decide_eq_true. }
  assert (E : setupFolder folder w = mkRes
    [AppendLine (lit "Checking for pixi.toml or pyproject.toml at: " ++ fsPath folder);
     AppendLine (lit "Found Pixi manifest in " ++ folderName folder);
     AppendLine (lit "Executing 'pixi info --json' in " ++ fsPath folder);
     Exec (lit "pixi info --json") (fsPath folder);
     AppendLine (lit "Error: No prefix found for environment " ++ name env)] w (Ok tt)).
  { unfold setupFolder. cbv zeta. rewrite bind_emit, !bind_existsSync, Hb.
    rewrite bind_emit.
    rewrite (tryCatch_ok _ _ w w
      [AppendLine (lit "Executing 'pixi info --json' in " ++ fsPath folder);
       Exec (lit "pixi info --json") (fsPath folder);
       AppendLine (lit "Error: No prefix found for environment " ++ name env)] tt);
      [reflexivity|].
    rewrite (bind_ok _ _ _ _ _ _ (getPixiInfo_json _ _ w Hinfo)).
    rewrite Henvs, Henv, Hprefix. reflexivity. }
  rewrite E. cbn [trace world out]. repeat split; by repeat constructor.
Qed.

(** ** C9: the wrapper scripts *)

Lemma scriptContent_wrapperScript (manifestPath envName : jsstring) :
  rTermScriptContent manifestPath envName
    = wrapperScript isWindows manifestPath envName (lit "R") /\
  quartoScriptContent manifestPath envName
    = wrapperScript isWindows manifestPath envName (lit "quarto").
Proof.
  unfold rTermScriptContent, quartoScriptContent, baseContent, wrapperScript, pixiRun.
  destruct isWindows; split; by rewrite <- ?app_assoc.
Qed.

Lemma createWrapperScripts_writes (workspacePath envName prefix : jsstring) :
  always (wrapperOrShim workspacePath envName prefix)
         (createWrapperScripts workspacePath envName prefix).
Proof.
  unfold createWrapperScripts. always_tac; try exact I; unfold wrapperOrShim;
    rewrite ?(proj1 (scriptContent_wrapperScript _ _)),
            ?(proj2 (scriptContent_wrapperScript _ _)); eauto 8.
  all: left;
    match goal with |- context [if ?b then _ else _] => destruct b end;
    eexists; (split; [|eauto]); eauto.
Qed.

Lemma call_ok (e : Effect) (w : World) :
  throws e = None ->
  call e w = mkRes [e]
    (mkWorld (files w ∪ created e) (previewProcess w) (browserOpened w) (nextHandle w))
    (Ok tt).
Proof. intros H. unfold call. by rewrite H. Qed.

(** C9.  The two wrapper contents are the wrapper script of the
    specification: a first line, then one invocation of [pixi run] with
    the manifest path and the environment name, the tool and the
    forwarding of the arguments (the shell form elsewhere than on
    Windows, the batch form on Windows).  Every file written by
    [createWrapperScripts] is such a wrapper, at a wrapper path and with a
    manifest path of the folder, or is the activation hook or one of the
    two shims.  When no call throws, both wrappers are written. *)
Theorem C9_wrapper_script_is_single_invocation
    (workspacePath envName prefix : jsstring) :
  (forall manifestPath,
     rTermScriptContent manifestPath envName
       = wrapperScript isWindows manifestPath envName (lit "R") /\
     quartoScriptContent manifestPath envName
       = wrapperScript isWindows manifestPath envName (lit "quarto")) /\
  (forall w e,
     e ∈ trace (createWrapperScripts workspacePath envName prefix w) ->
     wrapperOrShim workspacePath envName prefix e) /\
  (forall w,
     (forall e, throws e = None) ->
     exists manifestPath,
       (manifestPath = path_join [workspacePath; lit "pixi.toml"] \/
        manifestPath = path_join [workspacePath; lit "pyproject.toml"]) /\
       WriteFileSync (rTermWrapperPathOf workspacePath)
                     (wrapperScript isWindows manifestPath envName (lit "R"))
         ∈ trace (createWrapperScripts workspacePath envName prefix w) /\
       WriteFileSync (quartoWrapperPathOf workspacePath)
                     (wrapperScript isWindows manifestPath envName (lit "quarto"))
         ∈ trace (createWrapperScripts workspacePath envName prefix w)).
Proof.
  split; [intros m; apply scriptContent_wrapperScript|]. split.
  - intros w e He.
    pose proof (createWrapperScripts_writes workspacePath envName prefix w) as H.
    rewrite Forall_forall in H. by apply H.
  - intros w Hno.
    assert (Hdir : exists calls w1,
      when (negb (bool_decide (vscodeDirOf workspacePath ∈ files w)))
           (call (MkdirSync (vscodeDirOf workspacePath))) w = mkRes calls w1 (Ok tt)).
    { destruct (bool_decide (vscodeDirOf workspacePath ∈ files w)); simpl.
      - by eexists _, _.
      - rewrite call_ok by apply Hno. by eexists _, _. }
    destruct Hdir as (calls & w1 & Hdir).
    exists (if bool_decide (path_join [workspacePath; lit "pixi.toml"] ∈ files w1)
            then path_join [workspacePath; lit "pixi.toml"]
            else path_join [workspacePath; lit "pyproject.toml"]).
    split.
    { destruct (bool_decide (path_join [workspacePath; lit "pixi.toml"] ∈ files w1));
        auto. }
    unfold createWrapperScripts. cbv zeta.
    rewrite bind_existsSync, (bind_ok _ _ _ _ _ _ Hdir). cbn [trace].
    rewrite bind_existsSync.
    rewrite (bind_ok _ _ _ _ _ _ (call_ok _ w1 (Hno _))). cbn [trace].
    rewrite (bind_ok _ _ _ _ _ _ (call_ok _ _ (Hno _))). cbn [trace].
    rewrite (proj1 (scriptContent_wrapperScript _ _)),
            (proj2 (scriptContent_wrapperScript _ _)).
    split.
    + apply elem_of_app. right. apply elem_of_app. left.
      by apply list_elem_of_singleton.
    + apply elem_of_app. right. apply elem_of_app. right.
      apply elem_of_app. left. by apply list_elem_of_singleton.
Qed.

(** ** The writes to [previewProcess] *)

Lemma tracked_app (init : option handle) (l1 l2 : list Effect) :
  tracked init (l1 ++ l2) = tracked (tracked init l1) l2.
Proof.
  revert init. induction l1 as [|e l IH]; intros init; [reflexivity|].
  destruct e; simpl; apply IH.
Qed.

Lemma tracked_notAssign (init : option handle) (e : Effect) :
  notAssign e -> tracked init [e] = init.
Proof. by destruct e. Qed.

Lemma records_ret {A} (a : A) : records (ret a).
Proof. intros w. reflexivity. Qed.

Lemma records_throw {A} (e : JsError) : records (throw (A := A) e).
Proof. intros w. reflexivity. Qed.

Lemma records_emit (e : Effect) : notAssign e -> records (emit e).
Proof. intros H w. by apply tracked_notAssign. Qed.

Lemma records_call (e : Effect) : notAssign e -> records (call e).
Proof.
  intros H w. unfold call. destruct (throws e); by apply tracked_notAssign.
Qed.

Lemma records_existsSync (path : jsstring) : records (existsSync path).
Proof. intros w. reflexivity. Qed.

Lemma records_getPreviewProcess : records getPreviewProcess.
Proof. intros w. reflexivity. Qed.

Lemma records_setPreviewProcess (o : option handle) :
  records (setPreviewProcess o).
Proof. intros w. reflexivity. Qed.

Lemma records_setBrowserOpened (child : handle) (b : bool) :
  records (setBrowserOpened child b).
Proof. intros w. reflexivity. Qed.

Lemma records_spawn (command : jsstring) (args : list jsstring) (cwd : jsstring) :
  records (spawn command args cwd).
Proof. intros w. reflexivity. Qed.

Lemma records_bind {A B} (m : M A) (k : A -> M B) :
  records m -> (forall a, records (k a)) -> records (bind m k).
Proof.
  intros Hm Hk w. unfold bind. destruct (out (m w)) as [a|e]; simpl.
  - rewrite tracked_app, Hm. apply Hk.
  - apply Hm.
Qed.

Lemma records_tryCatch {A} (m : M A) (h : JsError -> M A) :
  records m -> (forall e, records (h e)) -> records (tryCatch m h).
Proof.
  intros Hm Hh w. unfold tryCatch. destruct (out (m w)) as [a|e]; simpl.
  - apply Hm.
  - rewrite tracked_app, Hm. apply Hh.
Qed.

Lemma records_detached {A} (m : M A) : records m -> records (detached m).
Proof. intros Hm w. apply Hm. Qed.

Lemma records_when (b : bool) (m : M unit) : records m -> records (when b m).
Proof. intros Hm. destruct b; [exact Hm | apply records_ret]. Qed.

Lemma records_forEach {A} (l : list A) (body : A -> M unit) :
  (forall a, records (body a)) -> records (forEach l body).
Proof.
  intros H. induction l as [|a l IH]; simpl; [apply records_ret|].
  apply records_bind; [apply H | intros _; exact IH].
Qed.

Lemma records_onData (child : handle) (data : jsstring) :
  records (onData child data).
Proof.
  intros w. unfold onData, handleOutput. simpl.
  destruct (negb _); [destruct (search _ _)|]; reflexivity.
Qed.

Ltac records_step :=
  lazymatch goal with
  | |- records (bind _ _) => apply records_bind; [|intros ?]
  | |- records (ret _) => apply records_ret
  | |- records (throw _) => apply records_throw
  | |- records (existsSync _) => apply records_existsSync
  | |- records getPreviewProcess => apply records_getPreviewProcess
  | |- records (setBrowserOpened _ _) => apply records_setBrowserOpened
  | |- records (emit _) => apply records_emit
  | |- records (call _) => apply records_call
  | |- records (kill _ _) => unfold kill, onError
  | |- records (setPreviewProcess _) => apply records_setPreviewProcess
  | |- records (spawn _ _ _) => apply records_spawn
  | |- records (when _ _) => apply records_when
  | |- records (detached _) => apply records_detached
  | |- records (forEach _ _) => apply records_forEach; intros ?
  | |- records (tryCatch _ _) => apply records_tryCatch; [|intros ?]
  | |- records (onData _ _) => apply records_onData
  | |- records (if ?b then _ else _) => destruct b
  | |- records (match ?x with _ => _ end) => destruct x
  end.

Lemma execOutput_notAssign (chunk : Stream * jsstring) :
  notAssign (execOutput chunk).
Proof. by destruct chunk as [[|] str]. Qed.

Lemma setupPixiEnvironment_records (folders : option (list WorkspaceFolder)) :
  records (setupPixiEnvironment folders).
Proof.
  unfold setupPixiEnvironment, setupFolder, getPixiInfo, createWrapperScripts,
    configureWorkspaceSettings.
  repeat records_step; exact I.
Qed.

Lemma checkDocument_records (editor : option TextDocument) :
  records (checkDocument editor).
Proof. unfold checkDocument. repeat records_step; exact I. Qed.

(** Over any sequence of events, the variable [previewProcess] holds the
    value of the last write recorded among the calls. *)
Lemma handle_events_records (evs : list Event) : records (handle_events evs).
Proof.
  apply records_forEach. intros ev.
  destruct ev;
    unfold handle_event, installPixiDependencies, installFolder,
      renderQuartoDocumentWithFormat, renderQuartoDocument,
      previewQuartoDocument, onClose, onError, deactivate;
    repeat records_step;
    try apply setupPixiEnvironment_records;
    try apply checkDocument_records;
    try apply execOutput_notAssign;
    exact I.
Qed.

(** ** The preview supervisor *)

Lemma checkDocument_passes (document : TextDocument) (folder : WorkspaceFolder)
    (w : World) :
  isQuartoDocument document = true ->
  workspaceFolder document = Some folder ->
  quartoWrapperPathOf (fsPath folder) ∈ files w ->
  checkDocument (Some document) w
    = mkRes [] w (Ok (Some (document, folder, quartoWrapperPathOf (fsPath folder)))).
Proof.
  intros Hq Hf Hw. unfold checkDocument. rewrite Hq, Hf. cbv beta iota zeta.
  change (negb true) with false. cbv iota.
  rewrite bind_existsSync, (bool_decide_eq_true_2 _ Hw). reflexivity.
Qed.

(** [kill] makes the call, runs the error handler when the call fails,
    and returns: it never throws and leaves the world as it is. *)
Lemma kill_trace (child : handle) (signal : jsstring) (w : World) :
  trace (kill child signal w)
  = Kill child signal
      :: match throws (Kill child signal) with
         | Some err => [AppendLine (nl ++ lit "[Preview process error: "
                                       ++ messageText err ++ lit "]" ++ nl)]
         | None => []
         end.
Proof. unfold kill. rewrite bind_emit. by destruct (throws _). Qed.

Lemma kill_run (child : handle) (signal : jsstring) (w : World) :
  kill child signal w = mkRes (trace (kill child signal w)) w (Ok tt).
Proof. unfold kill. rewrite bind_emit. by destruct (throws _). Qed.

Lemma kill_supervision (child : handle) (signal : jsstring) (w : World) :
  List.filter isSupervision (trace (kill child signal w)) = [Kill child signal].
Proof. rewrite kill_trace. by destruct (throws _). Qed.

(** A preview request that passes the checks while a process is tracked:
    the calls made, in order, and the world left behind. *)
Lemma previewQuartoDocument_running (document : TextDocument)
    (folder : WorkspaceFolder) (w : World) (child : handle) :
  isQuartoDocument document = true ->
  workspaceFolder document = Some folder ->
  quartoWrapperPathOf (fsPath folder) ∈ files w ->
  previewProcess w = Some child ->
  previewQuartoDocument (Some document) w
    = mkRes
        (AppendLine (lit "Killing existing preview process...")
           :: trace (kill child (lit "SIGINT") w)
           ++ [Assign None;
               AppendLine (lit "Starting Preview: " ++ dq
                             ++ quartoWrapperPathOf (fsPath folder)
                             ++ dq ++ lit " "
                             ++ joinWith (lit " ")
                                  [lit "preview"; fileName document; lit "--no-browser"]);
               ShowChannel;
               Spawn (dq ++ quartoWrapperPathOf (fsPath folder) ++ dq)
                     [lit "preview"; fileName document; lit "--no-browser"]
                     (fsPath folder) (nextHandle w);
               Assign (Some (nextHandle w))])
        (mkWorld (files w) (Some (nextHandle w))
                 (browserOpened w ∖ {[ nextHandle w ]}) (S (nextHandle w)))
        (Ok tt).
Proof.
  intros Hq Hf Hw Hp. unfold previewQuartoDocument.
  rewrite (bind_ok _ _ _ _ _ _ (checkDocument_passes _ _ _ Hq Hf Hw)).
  cbv beta iota. rewrite bind_getPreviewProcess, Hp.
  unfold kill, onError. by destruct (throws (Kill child (lit "SIGINT"))).
Qed.

(** The calls of that request that concern the preview process: the
    signal, the write of [null], the spawn, the write of the new handle. *)
Lemma previewQuartoDocument_running_supervision (document : TextDocument)
    (folder : WorkspaceFolder) (w : World) (child : handle) :
  isQuartoDocument document = true ->
  workspaceFolder document = Some folder ->
  quartoWrapperPathOf (fsPath folder) ∈ files w ->
  previewProcess w = Some child ->
  List.filter isSupervision (trace (previewQuartoDocument (Some document) w))
  = [Kill child (lit "SIGINT"); Assign None;
     Spawn (dq ++ quartoWrapperPathOf (fsPath folder) ++ dq)
           [lit "preview"; fileName document; lit "--no-browser"]
           (fsPath folder) (nextHandle w);
     Assign (Some (nextHandle w))].
Proof.
  intros Hq Hf Hw Hp.
  rewrite (previewQuartoDocument_running _ _ _ _ Hq Hf Hw Hp). cbn [trace].
  rewrite kill_trace. by destruct (throws _).
Qed.

(** The same request while no process is tracked. *)
Lemma previewQuartoDocument_idle (document : TextDocument)
    (folder : WorkspaceFolder) (w : World) :
  isQuartoDocument document = true ->
  workspaceFolder document = Some folder ->
  quartoWrapperPathOf (fsPath folder) ∈ files w ->
  previewProcess w = None ->
  previewQuartoDocument (Some document) w
    = mkRes
        [AppendLine (lit "Starting Preview: " ++ dq ++ quartoWrapperPathOf (fsPath folder)
                       ++ dq ++ lit " "
                       ++ joinWith (lit " ")
                            [lit "preview"; fileName document; lit "--no-browser"]);
         ShowChannel;
         Spawn (dq ++ quartoWrapperPathOf (fsPath folder) ++ dq)
               [lit "preview"; fileName document; lit "--no-browser"]
               (fsPath folder) (nextHandle w);
         Assign (Some (nextHandle w))]
        (mkWorld (files w) (Some (nextHandle w))
                 (browserOpened w ∖ {[ nextHandle w ]}) (S (nextHandle w)))
        (Ok tt).
Proof.
  intros Hq Hf Hw Hp. unfold previewQuartoDocument.
  rewrite (bind_ok _ _ _ _ _ _ (checkDocument_passes _ _ _ Hq Hf Hw)).
  cbv beta iota. rewrite bind_getPreviewProcess, Hp. reflexivity.
Qed.

(** A preview request that passes the checks tracks the process it
    spawns, whose [handleOutput] closure starts with [browserOpened]
    false. *)
Lemma previewQuartoDocument_spawns (document : TextDocument)
    (folder : WorkspaceFolder) (w : World) :
  isQuartoDocument document = true ->
  workspaceFolder document = Some folder ->
  quartoWrapperPathOf (fsPath folder) ∈ files w ->
  previewProcess (world (previewQuartoDocument (Some document) w))
    = Some (nextHandle w) /\
  nextHandle w ∉ browserOpened (world (previewQuartoDocument (Some document) w)).
Proof.
  intros Hq Hf Hw. destruct (previewProcess w) as [child|] eqn:Hp.
  - rewrite (previewQuartoDocument_running _ _ _ _ Hq Hf Hw Hp). simpl.
    split; [reflexivity|]. intros H. apply elem_of_difference in H as [_ H].
    apply H. by apply elem_of_singleton.
  - rewrite (previewQuartoDocument_idle _ _ _ Hq Hf Hw Hp). simpl.
    split; [reflexivity|]. intros H. apply elem_of_difference in H as [_ H].
    apply H. by apply elem_of_singleton.
Qed.

(** A preview request that fails a check makes one call, an error
    message, and leaves the world as it is. *)
Lemma checkDocument_rejects (editor : option TextDocument) (w : World) :
  out (checkDocument editor w) = Ok None ->
  exists msg, checkDocument editor w = mkRes [ShowErrorMessage msg] w (Ok None).
Proof.
  unfold checkDocument.
  destruct editor as [document|]; [|intros _; eexists; reflexivity].
  destruct (negb (isQuartoDocument document)); [intros _; eexists; reflexivity|].
  destruct (workspaceFolder document) as [folder|]; [|intros _; eexists; reflexivity].
  cbv zeta. rewrite bind_existsSync.
  destruct (bool_decide (quartoWrapperPathOf (fsPath folder) ∈ files w)).
  - intros H. discriminate H.
  - intros _. eexists. reflexivity.
Qed.

Lemma previewQuartoDocument_rejected (editor : option TextDocument) (w : World) :
  out (checkDocument editor w) = Ok None ->
  world (previewQuartoDocument editor w) = w /\
  List.filter isSupervision (trace (previewQuartoDocument editor w)) = [].
Proof.
  intros H. destruct (checkDocument_rejects editor w H) as [msg Hmsg].
  unfold previewQuartoDocument. rewrite (bind_ok _ _ _ _ _ _ Hmsg).
  split; reflexivity.
Qed.

(** * Further properties *)

(** ** [stripAnsi] and the cleaning of the output *)

Lemma replaceFrom_nil_sublist (r : regex) (skip : nat) (s : jsstring) :
  sublist (replaceFrom r [] skip s) s.
Proof.
  revert skip. induction s as [|c t IH]; intros skip.
  - simpl. destruct skip; [destruct (matchAt r [])|]; constructor.
  - cbn [replaceFrom]. destruct skip as [|k].
    + destruct (matchAt r (c :: t)) as [rest|].
      * destruct (length (c :: t) - length rest) as [|k]; simpl.
        -- apply sublist_skip, IH.
        -- apply sublist_cons, IH.
      * apply sublist_skip, IH.
    + apply sublist_cons, IH.
Qed.

(** [stripAnsi] only deletes: what it returns is the input with some code
    units left out, in the same order, so it is never longer. *)
Theorem stripAnsi_only_deletes (str : jsstring) :
  sublist (stripAnsi str) str /\ length (stripAnsi str) <= length str.
Proof.
  assert (H : sublist (stripAnsi str) str) by apply replaceFrom_nil_sublist.
  split; [exact H | by apply sublist_length].
Qed.

Lemma matchAt_ansiRe_plain (c : N) (t : jsstring) :
  isIntroducer c = false -> matchAt ansiRe (c :: t) = None.
Proof.
  intros H. unfold matchAt, ansiRe. cbn [run]. fold (isIntroducer c).
  by rewrite H.
Qed.

Lemma replaceFrom_plain (pre rest : jsstring) :
  Forall (fun c => isIntroducer c = false) pre ->
  replaceFrom ansiRe [] 0 (pre ++ rest) = pre ++ replaceFrom ansiRe [] 0 rest.
Proof.
  induction 1 as [|c t Hc _ IH]; [reflexivity|].
  change ((c :: t) ++ rest) with (c :: (t ++ rest)).
  cbn [replaceFrom]. rewrite (matchAt_ansiRe_plain _ _ Hc), IH. reflexivity.
Qed.

(** Text without an escape or a control sequence introducer goes through
    [stripAnsi] unchanged, whatever else it holds. *)
Theorem stripAnsi_plain_text (str : jsstring) :
  Forall (fun c => isIntroducer c = false) str -> stripAnsi str = str.
Proof.
  intros H. unfold stripAnsi, replaceAll.
  rewrite <- (app_nil_r str) at 1. rewrite (replaceFrom_plain _ _ H).
  by rewrite app_nil_r.
Qed.




(** ** Control sequences *)

Lemma matchAt_Cat (a b : regex) (s y z : jsstring) :
  matchAt a s = Some y -> matchAt b y = Some z -> matchAt (Cat a b) s = Some z.
Proof.
  unfold matchAt. cbn [run]. destruct (run a s) as [|y' l]; [done|].
  intros [= ->]. simpl. destruct (run b y) as [|z' l']; [done|].
  intros [= ->]. reflexivity.
Qed.

Lemma matchAt_Cls (p : N -> bool) (c : N) (t : jsstring) :
  p c = true -> matchAt (Cls p) (c :: t) = Some t.
Proof. intros H. unfold matchAt. cbn [run]. by rewrite H. Qed.

Lemma run_Cls_stops (p : N -> bool) (s : jsstring) :
  stops p s -> run (Cls p) s = [].
Proof. destruct s as [|c t]; [done|]. simpl. by intros ->. Qed.

(** A greedy quantifier on a class takes a whole run of the class when
    what follows is outside the class and the bounds allow it. *)
Lemma repeatMatcher_Cls_greedy (p : N -> bool) (ds rest : jsstring) :
  Forall (fun c => p c = true) ds -> stops p rest ->
  forall fuel lo hi,
    length ds < fuel -> lo <= length ds ->
    match hi with Some n => length ds <= n | None => True end ->
    head (repeatMatcher (run (Cls p)) fuel lo hi (ds ++ rest)) = Some rest.
Proof.
  intros Hds Hrest. induction Hds as [|c ds Hc _ IH]; intros fuel lo hi Hfuel Hlo Hhi.
  - destruct fuel as [|fuel]; [simpl in Hfuel; lia|].
    simpl in Hlo. assert (lo = 0) as -> by lia. cbn [app repeatMatcher].
    rewrite (run_Cls_stops _ _ Hrest). by destruct hi as [[|n]|].
  - destruct fuel as [|fuel]; [simpl in Hfuel; lia|].
    simpl in Hfuel, Hlo.
    assert (Hm : run (Cls p) ((c :: ds) ++ rest) = [ds ++ rest]).
    { simpl. by rewrite Hc. }
    assert (Hlen : Nat.eqb (length (ds ++ rest)) (length ((c :: ds) ++ rest)) = false).
    { apply Nat.eqb_neq. simpl. lia. }
    assert (Hrec : forall lo' hi', lo' <= length ds ->
              match hi' with Some n => length ds <= n | None => True end ->
              forall tl, head ((repeatMatcher (run (Cls p)) fuel lo' hi' (ds ++ rest) ++ [])
                                 ++ tl) = Some rest).
    { intros lo' hi' H1 H2 tl. rewrite app_nil_r.
      pose proof (IH fuel lo' hi' ltac:(lia) H1 H2) as H.
      by destruct (repeatMatcher _ fuel lo' hi' (ds ++ rest)). }
    set (m := run (Cls p)) in *.
    destruct hi as [[|n]|]; [simpl in Hhi; lia| |]; destruct lo as [|lo];
      cbn [repeatMatcher]; rewrite Hm; cbn [flat_map Nat.pred option_map];
      rewrite ?Hlen; cbn [Nat.eqb andb].
    + apply Hrec; [lia | simpl in Hhi; lia].
    + rewrite <- (app_nil_r (_ ++ [])). apply Hrec; [lia | simpl in Hhi; lia].
    + apply Hrec; [lia | done].
    + rewrite <- (app_nil_r (_ ++ [])). apply Hrec; [lia | done].
Qed.

Lemma matchAt_Rep_Cls (p : N -> bool) (lo : nat) (hi : option nat)
    (ds rest : jsstring) :
  Forall (fun c => p c = true) ds -> stops p rest ->
  lo <= length ds ->
  match hi with Some n => length ds <= n | None => True end ->
  matchAt (Rep (Cls p) lo hi) (ds ++ rest) = Some rest.
Proof.
  intros Hds Hrest Hlo Hhi. unfold matchAt. cbn [run].
  apply repeatMatcher_Cls_greedy; try assumption.
  rewrite length_app. lia.
Qed.

(** A star goes through one more iteration when its atom matches and
    consumes, and stops where its atom does not match. *)
Lemma matchAt_star_step (r : regex) (s y z : jsstring) :
  matchAt r s = Some y -> length y < length s ->
  matchAt (star r) y = Some z -> matchAt (star r) s = Some z.
Proof.
  unfold matchAt, star. intros Hr Hlen Hy.
  rewrite (run_Rep_fuel r 0 None y (length s)) in Hy by lia.
  cbn [run]. replace (0 + length s + 1) with (S (length s)) by lia.
  cbn [repeatMatcher]. destruct (run r s) as [|y' l]; [done|].
  injection Hr as ->. cbn [flat_map].
  rewrite (proj2 (Nat.eqb_neq (length y) (length s))) by lia.
  rewrite andb_false_r.
  cbn [Nat.pred option_map].
  destruct (repeatMatcher (run r) (length s) 0 None y) as [|z' l']; [done|].
  exact Hy.
Qed.

Lemma matchAt_star_stop (r : regex) (s : jsstring) :
  matchAt r s = None -> matchAt (star r) s = Some s.
Proof.
  unfold matchAt, star. intros Hr. cbn [run].
  replace (0 + length s + 1) with (S (length s)) by lia.
  cbn [repeatMatcher]. by destruct (run r s).
Qed.

Lemma matchAt_opt_step (r : regex) (s y : jsstring) :
  matchAt r s = Some y -> length y < length s ->
  matchAt (opt r) s = Some y.
Proof.
  unfold matchAt, opt. intros Hr Hlen. cbn [run].
  replace (0 + length s + 1) with (S (length s)) by lia.
  cbn [repeatMatcher]. destruct (run r s) as [|y' l]; [done|].
  injection Hr as ->. cbn [flat_map].
  rewrite (proj2 (Nat.eqb_neq (length y) (length s))) by lia.
  rewrite andb_false_r. cbn [Nat.pred option_map].
  destruct (length s) as [|n]; [lia|]. reflexivity.
Qed.

Lemma matchAt_opt_stop (r : regex) (s : jsstring) :
  matchAt r s = None -> matchAt (opt r) s = Some s.
Proof.
  unfold matchAt, opt. intros Hr. cbn [run].
  replace (0 + length s + 1) with (S (length s)) by lia.
  cbn [repeatMatcher]. by destruct (run r s).
Qed.

Lemma oneOf_In (l : jsstring) (c : N) : oneOf l c = true -> In c l.
Proof.
  unfold oneOf. intros H. apply existsb_exists in H as (x & Hx & Heq).
  apply N.eqb_eq in Heq. by subst.
Qed.

Lemma digit_not_intermediate (c : N) :
  digit c = true -> oneOf (lit "[()#;?") c = false.
Proof.
  intros Hd. destruct (oneOf (lit "[()#;?") c) eqn:E; [|done].
  apply oneOf_In in E. simpl in E.
  repeat (destruct E as [<-|E]; [vm_compute in Hd; discriminate Hd|]).
  destruct E.
Qed.

Lemma final_not_intermediate (c : N) :
  ansiFinal c = true -> oneOf (lit "[()#;?") c = false.
Proof.
  intros Hf. destruct (oneOf (lit "[()#;?") c) eqn:E; [|done].
  apply oneOf_In in E. simpl in E.
  repeat (destruct E as [<-|E]; [vm_compute in Hf; discriminate Hf|]).
  destruct E.
Qed.

Lemma final_not_semicolon (c : N) : ansiFinal c = true -> N.eqb 59 c = false.
Proof.
  intros Hf. destruct (N.eqb_spec 59 c) as [<-|]; [|done].
  vm_compute in Hf. discriminate Hf.
Qed.

(** The parameters after the first, up to the final code unit. *)
Lemma matchAt_more_params (others : list jsstring) (final : N) (rest : jsstring) :
  Forall isParam others -> ansiFinal final = true -> digit final = false ->
  matchAt (star (Cat (chr 59) (Rep (Cls digit) 0 (Some 4))))
          (flat_map (fun p => 59%N :: p) others ++ final :: rest)
  = Some (final :: rest).
Proof.
  intros Hothers Hfinal Hdigit.
  induction Hothers as [|p others [Hp Hlen] _ IH].
  - simpl. apply matchAt_star_stop. unfold matchAt. cbn [run chr].
    by rewrite (final_not_semicolon _ Hfinal).
  - cbn [flat_map]. rewrite <- app_assoc.
    change ((59%N :: p) ++ ?t) with (59%N :: (p ++ t)).
    eapply matchAt_star_step; [| |exact IH].
    + eapply matchAt_Cat; [by apply matchAt_Cls|].
      apply matchAt_Rep_Cls; [exact Hp| |lia|exact Hlen].
      destruct others as [|q others]; [exact Hdigit | reflexivity].
    + rewrite !length_cons, !length_app. lia.
Qed.

(** The pattern of [stripAnsi] matches a whole control sequence: the
    introducer, an opening bracket, the parameters and the final code
    unit. *)
Lemma matchAt_ansiRe_csi (intro final : N) (body rest : jsstring) :
  isIntroducer intro = true -> isParams body ->
  ansiFinal final = true -> digit final = false ->
  matchAt ansiRe (intro :: 91%N :: body ++ final :: rest) = Some rest.
Proof.
  intros Hintro Hbody Hfinal Hdigit. unfold ansiRe.
  eapply matchAt_Cat; [by apply matchAt_Cls|].
  assert (Hstop : stops (oneOf (lit "[()#;?")) (body ++ final :: rest)).
  { destruct Hbody as [->|(first & others & -> & Hne & [Hfirst _] & _)].
    - by apply final_not_intermediate.
    - destruct first as [|d first]; [done|]. inversion Hfirst; subst.
      by apply digit_not_intermediate. }
  eapply matchAt_Cat.
  { apply (matchAt_Rep_Cls _ 0 None [91%N] (body ++ final :: rest));
      [by repeat constructor | exact Hstop | simpl; lia | done]. }
  eapply matchAt_Cat; [|by apply matchAt_Cls].
  destruct Hbody as [->|(first & others & -> & Hne & [Hfirst Hlen] & Hothers)].
  - apply matchAt_opt_stop. unfold matchAt. cbn [run app].
    replace (1 + length (final :: rest) + 1) with (S (S (length (final :: rest)))) by lia.
    cbn [repeatMatcher]. by rewrite Hdigit.
  - unfold csiParams. rewrite <- app_assoc. apply matchAt_opt_step.
    + eapply matchAt_Cat; [|by apply matchAt_more_params].
      apply matchAt_Rep_Cls; [exact Hfirst| | |exact Hlen].
      * destruct others as [|q others]; [exact Hdigit | reflexivity].
      * destruct first; [done | simpl; lia].
    + destruct first; [done|]. rewrite !length_app. simpl. lia.
Qed.

Lemma replaceFrom_skip (r : regex) (by_ a rest : jsstring) :
  replaceFrom r by_ (length a) (a ++ rest) = replaceFrom r by_ 0 rest.
Proof.
  induction a as [|c a IH]; [reflexivity|].
  simpl length. change ((c :: a) ++ rest) with (c :: a ++ rest).
  cbn [replaceFrom]. exact IH.
Qed.

(** [stripAnsi] deletes a control sequence that follows plain text: an
    escape or the control sequence introducer, an opening bracket,
    parameters (none, or a first one of one to four digits and then
    others of up to four digits after semicolons) and a final code unit of
    the pattern that is not a digit.  Colours, cursor movements and line
    erasures have this form. *)
Theorem stripAnsi_removes_csi (pre body rest : jsstring) (intro final : N) :
  Forall (fun c => isIntroducer c = false) pre ->
  isIntroducer intro = true -> isParams body ->
  ansiFinal final = true -> digit final = false ->
  stripAnsi (pre ++ intro :: 91%N :: body ++ final :: rest)
  = pre ++ stripAnsi rest.
Proof.
  intros Hpre Hintro Hbody Hfinal Hdigit. unfold stripAnsi, replaceAll.
  rewrite (replaceFrom_plain _ _ Hpre). f_equal.
  pose proof (matchAt_ansiRe_csi _ _ _ rest Hintro Hbody Hfinal Hdigit) as Hm.
  assert (E : 91%N :: body ++ final :: rest = (91%N :: body ++ [final]) ++ rest).
  { simpl. by rewrite <- app_assoc. }
  rewrite E in Hm |- *. remember (91%N :: body ++ [final]) as seq eqn:Hseq.
  clear E Hseq. cbn [replaceFrom]. rewrite Hm.
  replace (length (intro :: seq ++ rest) - length rest) with (S (length seq)).
  2:{ simpl. rewrite length_app. lia. }
  apply replaceFrom_skip.
Qed.

(** ** The URL that is opened *)

Lemma repeatMatcher_suffix (m : jsstring -> list jsstring) :
  (forall s y, In y (m s) -> exists a, s = a ++ y) ->
  forall fuel lo hi x y,
    In y (repeatMatcher m fuel lo hi x) -> exists a, x = a ++ y.
Proof.
  intros Hm. induction fuel as [|fuel IH]; intros lo hi x y; simpl; [done|].
  assert (Hiter : In y (flat_map (fun y0 : jsstring =>
      if Nat.eqb lo 0 && Nat.eqb (length y0) (length x) then []
      else repeatMatcher m fuel (Nat.pred lo) (option_map Nat.pred hi) y0) (m x))
      -> exists a, x = a ++ y).
  { intros Hin. apply in_flat_map in Hin as (z & Hz & Hy).
    destruct (Nat.eqb lo 0 && Nat.eqb (length z) (length x)); [done|].
    apply IH in Hy as [b ->]. apply Hm in Hz as [a ->].
    exists (a ++ b). by rewrite <- app_assoc. }
  assert (Hstop : In y [x] -> exists a, x = a ++ y).
  { intros [<-|[]]. by exists []. }
  destruct hi as [[|n]|], lo as [|lo]; try exact Hstop;
    try exact Hiter; intros Hin; apply in_app_or in Hin as [Hin|Hin]; auto.
Qed.

(** What a pattern leaves is a suffix of its input. *)
Lemma run_suffix (r : regex) (s y : jsstring) :
  In y (run r s) -> exists a, s = a ++ y.
Proof.
  revert s y. induction r as [p| |a IHa b IHb|a IHa b IHb|a IHa lo hi];
    intros s y; simpl.
  - destruct s as [|c t]; [done|]. destruct (p c); [|done].
    intros [<-|[]]. by exists [c].
  - intros [<-|[]]. by exists [].
  - intros Hin. apply in_flat_map in Hin as (z & Hz & Hy).
    apply IHa in Hz as [u ->]. apply IHb in Hy as [v ->].
    exists (u ++ v). by rewrite <- app_assoc.
  - intros Hin. apply in_app_or in Hin as [Hin|Hin]; auto.
  - apply repeatMatcher_suffix. exact IHa.
Qed.

Lemma matchAt_suffix (r : regex) (s rest : jsstring) :
  matchAt r s = Some rest ->
  exists m, s = m ++ rest /\ take (length s - length rest) s = m.
Proof.
  unfold matchAt. intros H.
  assert (Hin : In rest (run r s)).
  { destruct (run r s) as [|y l]; [done|]. injection H as ->. by left. }
  apply run_suffix in Hin as [m ->]. exists m. split; [done|].
  rewrite length_app. replace (length m + length rest - length rest) with (length m) by lia.
  by rewrite take_app_length.
Qed.

(** [String.prototype.match] returns the leftmost match: the text found
    stands in the string, the pattern matches there, and it matches at no
    earlier place. *)
Lemma search_leftmost (r : regex) (s found : jsstring) :
  search r s = Some found ->
  exists pre rest,
    s = pre ++ found ++ rest /\
    matchAt r (found ++ rest) = Some rest /\
    forall p1 p2, pre = p1 ++ p2 -> p2 <> [] ->
                  matchAt r (p2 ++ found ++ rest) = None.
Proof.
  induction s as [|c s IH]; cbn [search].
  - destruct (matchAt r []) as [rest|] eqn:E; [|done].
    intros [= Hf]. destruct (matchAt_suffix _ _ _ E) as (m & Hm & _).
    symmetry in Hm. apply app_eq_nil in Hm as [_ ->]. subst found.
    exists [], []. split; [done|]. split; [exact E|].
    intros p1 p2 H. symmetry in H. apply app_eq_nil in H as [_ ->]. done.
  - destruct (matchAt r (c :: s)) as [rest|] eqn:E.
    + destruct (matchAt_suffix _ _ _ E) as (m & Hm & Ht). rewrite Ht.
      intros [= <-].
      exists [], rest. rewrite <- Hm. split; [done|]. split; [exact E|].
      intros p1 p2 H. symmetry in H. apply app_eq_nil in H as [_ ->]. done.
    + intros H. destruct (IH H) as (pre & rest & -> & Hmatch & Hleft).
      exists (c :: pre), rest. split; [done|]. split; [exact Hmatch|].
      intros p1 p2 Hp Hne. destruct p1 as [|c' p1]; simpl in Hp.
      * subst p2. exact E.
      * injection Hp as -> ->. by apply (Hleft p1 p2).
Qed.

Lemma matchAt_word (w t : jsstring) : matchAt (word w) (w ++ t) = Some t.
Proof.
  induction w as [|c w IH]; [reflexivity|].
  change (word (c :: w)) with (Cat (chr c) (word w)).
  eapply matchAt_Cat; [|exact IH]. apply matchAt_Cls, N.eqb_refl.
Qed.

Lemma matchAt_Alt_l (a b : regex) (s y : jsstring) :
  matchAt a s = Some y -> matchAt (Alt a b) s = Some y.
Proof. unfold matchAt. cbn [run]. by destruct (run a s). Qed.

Lemma matchAt_Alt_r (a b : regex) (s : jsstring) :
  run a s = [] -> matchAt (Alt a b) s = matchAt b s.
Proof. unfold matchAt. cbn [run]. by intros ->. Qed.

(** The longest run of a class at the start of a string. *)
Lemma span_class (p : N -> bool) (s : jsstring) :
  exists ds rest, s = ds ++ rest /\ Forall (fun c => p c = true) ds /\ stops p rest.
Proof.
  induction s as [|c s (ds & rest & -> & Hds & Hrest)].
  - by exists [], [].
  - destruct (p c) eqn:Hc.
    + exists (c :: ds), rest. by repeat constructor.
    + exists [], (c :: ds ++ rest). by repeat constructor.
Qed.

(** Where the pattern of the URL matches, it takes "http://", one of the
    two hosts, the colon and all the digits that follow. *)
Lemma matchAt_urlRe_shape (s rest : jsstring) :
  matchAt urlRe s = Some rest ->
  exists url, s = url ++ rest /\ isLoopbackUrl url /\ stops digit rest.
Proof.
  intros H.
  assert (Hs : is_Some (matchAt urlRe s)) by (by rewrite H).
  apply matchAt_urlRe in Hs as (host & d & post & -> & Hhost & Hd).
  destruct (span_class digit post) as (ds & r & -> & Hds & Hr).
  assert (Hm : matchAt urlRe (lit "http://" ++ host ++ lit ":" ++ d :: ds ++ r)
               = Some r).
  { unfold urlRe. eapply matchAt_Cat; [apply matchAt_word|].
    eapply matchAt_Cat.
    - destruct Hhost as [-> | ->].
      + apply matchAt_Alt_l, matchAt_word.
      + rewrite matchAt_Alt_r; [apply matchAt_word|].
        destruct (run (word (lit "localhost")) _) as [|y l] eqn:E; [done|].
        assert (Hin : In y (y :: l)) by (by left). rewrite <- E in Hin.
        apply In_run_word in Hin. discriminate Hin.
    - eapply matchAt_Cat; [by apply matchAt_Cls|].
      apply (matchAt_Rep_Cls digit 1 None (d :: ds) r); [by constructor|exact Hr| |done].
      simpl. lia. }
  rewrite H in Hm. injection Hm as ->.
  exists (lit "http://" ++ host ++ lit ":" ++ d :: ds). split.
  - by rewrite <- !app_assoc.
  - split; [|exact Hr]. exists host, (d :: ds).
    split; [reflexivity|]. split; [exact Hhost|]. split; [done|].
    by constructor.
Qed.

(** The URL that [handleOutput] finds in a chunk is the first loopback URL
    of the cleaned chunk, with its whole port: it stands in the chunk, no
    digit follows it, and the pattern matches at no earlier place. *)
Theorem search_urlRe_first_loopback_url (s url : jsstring) :
  search urlRe s = Some url ->
  isLoopbackUrl url /\
  exists pre rest,
    s = pre ++ url ++ rest /\ stops digit rest /\
    forall p1 p2, pre = p1 ++ p2 -> p2 <> [] ->
                  matchAt urlRe (p2 ++ url ++ rest) = None.
Proof.
  intros H. destruct (search_leftmost _ _ _ H) as (pre & rest & -> & Hm & Hleft).
  destruct (matchAt_urlRe_shape _ _ Hm) as (url' & Heq & Hurl & Hrest).
  apply app_inv_tail in Heq. subst url'. split; [exact Hurl|].
  exists pre, rest. auto.
Qed.

(** ** The state of the preview supervisor *)

Lemma leaves_ret {A} (a : A) : leavesSupervisor (ret a).
Proof. by intros w. Qed.

Lemma leaves_throw {A} (e : JsError) : leavesSupervisor (throw (A := A) e).
Proof. by intros w. Qed.

Lemma leaves_emit (e : Effect) : leavesSupervisor (emit e).
Proof. by intros w. Qed.

Lemma leaves_call (e : Effect) : leavesSupervisor (call e).
Proof. intros w. unfold call. by destruct (throws e). Qed.

Lemma leaves_existsSync (path : jsstring) : leavesSupervisor (existsSync path).
Proof. by intros w. Qed.

Lemma leaves_bind {A B} (m : M A) (k : A -> M B) :
  leavesSupervisor m -> (forall a, leavesSupervisor (k a)) ->
  leavesSupervisor (bind m k).
Proof.
  intros Hm Hk w. unfold bind. destruct (Hm w) as (H1 & H2 & H3).
  destruct (out (m w)) as [a|e]; simpl; [|done].
  destruct (Hk a (world (m w))) as (K1 & K2 & K3).
  by rewrite K1, K2, K3.
Qed.

Lemma leaves_tryCatch {A} (m : M A) (h : JsError -> M A) :
  leavesSupervisor m -> (forall e, leavesSupervisor (h e)) ->
  leavesSupervisor (tryCatch m h).
Proof.
  intros Hm Hh w. unfold tryCatch. destruct (Hm w) as (H1 & H2 & H3).
  destruct (out (m w)) as [a|e]; simpl; [done|].
  destruct (Hh e (world (m w))) as (K1 & K2 & K3).
  by rewrite K1, K2, K3.
Qed.

Lemma leaves_detached {A} (m : M A) :
  leavesSupervisor m -> leavesSupervisor (detached m).
Proof. intros Hm w. apply Hm. Qed.

Lemma leaves_when (b : bool) (m : M unit) :
  leavesSupervisor m -> leavesSupervisor (when b m).
Proof. intros Hm. destruct b; [exact Hm | apply leaves_ret]. Qed.

Lemma leaves_forEach {A} (l : list A) (body : A -> M unit) :
  (forall a, leavesSupervisor (body a)) -> leavesSupervisor (forEach l body).
Proof.
  intros H. induction l as [|a l IH]; simpl; [apply leaves_ret|].
  apply leaves_bind; [apply H | intros _; exact IH].
Qed.

Ltac leaves_step :=
  lazymatch goal with
  | |- leavesSupervisor (bind _ _) => apply leaves_bind; [|intros ?]
  | |- leavesSupervisor (ret _) => apply leaves_ret
  | |- leavesSupervisor (throw _) => apply leaves_throw
  | |- leavesSupervisor (existsSync _) => apply leaves_existsSync
  | |- leavesSupervisor (emit _) => apply leaves_emit
  | |- leavesSupervisor (call _) => apply leaves_call
  | |- leavesSupervisor (when _ _) => apply leaves_when
  | |- leavesSupervisor (detached _) => apply leaves_detached
  | |- leavesSupervisor (forEach _ _) => apply leaves_forEach; intros ?
  | |- leavesSupervisor (tryCatch _ _) => apply leaves_tryCatch; [|intros ?]
  | |- leavesSupervisor (if ?b then _ else _) => destruct b
  | |- leavesSupervisor (match ?x with _ => _ end) => destruct x
  end.

Lemma setupPixiEnvironment_leaves (folders : option (list WorkspaceFolder)) :
  leavesSupervisor (setupPixiEnvironment folders).
Proof.
  unfold setupPixiEnvironment, setupFolder, getPixiInfo, createWrapperScripts,
    configureWorkspaceSettings.
  repeat leaves_step.
Qed.

Lemma installPixiDependencies_leaves (folders : option (list WorkspaceFolder)) :
  leavesSupervisor (installPixiDependencies folders).
Proof.
  unfold installPixiDependencies, installFolder.
  repeat leaves_step; apply setupPixiEnvironment_leaves.
Qed.

Lemma checkDocument_leaves (editor : option TextDocument) :
  leavesSupervisor (checkDocument editor).
Proof. unfold checkDocument. repeat leaves_step. Qed.

Lemma renderQuartoDocument_leaves (format : option jsstring)
    (editor : option TextDocument) :
  leavesSupervisor (renderQuartoDocument format editor).
Proof.
  unfold renderQuartoDocument.
  apply leaves_bind; [apply checkDocument_leaves|].
  intros [[[document folder] quartoWrapperPath]|]; repeat leaves_step.
Qed.

Lemma noSupervision_execOutput (chunk : Stream * jsstring) :
  noSupervision (execOutput chunk).
Proof. by destruct chunk as [[|] str]. Qed.

Lemma setupPixiEnvironment_noSupervision (folders : option (list WorkspaceFolder)) :
  always noSupervision (setupPixiEnvironment folders).
Proof.
  unfold setupPixiEnvironment, setupFolder, getPixiInfo, createWrapperScripts,
    configureWorkspaceSettings.
  always_tac; by split.
Qed.

Lemma checkDocument_noSupervision (editor : option TextDocument) :
  always noSupervision (checkDocument editor).
Proof. unfold checkDocument. always_tac; by split. Qed.

Lemma renderQuartoDocument_noSupervision (format : option jsstring)
    (editor : option TextDocument) :
  always noSupervision (renderQuartoDocument format editor).
Proof.
  unfold renderQuartoDocument.
  apply always_bind; [apply checkDocument_noSupervision|].
  intros [[[document folder] quartoWrapperPath]|]; always_tac;
    try apply noSupervision_execOutput; by split.
Qed.

Lemma installPixiDependencies_noSupervision
    (folders : option (list WorkspaceFolder)) :
  always noSupervision (installPixiDependencies folders).
Proof.
  unfold installPixiDependencies, installFolder. always_tac;
    try apply setupPixiEnvironment_noSupervision;
    try apply noSupervision_execOutput; by split.
Qed.

(** The setup, the installation and the render have nothing to do with
    the preview: they leave [previewProcess], the [browserOpened]
    variables and the process identities as they are, and they send no
    signal, spawn no preview process and open no browser. *)
Theorem setup_install_render_leave_preview
    (folders : option (list WorkspaceFolder)) (format : option jsstring)
    (editor : option TextDocument) :
  (leavesSupervisor (setupPixiEnvironment folders) /\
   always noSupervision (setupPixiEnvironment folders)) /\
  (leavesSupervisor (installPixiDependencies folders) /\
   always noSupervision (installPixiDependencies folders)) /\
  (leavesSupervisor (renderQuartoDocument format editor) /\
   always noSupervision (renderQuartoDocument format editor)).
Proof.
  split; [|split]; split.
  - apply setupPixiEnvironment_leaves.
  - apply setupPixiEnvironment_noSupervision.
  - apply installPixiDependencies_leaves.
  - apply installPixiDependencies_noSupervision.
  - apply renderQuartoDocument_leaves.
  - apply renderQuartoDocument_noSupervision.
Qed.

Lemma bind_Ok {A B} (m : M A) (k : A -> M B) (w : World) (a : A) :
  out (m w) = Ok a ->
  trace (bind m k w) = trace (m w) ++ trace (k a (world (m w))) /\
  world (bind m k w) = world (k a (world (m w))) /\
  out (bind m k w) = out (k a (world (m w))).
Proof. intros H. unfold bind. by rewrite H. Qed.

(** The checks of a render or preview request either fail with one error
    message, or pass: there is a Quarto document in a workspace folder
    whose wrapper exists. *)
Lemma checkDocument_cases (editor : option TextDocument) (w : World) :
  (exists msg, checkDocument editor w = mkRes [ShowErrorMessage msg] w (Ok None)) \/
  (exists document folder,
     editor = Some document /\ isQuartoDocument document = true /\
     workspaceFolder document = Some folder /\
     quartoWrapperPathOf (fsPath folder) ∈ files w).
Proof.
  destruct (out (checkDocument editor w)) as [[[[document folder] path]|]|e] eqn:E.
  - right. revert E. unfold checkDocument.
    destruct editor as [doc|]; [|discriminate].
    destruct (isQuartoDocument doc) eqn:Hq; [|discriminate]. cbn [negb].
    destruct (workspaceFolder doc) as [f|] eqn:Hf; [|discriminate].
    cbv zeta. rewrite bind_existsSync.
    destruct (bool_decide (quartoWrapperPathOf (fsPath f) ∈ files w)) eqn:Hw;
      [|discriminate].
    intros _. exists doc, f. split; [done|]. split; [done|]. split; [done|].
    by apply bool_decide_eq_true_1 in Hw.
  - left. by apply checkDocument_rejects.
  - exfalso. revert E. unfold checkDocument.
    destruct editor as [doc|]; [|discriminate].
    destruct (negb (isQuartoDocument doc)); [discriminate|].
    destruct (workspaceFolder doc) as [f|]; [|discriminate].
    cbv zeta. rewrite bind_existsSync.
    by destruct (bool_decide (quartoWrapperPathOf (fsPath f) ∈ files w)).
Qed.

(** What a preview request does to the supervisor. *)
Lemma previewQuartoDocument_cases (editor : option TextDocument) (w : World) :
  (world (previewQuartoDocument editor w) = w /\
   List.filter isSupervision (trace (previewQuartoDocument editor w)) = []) \/
  (world (previewQuartoDocument editor w)
     = mkWorld (files w) (Some (nextHandle w))
               (browserOpened w ∖ {[ nextHandle w ]}) (S (nextHandle w)) /\
   exists command args cwd,
     List.filter isSupervision (trace (previewQuartoDocument editor w))
     = match previewProcess w with
       | Some child => [Kill child (lit "SIGINT"); Assign None]
       | None => []
       end ++ [Spawn command args cwd (nextHandle w); Assign (Some (nextHandle w))]).
Proof.
  destruct (checkDocument_cases editor w)
    as [[msg Hmsg]|(document & folder & -> & Hq & Hf & Hw)].
  - left. apply previewQuartoDocument_rejected. by rewrite Hmsg.
  - right. destruct (previewProcess w) as [child|] eqn:Hp.
    + split; [by rewrite (previewQuartoDocument_running _ _ _ _ Hq Hf Hw Hp)|].
      eexists _, _, _.
      apply (previewQuartoDocument_running_supervision _ _ _ _ Hq Hf Hw Hp).
    + rewrite (previewQuartoDocument_idle _ _ _ Hq Hf Hw Hp).
      split; [reflexivity|]. by eexists _, _, _.
Qed.

Lemma handle_event_Ok (ev : Event) (w : World) : out (handle_event ev w) = Ok tt.
Proof.
  destruct ev; try reflexivity.
  - unfold handle_event, onClose. rewrite bind_emit, bind_getPreviewProcess.
    by destruct (previewProcess w).
  - unfold handle_event, deactivate. rewrite bind_getPreviewProcess.
    destruct (previewProcess w) as [child|]; [|reflexivity].
    by rewrite (bind_ok _ _ _ _ _ _ (kill_run _ _ _)).
Qed.

(** The three facts every event keeps: process identities are never
    reused, a tracked handle is the handle of the process spawned last,
    and the [browserOpened] variable of a spawned process stays true once
    it is. *)
Lemma handle_event_supervisor (ev : Event) (w : World) :
  nextHandle w <= nextHandle (world (handle_event ev w)) /\
  (tracksLatest w -> tracksLatest (world (handle_event ev w))) /\
  (forall child, child < nextHandle w -> child ∈ browserOpened w ->
                 child ∈ browserOpened (world (handle_event ev w))).
Proof.
  assert (Hleaves : forall m : M unit, leavesSupervisor m ->
    nextHandle w <= nextHandle (world (m w)) /\
    (tracksLatest w -> tracksLatest (world (m w))) /\
    (forall child, child < nextHandle w -> child ∈ browserOpened w ->
                   child ∈ browserOpened (world (m w)))).
  { intros m Hm. destruct (Hm w) as (H1 & H2 & H3). unfold tracksLatest.
    rewrite H1, H2, H3. auto. }
  destruct ev.
  - apply Hleaves. unfold handle_event. repeat leaves_step.
    apply setupPixiEnvironment_leaves.
  - apply Hleaves. unfold handle_event. repeat leaves_step.
    apply setupPixiEnvironment_leaves.
  - apply Hleaves. unfold handle_event. repeat leaves_step.
    apply installPixiDependencies_leaves.
  - apply Hleaves. unfold handle_event. repeat leaves_step.
    apply renderQuartoDocument_leaves.
  - apply Hleaves. unfold handle_event, renderQuartoDocumentWithFormat.
    repeat leaves_step. apply renderQuartoDocument_leaves.
  - change (world (handle_event (CmdPreview editor) w))
      with (world (previewQuartoDocument editor w)).
    destruct (previewQuartoDocument_cases editor w) as [[-> _]|[-> _]].
    + unfold tracksLatest. auto.
    + cbn [nextHandle previewProcess browserOpened]. split; [lia|]. split.
      * intros _ child [= <-]. reflexivity.
      * intros child Hlt Hin. apply elem_of_difference. split; [exact Hin|].
        intros Heq. apply elem_of_singleton in Heq. lia.
  - unfold handle_event, onData. cbn [world setBrowserOpened nextHandle previewProcess
                                       browserOpened].
    split; [lia|]. split; [auto|].
    intros c Hlt Hin.
    destruct (bool_decide (child ∈ browserOpened w)) eqn:Hlatched.
    + rewrite handleOutput_latched. cbn [fst]. apply elem_of_union. by left.
    + destruct (fst (handleOutput false data)).
      * apply elem_of_union. by left.
      * apply elem_of_difference. split; [exact Hin|].
        intros Heq. apply elem_of_singleton in Heq. subst c.
        apply bool_decide_eq_false in Hlatched. contradiction.
  - unfold handle_event, onClose. rewrite bind_emit, bind_getPreviewProcess.
    destruct (previewProcess w) as [c|] eqn:Hp; cbn [world setPreviewProcess ret
      nextHandle previewProcess browserOpened].
    + split; [lia|]. split; [by intros _ c' [=]|auto].
    + split; [lia|]. split; [|auto]. unfold tracksLatest. by rewrite Hp.
  - unfold handle_event, onError, emit. cbn [world]. unfold tracksLatest. auto.
  - unfold handle_event, deactivate. rewrite bind_getPreviewProcess.
    destruct (previewProcess w) as [c|] eqn:Hp.
    + rewrite (bind_ok _ _ _ _ _ _ (kill_run _ _ _)).
      cbn [world setPreviewProcess nextHandle previewProcess browserOpened].
      split; [lia|]. split; [by intros _ c' [=]|auto].
    + cbn [world ret]. unfold tracksLatest. rewrite Hp. auto.
Qed.

(** Over any sequence of events: the identity of the next process never
    goes down, a tracked handle stays the handle of the process spawned
    last, and a spawned process whose [browserOpened] is true keeps it
    true. *)
Theorem handle_events_supervisor (evs : list Event) (w : World) :
  nextHandle w <= nextHandle (world (handle_events evs w)) /\
  (tracksLatest w -> tracksLatest (world (handle_events evs w))) /\
  (forall child, child < nextHandle w -> child ∈ browserOpened w ->
                 child ∈ browserOpened (world (handle_events evs w))).
Proof.
  revert w. induction evs as [|ev evs IH]; intros w.
  - unfold tracksLatest. simpl. auto.
  - change (handle_events (ev :: evs))
      with (bind (handle_event ev) (fun _ => handle_events evs)).
    destruct (bind_Ok (handle_event ev) (fun _ => handle_events evs) w tt
                (handle_event_Ok ev w)) as (_ & -> & _).
    destruct (handle_event_supervisor ev w) as (H1 & H2 & H3).
    destruct (IH (world (handle_event ev w))) as (K1 & K2 & K3).
    split; [lia|]. split; [auto|].
    intros child Hlt Hin. apply K3; [lia | by apply H3].
Qed.

(** Once the browser has been opened for a spawned process, no later
    chunk of that process opens it again, whatever commands and events
    come in between. *)
Theorem browser_never_reopened (evs : list Event) (w : World) (child : handle)
    (data : jsstring) :
  child < nextHandle w -> child ∈ browserOpened w ->
  List.filter isBrowserOpen
    (trace (handle_events (evs ++ [EvData child data]) w)) 
  = List.filter isBrowserOpen (trace (handle_events evs w)).
Proof.
  intros Hlt Hin. revert w Hlt Hin. induction evs as [|ev evs IH]; intros w Hlt Hin.
  - cbn [app handle_events forEach].
    destruct (bind_Ok (handle_event (EvData child data)) (fun _ => ret tt) w tt
                eq_refl) as (-> & _).
    cbn [handle_event onData trace ret]. rewrite app_nil_r.
    rewrite (bool_decide_eq_true_2 _ Hin). reflexivity.
  - change (handle_events ((ev :: evs) ++ [EvData child data]))
      with (bind (handle_event ev)
                 (fun _ => handle_events (evs ++ [EvData child data]))).
    change (handle_events (ev :: evs))
      with (bind (handle_event ev) (fun _ => handle_events evs)).
    destruct (bind_Ok (handle_event ev)
                (fun _ => handle_events (evs ++ [EvData child data])) w tt
                (handle_event_Ok ev w)) as (-> & _).
    destruct (bind_Ok (handle_event ev) (fun _ => handle_events evs) w tt
                (handle_event_Ok ev w)) as (-> & _).
    rewrite !List.filter_app. f_equal.
    destruct (handle_event_supervisor ev w) as (H1 & _ & H3).
    apply IH; [lia | by apply H3].
Qed.

Lemma always_In {A} (P : Effect -> Prop) (m : M A) (w : World) (e : Effect) :
  always P m -> e ∈ trace (m w) -> P e.
Proof. intros H He. specialize (H w). rewrite Forall_forall in H. by apply H. Qed.

Lemma always_filter_nil {A} (f : Effect -> bool) (m : M A) (w : World) :
  always (fun e => f e = false) m -> List.filter f (trace (m w)) = [].
Proof.
  intros H. specialize (H w). induction H as [|e l He _ IH]; [done|].
  simpl. by rewrite He.
Qed.

(** The extension sends one signal only, the interrupt signal, and only
    to the process that [previewProcess] holds when the event comes in. *)
Theorem kill_only_tracked_process (ev : Event) (w : World) (child : handle)
    (signal : jsstring) :
  Kill child signal ∈ trace (handle_event ev w) ->
  previewProcess w = Some child /\ signal = lit "SIGINT".
Proof.
  assert (Hnone : forall m : M unit, always noSupervision m ->
            Kill child signal ∈ trace (m w) -> False).
  { intros m Hm Hin. by destruct (always_In _ _ _ _ Hm Hin). }
  destruct ev; intros Hin.
  - exfalso. revert Hin. apply Hnone. unfold handle_event. always_tac;
      [by split | apply setupPixiEnvironment_noSupervision].
  - exfalso. revert Hin. apply Hnone. unfold handle_event. always_tac;
      [by split | apply setupPixiEnvironment_noSupervision].
  - exfalso. revert Hin. apply Hnone. unfold handle_event. always_tac;
      [by split | apply installPixiDependencies_noSupervision].
  - exfalso. revert Hin. apply Hnone. unfold handle_event. always_tac;
      [by split | apply renderQuartoDocument_noSupervision].
  - exfalso. revert Hin. apply Hnone.
    unfold handle_event, renderQuartoDocumentWithFormat. always_tac;
      try apply renderQuartoDocument_noSupervision; by split.
  - change (trace (handle_event (CmdPreview editor) w))
      with (AppendLine (lit "Preview Quarto command triggered.")
              :: trace (previewQuartoDocument editor w)) in Hin.
    apply elem_of_cons in Hin as [Hin|Hin]; [discriminate Hin|].
    assert (Hf : In (Kill child signal)
                    (List.filter isSupervision (trace (previewQuartoDocument editor w)))).
    { apply filter_In. split; [by apply list_elem_of_In | reflexivity]. }
    destruct (previewQuartoDocument_cases editor w)
      as [[_ Hnil]|[_ (command & args & cwd & Hlist)]].
    + rewrite Hnil in Hf. destruct Hf.
    + rewrite Hlist in Hf. destruct (previewProcess w) as [c|]; simpl in Hf.
      * destruct Hf as [Hf|[Hf|[Hf|[Hf|[]]]]]; try discriminate Hf.
        by injection Hf as -> <-.
      * destruct Hf as [Hf|[Hf|[]]]; discriminate Hf.
  - exfalso. revert Hin. unfold handle_event, onData, handleOutput. cbn [trace snd].
    intros Hin. apply list_elem_of_In in Hin.
    destruct (negb _); [destruct (search _ _)|]; simpl in Hin;
      repeat (destruct Hin as [Hin|Hin]; [discriminate Hin|]); destruct Hin.
  - exfalso. revert Hin. unfold handle_event, onClose.
    rewrite bind_emit, bind_getPreviewProcess. intros Hin.
    apply list_elem_of_In in Hin.
    destruct (previewProcess w); simpl in Hin;
      repeat (destruct Hin as [Hin|Hin]; [discriminate Hin|]); destruct Hin.
  - exfalso. apply list_elem_of_In in Hin. simpl in Hin.
    destruct Hin as [Hin|[]]. discriminate Hin.
  - revert Hin. unfold handle_event, deactivate. rewrite bind_getPreviewProcess.
    destruct (previewProcess w) as [c|].
    + rewrite (bind_ok _ _ _ _ _ _ (kill_run _ _ _)).
      cbn [trace setPreviewProcess]. rewrite kill_trace.
      intros Hin. apply list_elem_of_In in Hin.
      destruct (throws (Kill c (lit "SIGINT"))); simpl in Hin;
        repeat (destruct Hin as [Hin|Hin];
                [first [by injection Hin as -> <- | discriminate Hin]|]);
        destruct Hin.
    + intros Hin. apply list_elem_of_In in Hin. destruct Hin.
Qed.

Lemma search_urlRe_loopback (s url : jsstring) :
  search urlRe s = Some url -> isLoopbackUrl url.
Proof.
  intros H. destruct (search_leftmost _ _ _ H) as (pre & rest & -> & Hm & _).
  destruct (matchAt_urlRe_shape _ _ Hm) as (url' & Heq & Hurl & _).
  apply app_inv_tail in Heq. by subst url'.
Qed.

Lemma opensLoopback_execOutput (chunk : Stream * jsstring) :
  opensLoopback (execOutput chunk).
Proof. by destruct chunk as [[|] str]. Qed.

Lemma onData_opensLoopback (child : handle) (data : jsstring) :
  always opensLoopback (onData child data).
Proof.
  intros w. unfold onData, handleOutput. cbn [trace snd].
  destruct (negb _); [|by repeat constructor].
  destruct (search urlRe (cleanedStr data)) as [url|] eqn:E;
    [|by repeat constructor].
  repeat constructor. exact (search_urlRe_loopback _ _ E).
Qed.

(** Whatever the commands and the events, the embedded browser is only
    ever opened on a loopback URL: "http://localhost:" or
    "http://127.0.0.1:" and a port made of digits. *)
Theorem browser_opens_loopback_only (evs : list Event) (w : World)
    (url : jsstring) :
  OpenSimpleBrowser url ∈ trace (handle_events evs w) -> isLoopbackUrl url.
Proof.
  apply (always_In opensLoopback (handle_events evs) w (OpenSimpleBrowser url)).
  apply always_forEach. intros ev.
  assert (Hno : forall (A : Type) (m : M A),
            always noSupervision m -> always opensLoopback m).
  { intros A m Hm w'. specialize (Hm w'). rewrite Forall_forall in Hm.
    apply Forall_forall. intros e He. destruct (Hm e He) as [_ Hb].
    by destruct e. }
  destruct ev;
    unfold handle_event, renderQuartoDocumentWithFormat, onClose, onError,
      deactivate;
    always_tac; try exact I;
    try (apply Hno; first [ apply setupPixiEnvironment_noSupervision
                          | apply installPixiDependencies_noSupervision
                          | apply renderQuartoDocument_noSupervision ]);
    try apply onData_opensLoopback.
  unfold previewQuartoDocument.
  apply always_bind; [apply Hno, checkDocument_noSupervision|].
  intros [[[document folder] quartoWrapperPath]|]; always_tac; exact I.
Qed.

(** ** The setup: errors and success *)

Lemma tryCatch_out_unit (m : M unit) (h : JsError -> M unit) (w : World) :
  (forall e w', out (h e w') = Ok tt) -> out (tryCatch m h w) = Ok tt.
Proof.
  intros Hh. unfold tryCatch. destruct (out (m w)) as [[]|e] eqn:E; simpl.
  - exact E.
  - apply Hh.
Qed.

Lemma bind_Throw {A B} (m : M A) (k : A -> M B) (w w' : World)
    (calls : list Effect) (e : JsError) :
  m w = mkRes calls w' (Throw e) -> bind m k w = mkRes calls w' (Throw e).
Proof. intros H. unfold bind. by rewrite H. Qed.

Lemma tryCatch_Throw {A} (m : M A) (h : JsError -> M A) (w w' : World)
    (calls : list Effect) (e : JsError) :
  m w = mkRes calls w' (Throw e) ->
  tryCatch m h w
  = mkRes (calls ++ trace (h e w')) (world (h e w')) (out (h e w')).
Proof. intros H. unfold tryCatch. by rewrite H. Qed.

Lemma setupFolder_Ok (folder : WorkspaceFolder) (w : World) :
  out (setupFolder folder w) = Ok tt.
Proof.
  unfold setupFolder. cbv zeta. rewrite bind_emit, !bind_existsSync.
  destruct (_ || _); [|reflexivity].
  rewrite bind_emit. cbn [out]. apply tryCatch_out_unit.
  intros e w'. rewrite bind_emit. cbn [out].
  by destruct (truthy (stderr e)).
Qed.

Lemma setupFolder_first_call (folder : WorkspaceFolder) (w : World) :
  exists calls,
    trace (setupFolder folder w)
    = AppendLine (lit "Checking for pixi.toml or pyproject.toml at: " ++ fsPath folder)
        :: calls.
Proof. unfold setupFolder. cbv zeta. rewrite bind_emit. by eexists. Qed.

(** The setup never throws, and a failure in one folder does not stop
    the loop: every workspace folder is checked. *)
Theorem setupPixiEnvironment_checks_every_folder
    (folders : list WorkspaceFolder) (w : World) (folder : WorkspaceFolder) :
  folder ∈ folders ->
  out (setupPixiEnvironment (Some folders) w) = Ok tt /\
  AppendLine (lit "Checking for pixi.toml or pyproject.toml at: " ++ fsPath folder)
    ∈ trace (setupPixiEnvironment (Some folders) w).
Proof.
  unfold setupPixiEnvironment. revert w.
  induction folders as [|f l IH]; intros w Hin; [by apply elem_of_nil in Hin|].
  cbn [forEach].
  destruct (bind_Ok (setupFolder f) (fun _ => forEach l setupFolder) w tt
              (setupFolder_Ok f w)) as (-> & _ & ->).
  apply elem_of_cons in Hin as [->|Hin].
  - split.
    + clear IH. generalize (world (setupFolder f w)).
      induction l as [|g l IHl]; intros w'; [reflexivity|].
      cbn [forEach].
      destruct (bind_Ok (setupFolder g) (fun _ => forEach l setupFolder) w' tt
                  (setupFolder_Ok g w')) as (_ & _ & ->).
      apply IHl.
    + destruct (setupFolder_first_call f w) as [calls ->].
      apply elem_of_app. left. left.
  - destruct (IH (world (setupFolder f w)) Hin) as [Hout Hcall].
    split; [exact Hout|]. apply elem_of_app. by right.
Qed.

(** When the info command fails, or when its output is not JSON, the
    setup of the folder logs the error, shows the error message, writes no
    file and updates no setting. *)
Theorem setupFolder_info_failure (folder : WorkspaceFolder) (w : World)
    (logged : jsstring) (error : JsError) :
  path_join [fsPath folder; lit "pixi.toml"] ∈ files w \/
  path_join [fsPath folder; lit "pyproject.toml"] ∈ files w ->
  (exists execMessage,
     pixiInfoIn (fsPath folder) = PixiExecError execMessage error /\
     logged = lit "Command execution error: " ++ execMessage) \/
  (exists stdout,
     pixiInfoIn (fsPath folder) = PixiParseError stdout error /\
     logged = lit "Failed to parse pixi info JSON. Stdout: " ++ stdout) ->
  trace (setupFolder folder w)
    = [AppendLine (lit "Checking for pixi.toml or pyproject.toml at: " ++ fsPath folder);
       AppendLine (lit "Found Pixi manifest in " ++ folderName folder);
       AppendLine (lit "Executing 'pixi info --json' in " ++ fsPath folder);
       Exec (lit "pixi info --json") (fsPath folder);
       AppendLine logged;
       AppendLine (lit "Failed to setup Pixi environment. Error: " ++ messageOrError error)]
      ++ (if truthy (stderr error)
          then [AppendLine (lit "Stderr: " ++ default [] (stderr error))] else [])
      ++ [ShowErrorMessage setupFailedMessage] /\
  world (setupFolder folder w) = w /\
  Forall (fun e => isFileWrite e = false /\ isSettingsUpdate e = false)
         (trace (setupFolder folder w)).
Proof.
  intros Hmanifest Hinfo.
  assert (Hb : bool_decide (path_join [fsPath folder; lit "pixi.toml"] ∈ files w)
            || bool_decide (path_join [fsPath folder; lit "pyproject.toml"] ∈ files w)
            = true).
  { apply orb_true_iff. destruct Hmanifest as [H|H]; [left|right];
      by apply bool_decide_eq_true. }
  assert (Hget : getPixiInfo (fsPath folder) w = mkRes
    [AppendLine (lit "Executing 'pixi info --json' in " ++ fsPath folder);
     Exec (lit "pixi info --json") (fsPath folder);
     AppendLine logged] w (Throw error)).
  { unfold getPixiInfo. rewrite !bind_emit.
    destruct Hinfo as [(m & -> & ->)|(o & -> & ->)]; reflexivity. }
  assert (E : setupFolder folder w = mkRes
    ([AppendLine (lit "Checking for pixi.toml or pyproject.toml at: " ++ fsPath folder);
      AppendLine (lit "Found Pixi manifest in " ++ folderName folder);
      AppendLine (lit "Executing 'pixi info --json' in " ++ fsPath folder);
      Exec (lit "pixi info --json") (fsPath folder);
      AppendLine logged;
      AppendLine (lit "Failed to setup Pixi environment. Error: " ++ messageOrError error)]
     ++ (if truthy (stderr error)
         then [AppendLine (lit "Stderr: " ++ default [] (stderr error))] else [])
     ++ [ShowErrorMessage setupFailedMessage]) w (Ok tt)).
  { unfold setupFolder. cbv zeta. rewrite bind_emit, !bind_existsSync, Hb.
    rewrite bind_emit.
    rewrite (tryCatch_Throw _ _ _ _ _ _ (bind_Throw _ _ _ _ _ _ Hget)).
    rewrite bind_emit.
    destruct (truthy (stderr error)); reflexivity. }
  rewrite E. cbn [trace world]. split; [reflexivity|]. split; [reflexivity|].
  destruct (truthy (stderr error)); by repeat constructor.
Qed.

(** When the answer of the info command has no environment (it is
    [null], it has no list, or the list is empty), the setup of the
    folder logs a warning, writes no file and updates no setting. *)
Theorem setupFolder_no_environments (folder : WorkspaceFolder) (w : World)
    (info : option PixiInfo) :
  path_join [fsPath folder; lit "pixi.toml"] ∈ files w \/
  path_join [fsPath folder; lit "pyproject.toml"] ∈ files w ->
  pixiInfoIn (fsPath folder) = PixiJson info ->
  info = None \/ info = Some (mkPixiInfo None) \/ info = Some (mkPixiInfo (Some [])) ->
  trace (setupFolder folder w)
    = [AppendLine (lit "Checking for pixi.toml or pyproject.toml at: " ++ fsPath folder);
       AppendLine (lit "Found Pixi manifest in " ++ folderName folder);
       AppendLine (lit "Executing 'pixi info --json' in " ++ fsPath folder);
       Exec (lit "pixi info --json") (fsPath folder);
       AppendLine (lit "Warning: Valid pixi info obtained, but no environments found.")] /\
  world (setupFolder folder w) = w.
Proof.
  intros Hmanifest Hinfo Hnone.
  assert (Hb : bool_decide (path_join [fsPath folder; lit "pixi.toml"] ∈ files w)
            || bool_decide (path_join [fsPath folder; lit "pyproject.toml"] ∈ files w)
            = true).
  { apply orb_true_iff. destruct Hmanifest as [H|H]; [left|right];
      by apply bool_decide_eq_true. }
  assert (Henvs : environmentsOf info = None).
  { by destruct Hnone as [->|[->| ->]]. }
  assert (E : setupFolder folder w = mkRes
    [AppendLine (lit "Checking for pixi.toml or pyproject.toml at: " ++ fsPath folder);
     AppendLine (lit "Found Pixi manifest in " ++ folderName folder);
     AppendLine (lit "Executing 'pixi info --json' in " ++ fsPath folder);
     Exec (lit "pixi info --json") (fsPath folder);
     AppendLine (lit "Warning: Valid pixi info obtained, but no environments found.")]
    w (Ok tt)).
  { unfold setupFolder. cbv zeta. rewrite bind_emit, !bind_existsSync, Hb.
    rewrite bind_emit.
    rewrite (tryCatch_ok _ _ w w
      [AppendLine (lit "Executing 'pixi info --json' in " ++ fsPath folder);
       Exec (lit "pixi info --json") (fsPath folder);
       AppendLine (lit "Warning: Valid pixi info obtained, but no environments found.")] tt);
      [reflexivity|].
    rewrite (bind_ok _ _ _ _ _ _ (getPixiInfo_json _ _ w Hinfo)).
    rewrite Henvs. reflexivity. }
  rewrite E. split; reflexivity.
Qed.

Lemma returns_ret {A} (P : A -> Prop) (a : A) : P a -> returns P (ret a).
Proof. intros H w. by exists a. Qed.

Lemma returns_emit (P : unit -> Prop) (e : Effect) : P tt -> returns P (emit e).
Proof. intros H w. by exists tt. Qed.

Lemma returns_existsSync (P : bool -> Prop) (path : jsstring) :
  (forall b, P b) -> returns P (existsSync path).
Proof. intros H w. eexists. split; [reflexivity | apply H]. Qed.

Lemma returns_call (P : unit -> Prop) (e : Effect) :
  throws e = None -> P tt -> returns P (call e).
Proof. intros He H w. exists tt. unfold call. by rewrite He. Qed.

Lemma returns_bind {A B} (Q : A -> Prop) (P : B -> Prop) (m : M A) (k : A -> M B) :
  returns Q m -> (forall a, Q a -> returns P (k a)) -> returns P (bind m k).
Proof.
  intros Hm Hk w. destruct (Hm w) as (a & Ha & Hq).
  destruct (Hk a Hq (world (m w))) as (b & Hb & Hp).
  exists b. unfold bind. by rewrite Ha.
Qed.

Lemma returns_when (P : unit -> Prop) (b : bool) (m : M unit) :
  P tt -> returns P m -> returns P (when b m).
Proof. intros H Hm. destruct b; [exact Hm | by apply returns_ret]. Qed.

Ltac returns_step Hno :=
  lazymatch goal with
  | |- returns _ (bind _ _) =>
    apply (returns_bind (fun _ => True)); [|intros ? _]
  | |- returns _ (ret _) => apply returns_ret
  | |- returns _ (existsSync _) => apply returns_existsSync; intros ?
  | |- returns _ (emit _) => apply returns_emit
  | |- returns _ (call _) => apply returns_call; [by apply Hno|]
  | |- returns _ (when _ _) => apply returns_when
  | |- returns _ (if ?b then _ else _) => destruct b
  end.

(** When no file-system call throws, [createWrapperScripts] returns the
    path of the R binary of the environment and the paths of the two
    wrappers. *)
Lemma createWrapperScripts_returns (workspacePath envName prefix : jsstring) :
  (forall e, isFileWrite e = true -> throws e = None) ->
  returns (fun paths =>
             paths = mkWrapperPaths (rBinPathOf prefix)
                       (rTermWrapperPathOf workspacePath)
                       (quartoWrapperPathOf workspacePath))
          (createWrapperScripts workspacePath envName prefix).
Proof.
  intros Hno. unfold createWrapperScripts. cbv zeta.
  repeat returns_step Hno; exact I || reflexivity.
Qed.

Lemma bind_assoc {A B C} (m : M A) (k1 : A -> M B) (k2 : B -> M C) (w : World) :
  bind (bind m k1) k2 w = bind m (fun a => bind (k1 a) k2) w.
Proof.
  unfold bind. destruct (out (m w)) as [a|e]; simpl; [|reflexivity].
  destruct (out (k1 a (world (m w)))) as [b|e]; simpl; [|reflexivity].
  by rewrite app_assoc.
Qed.

Lemma call_ok_same (e : Effect) (w : World) :
  throws e = None -> created e = ∅ -> call e w = mkRes [e] w (Ok tt).
Proof.
  intros He Hc. rewrite (call_ok _ _ He), Hc. destruct w as [f p b n]. simpl.
  do 2 f_equal. apply (right_id_L ∅ (∪)).
Qed.

Lemma three_updates_ok (u1 u2 u3 l1 l2 l3 : Effect) (w : World) :
  (forall e, throws e = None) ->
  created u1 = ∅ -> created u2 = ∅ -> created u3 = ∅ ->
  bind (bind (call u1) (fun _ => bind (call u2) (fun _ => emit l1)))
       (fun _ => bind (call u3) (fun _ => bind (emit l2) (fun _ => emit l3))) w
  = mkRes [u1; u2; l1; u3; l2; l3] w (Ok tt).
Proof.
  intros Hno H1 H2 H3. rewrite bind_assoc.
  rewrite (bind_ok _ _ _ _ _ _ (call_ok_same _ w (Hno _) H1)).
  rewrite bind_assoc.
  rewrite (bind_ok _ _ _ _ _ _ (call_ok_same _ w (Hno _) H2)).
  rewrite bind_emit.
  rewrite (bind_ok _ _ _ _ _ _ (call_ok_same _ w (Hno _) H3)).
  reflexivity.
Qed.

(** When no update throws, the settings writer makes three updates: the
    R binary for [r.rpath], the wrapper for [r.rterm], both under the key
    of the platform, and the wrapper for [quarto.path]. *)
Lemma configureWorkspaceSettings_updates (folder : WorkspaceFolder)
    (rPath rTermPath quartoPath : jsstring) (w : World) :
  (forall e, throws e = None) ->
  List.filter isSettingsUpdate
    (trace (configureWorkspaceSettings folder rPath rTermPath quartoPath w))
  = [ConfigUpdate (fsPath folder) (lit "r") (lit "rpath." ++ osKey) rPath Workspace;
     ConfigUpdate (fsPath folder) (lit "r") (lit "rterm." ++ osKey) rTermPath Workspace;
     ConfigUpdate (fsPath folder) (lit "quarto") (lit "path") quartoPath Workspace] /\
  out (configureWorkspaceSettings folder rPath rTermPath quartoPath w) = Ok tt.
Proof.
  intros Hno. unfold configureWorkspaceSettings, osKey. rewrite !bind_emit.
  cbn [trace world out List.filter isSettingsUpdate].
  destruct isWindows; [|destruct (bool_decide (platform = lit "darwin"))].
  all: erewrite tryCatch_ok by (by apply three_updates_ok);
    split; reflexivity.
Qed.

Lemma call_throws (e : Effect) (w : World) (err : JsError) :
  throws e = Some err -> call e w = mkRes [e] w (Throw err).
Proof. intros H. unfold call. by rewrite H. Qed.

(** Three updates in a row: all are made, or the sequence stops at the
    first one that throws. *)
Lemma three_updates_cases (u1 u2 u3 l1 l2 l3 : Effect) (w : World) :
  created u1 = ∅ -> created u2 = ∅ -> created u3 = ∅ ->
  (bind (bind (call u1) (fun _ => bind (call u2) (fun _ => emit l1)))
        (fun _ => bind (call u3) (fun _ => bind (emit l2) (fun _ => emit l3))) w
   = mkRes [u1; u2; l1; u3; l2; l3] w (Ok tt)) \/
  (exists err calls,
     bind (bind (call u1) (fun _ => bind (call u2) (fun _ => emit l1)))
          (fun _ => bind (call u3) (fun _ => bind (emit l2) (fun _ => emit l3))) w
     = mkRes calls w (Throw err) /\
     (calls = [u1] \/ calls = [u1; u2] \/ calls = [u1; u2; l1; u3])).
Proof.
  intros H1 H2 H3. rewrite bind_assoc.
  destruct (throws u1) as [err|] eqn:E1.
  { right. exists err, [u1]. split; [|auto].
    apply bind_Throw. by apply call_throws. }
  rewrite (bind_ok _ _ _ _ _ _ (call_ok_same _ w E1 H1)). rewrite bind_assoc.
  destruct (throws u2) as [err|] eqn:E2.
  { right. exists err, [u1; u2]. split; [|auto].
    rewrite (bind_Throw _ _ _ _ _ _ (call_throws _ w _ E2)). reflexivity. }
  rewrite (bind_ok _ _ _ _ _ _ (call_ok_same _ w E2 H2)). rewrite bind_emit.
  destruct (throws u3) as [err|] eqn:E3.
  { right. exists err, [u1; u2; l1; u3]. split; [|auto].
    rewrite (bind_Throw _ _ _ _ _ _ (call_throws _ w _ E3)). reflexivity. }
  left. rewrite (bind_ok _ _ _ _ _ _ (call_ok_same _ w E3 H3)). reflexivity.
Qed.

(** The settings writer never throws.  It attempts its three updates in
    order and stops at the first one that throws, which it logs: the
    updates it attempts are the first ones of the three. *)
Theorem configureWorkspaceSettings_stops_at_failure (folder : WorkspaceFolder)
    (rPath rTermPath quartoPath : jsstring) (w : World) :
  out (configureWorkspaceSettings folder rPath rTermPath quartoPath w) = Ok tt /\
  exists skipped,
    [ConfigUpdate (fsPath folder) (lit "r") (lit "rpath." ++ osKey) rPath Workspace;
     ConfigUpdate (fsPath folder) (lit "r") (lit "rterm." ++ osKey) rTermPath Workspace;
     ConfigUpdate (fsPath folder) (lit "quarto") (lit "path") quartoPath Workspace]
    = List.filter isSettingsUpdate
        (trace (configureWorkspaceSettings folder rPath rTermPath quartoPath w))
      ++ skipped /\
    (skipped = [] \/
     exists err,
       AppendLine (lit "Error updating workspace configuration: " ++ messageText err)
         ∈ trace (configureWorkspaceSettings folder rPath rTermPath quartoPath w)).
Proof.
  unfold configureWorkspaceSettings, osKey. rewrite !bind_emit.
  cbn [trace world out List.filter isSettingsUpdate].
  destruct isWindows; [|destruct (bool_decide (platform = lit "darwin"))].
  1:{
    destruct (three_updates_cases
      (ConfigUpdate (fsPath folder) (lit "r") (lit "rpath.windows") rPath Workspace)
      (ConfigUpdate (fsPath folder) (lit "r") (lit "rterm.windows") rTermPath Workspace)
      (ConfigUpdate (fsPath folder) (lit "quarto") (lit "path") quartoPath Workspace)
      (AppendLine (lit "Updated Windows R paths."))
      (AppendLine (lit "Updated Quarto path."))
      (AppendLine (lit "Successfully applied settings to .vscode/settings.json."))
      w eq_refl eq_refl eq_refl) as [Hall|(err & calls & Hstop & Hcalls)].
    all: try (rewrite (tryCatch_ok _ _ _ _ _ _ Hall);
              split; [reflexivity|];
              exists []; split; [reflexivity | by left]).
    rewrite (tryCatch_Throw _ _ _ _ _ _ Hstop);
      split; [reflexivity|];
      destruct Hcalls as [->|[->| ->]]; eexists; (split; [reflexivity|]);
      right; exists err; cbn [trace emit app];
      repeat first [apply list_elem_of_here | apply list_elem_of_further]. }
  1:{
    destruct (three_updates_cases
      (ConfigUpdate (fsPath folder) (lit "r") (lit "rpath.mac") rPath Workspace)
      (ConfigUpdate (fsPath folder) (lit "r") (lit "rterm.mac") rTermPath Workspace)
      (ConfigUpdate (fsPath folder) (lit "quarto") (lit "path") quartoPath Workspace)
      (AppendLine (lit "Updated macOS R paths."))
      (AppendLine (lit "Updated Quarto path."))
      (AppendLine (lit "Successfully applied settings to .vscode/settings.json."))
      w eq_refl eq_refl eq_refl) as [Hall|(err & calls & Hstop & Hcalls)].
    all: try (rewrite (tryCatch_ok _ _ _ _ _ _ Hall);
              split; [reflexivity|];
              exists []; split; [reflexivity | by left]).
    rewrite (tryCatch_Throw _ _ _ _ _ _ Hstop);
      split; [reflexivity|];
      destruct Hcalls as [->|[->| ->]]; eexists; (split; [reflexivity|]);
      right; exists err; cbn [trace emit app];
      repeat first [apply list_elem_of_here | apply list_elem_of_further]. }
    destruct (three_updates_cases
      (ConfigUpdate (fsPath folder) (lit "r") (lit "rpath.linux") rPath Workspace)
      (ConfigUpdate (fsPath folder) (lit "r") (lit "rterm.linux") rTermPath Workspace)
      (ConfigUpdate (fsPath folder) (lit "quarto") (lit "path") quartoPath Workspace)
      (AppendLine (lit "Updated Linux R paths."))
      (AppendLine (lit "Updated Quarto path."))
      (AppendLine (lit "Successfully applied settings to .vscode/settings.json."))
      w eq_refl eq_refl eq_refl) as [Hall|(err & calls & Hstop & Hcalls)].
  all: try (rewrite (tryCatch_ok _ _ _ _ _ _ Hall);
            split; [reflexivity|];
            exists []; split; [reflexivity | by left]).
  all: rewrite (tryCatch_Throw _ _ _ _ _ _ Hstop);
    split; [reflexivity|];
    destruct Hcalls as [->|[->| ->]]; eexists; (split; [reflexivity|]);
    right; exists err; cbn [trace emit app];
    repeat first [apply list_elem_of_here | apply list_elem_of_further].
Qed.

Lemma configureWorkspaceSettings_Ok (folder : WorkspaceFolder)
    (rPath rTermPath quartoPath : jsstring) (w : World) :
  out (configureWorkspaceSettings folder rPath rTermPath quartoPath w) = Ok tt.
Proof.
  unfold configureWorkspaceSettings. rewrite !bind_emit. cbn [out].
  apply tryCatch_out_unit. reflexivity.
Qed.

Lemma createWrapperScripts_no_updates (workspacePath envName prefix : jsstring) :
  always (fun e => isSettingsUpdate e = false)
         (createWrapperScripts workspacePath envName prefix).
Proof. unfold createWrapperScripts. always_tac; reflexivity. Qed.

(** When the folder has a manifest, the info command answers with
    environments, the chosen one has a prefix and no call throws, the
    setup of the folder makes exactly three settings updates: [r.rpath]
    of the platform is the R binary inside the environment (not a
    wrapper), [r.rterm] of the platform is the R wrapper and
    [quarto.path] is the Quarto wrapper.  It then shows that the
    environment is configured. *)
Theorem setupFolder_configures (folder : WorkspaceFolder) (w : World)
    (info : option PixiInfo) (envs : list EnvInfo) (env : EnvInfo)
    (c : N) (p : jsstring) :
  path_join [fsPath folder; lit "pixi.toml"] ∈ files w \/
  path_join [fsPath folder; lit "pyproject.toml"] ∈ files w ->
  pixiInfoIn (fsPath folder) = PixiJson info ->
  environmentsOf info = Some envs ->
  defaultEnv envs = Some env ->
  prefix env = Some (c :: p) ->
  (forall e, throws e = None) ->
  List.filter isSettingsUpdate (trace (setupFolder folder w))
    = [ConfigUpdate (fsPath folder) (lit "r") (lit "rpath." ++ osKey)
         (rBinPathOf (c :: p)) Workspace;
       ConfigUpdate (fsPath folder) (lit "r") (lit "rterm." ++ osKey)
         (rTermWrapperPathOf (fsPath folder)) Workspace;
       ConfigUpdate (fsPath folder) (lit "quarto") (lit "path")
         (quartoWrapperPathOf (fsPath folder)) Workspace] /\
  last (trace (setupFolder folder w))
    = Some (ShowInformationMessage
              (lit "R and Quarto configured to use Pixi environment: " ++ name env)).
Proof.
  intros Hmanifest Hinfo Henvs Henv Hprefix Hno.
  assert (Hb : bool_decide (path_join [fsPath folder; lit "pixi.toml"] ∈ files w)
            || bool_decide (path_join [fsPath folder; lit "pyproject.toml"] ∈ files w)
            = true).
  { apply orb_true_iff. destruct Hmanifest as [H|H]; [left|right];
      by apply bool_decide_eq_true. }
  destruct (createWrapperScripts_returns (fsPath folder) (name env) (c :: p)
              (fun e _ => Hno e) w) as (paths & Hout & ->).
  pose proof (always_filter_nil isSettingsUpdate _ w
                (createWrapperScripts_no_updates (fsPath folder) (name env) (c :: p)))
    as Hnone.
  destruct (createWrapperScripts (fsPath folder) (name env) (c :: p) w)
    as [calls w2 o] eqn:Ecreate.
  cbn [out trace] in Hout, Hnone. subst o.
  destruct (configureWorkspaceSettings_updates folder (rBinPathOf (c :: p))
              (rTermWrapperPathOf (fsPath folder))
              (quartoWrapperPathOf (fsPath folder)) w2 Hno)
    as (Hupdates & Hok).
  destruct (configureWorkspaceSettings folder (rBinPathOf (c :: p))
              (rTermWrapperPathOf (fsPath folder))
              (quartoWrapperPathOf (fsPath folder)) w2)
    as [calls2 w3 o2] eqn:Econf.
  cbn [out trace] in Hupdates, Hok. subst o2.
  assert (E : trace (setupFolder folder w) =
    [AppendLine (lit "Checking for pixi.toml or pyproject.toml at: " ++ fsPath folder);
     AppendLine (lit "Found Pixi manifest in " ++ folderName folder);
     AppendLine (lit "Executing 'pixi info --json' in " ++ fsPath folder);
     Exec (lit "pixi info --json") (fsPath folder);
     AppendLine (lit "Detected Pixi environment prefix: " ++ c :: p)]
    ++ calls ++ calls2
    ++ [ShowInformationMessage
          (lit "R and Quarto configured to use Pixi environment: " ++ name env)]).
  { unfold setupFolder. cbv zeta. rewrite bind_emit, !bind_existsSync, Hb.
    rewrite bind_emit.
    rewrite (tryCatch_ok _ _ w w3
      ([AppendLine (lit "Executing 'pixi info --json' in " ++ fsPath folder);
        Exec (lit "pixi info --json") (fsPath folder);
        AppendLine (lit "Detected Pixi environment prefix: " ++ c :: p)]
       ++ calls ++ calls2
       ++ [ShowInformationMessage
             (lit "R and Quarto configured to use Pixi environment: " ++ name env)]) tt);
      [reflexivity|].
    rewrite (bind_ok _ _ _ _ _ _ (getPixiInfo_json _ _ w Hinfo)).
    rewrite Henvs, Henv, Hprefix. cbn [truthy default].
    rewrite bind_emit, (bind_ok _ _ _ _ _ _ Ecreate).
    cbn [rPath rTermPath quartoPath].
    rewrite (bind_ok _ _ _ _ _ _ Econf). reflexivity. }
  rewrite E. split.
  - rewrite !List.filter_app, Hnone, Hupdates. reflexivity.
  - rewrite !app_assoc. apply last_snoc.
Qed.

(** The setup of a folder reports success as soon as the wrappers could
    be written: when a settings update throws, the settings writer logs
    it and returns, and the message that the environment is configured is
    shown all the same. *)
Theorem setupFolder_reports_success_without_settings (folder : WorkspaceFolder)
    (w : World) (info : option PixiInfo) (envs : list EnvInfo) (env : EnvInfo)
    (c : N) (p : jsstring) :
  path_join [fsPath folder; lit "pixi.toml"] ∈ files w \/
  path_join [fsPath folder; lit "pyproject.toml"] ∈ files w ->
  pixiInfoIn (fsPath folder) = PixiJson info ->
  environmentsOf info = Some envs ->
  defaultEnv envs = Some env ->
  prefix env = Some (c :: p) ->
  (forall e, isFileWrite e = true -> throws e = None) ->
  last (trace (setupFolder folder w))
    = Some (ShowInformationMessage
              (lit "R and Quarto configured to use Pixi environment: " ++ name env)) /\
  Forall (fun e => match e with ShowErrorMessage _ => False | _ => True end)
         (trace (setupFolder folder w)).
Proof.
  intros Hmanifest Hinfo Henvs Henv Hprefix Hfs.
  assert (Hb : bool_decide (path_join [fsPath folder; lit "pixi.toml"] ∈ files w)
            || bool_decide (path_join [fsPath folder; lit "pyproject.toml"] ∈ files w)
            = true).
  { apply orb_true_iff. destruct Hmanifest as [H|H]; [left|right];
      by apply bool_decide_eq_true. }
  destruct (createWrapperScripts_returns (fsPath folder) (name env) (c :: p) Hfs w)
    as (paths & Hout & ->).
  assert (Hquiet1 : always (fun e => match e with ShowErrorMessage _ => False | _ => True end)
                      (createWrapperScripts (fsPath folder) (name env) (c :: p))).
  { unfold createWrapperScripts. always_tac; exact I. }
  specialize (Hquiet1 w).
  destruct (createWrapperScripts (fsPath folder) (name env) (c :: p) w)
    as [calls w2 o] eqn:Ecreate.
  cbn [out trace] in Hout, Hquiet1. subst o.
  pose proof (configureWorkspaceSettings_Ok folder (rBinPathOf (c :: p))
                (rTermWrapperPathOf (fsPath folder))
                (quartoWrapperPathOf (fsPath folder)) w2) as Hok.
  assert (Hquiet2 : always (fun e => match e with ShowErrorMessage _ => False | _ => True end)
                      (configureWorkspaceSettings folder (rBinPathOf (c :: p))
                         (rTermWrapperPathOf (fsPath folder))
                         (quartoWrapperPathOf (fsPath folder)))).
  { unfold configureWorkspaceSettings. always_tac; exact I. }
  specialize (Hquiet2 w2).
  destruct (configureWorkspaceSettings folder (rBinPathOf (c :: p))
              (rTermWrapperPathOf (fsPath folder))
              (quartoWrapperPathOf (fsPath folder)) w2)
    as [calls2 w3 o2] eqn:Econf.
  cbn [out trace] in Hok, Hquiet2. subst o2.
  assert (E : trace (setupFolder folder w) =
    [AppendLine (lit "Checking for pixi.toml or pyproject.toml at: " ++ fsPath folder);
     AppendLine (lit "Found Pixi manifest in " ++ folderName folder);
     AppendLine (lit "Executing 'pixi info --json' in " ++ fsPath folder);
     Exec (lit "pixi info --json") (fsPath folder);
     AppendLine (lit "Detected Pixi environment prefix: " ++ c :: p)]
    ++ calls ++ calls2
    ++ [ShowInformationMessage
          (lit "R and Quarto configured to use Pixi environment: " ++ name env)]).
  { unfold setupFolder. cbv zeta. rewrite bind_emit, !bind_existsSync, Hb.
    rewrite bind_emit.
    rewrite (tryCatch_ok _ _ w w3
      ([AppendLine (lit "Executing 'pixi info --json' in " ++ fsPath folder);
        Exec (lit "pixi info --json") (fsPath folder);
        AppendLine (lit "Detected Pixi environment prefix: " ++ c :: p)]
       ++ calls ++ calls2
       ++ [ShowInformationMessage
             (lit "R and Quarto configured to use Pixi environment: " ++ name env)]) tt);
      [reflexivity|].
    rewrite (bind_ok _ _ _ _ _ _ (getPixiInfo_json _ _ w Hinfo)).
    rewrite Henvs, Henv, Hprefix. cbn [truthy default].
    rewrite bind_emit, (bind_ok _ _ _ _ _ _ Ecreate).
    cbn [rPath rTermPath quartoPath].
    rewrite (bind_ok _ _ _ _ _ _ Econf). reflexivity. }
  rewrite E. split.
  - rewrite !app_assoc. apply last_snoc.
  - repeat (apply Forall_app; split); try assumption; by repeat constructor.
Qed.

(** ** The render and the installation *)

Lemma forEach_emit {A} (f : A -> Effect) (l : list A) (w : World) :
  forEach l (fun x => emit (f x)) w = mkRes (map f l) w (Ok tt).
Proof.
  induction l as [|a l IH]; [reflexivity|].
  cbn [forEach map]. rewrite bind_emit, IH. reflexivity.
Qed.

Lemma execOutput_not_exec (chunk : Stream * jsstring) :
  isExec (execOutput chunk) = false.
Proof. by destruct chunk as [[|] str]. Qed.

(** The render runs a command only when its checks pass (a Quarto or
    RMarkdown document of a workspace folder whose Quarto wrapper exists
    on disk), and then it runs exactly one: the render command line of the
    document, in the root of the workspace folder.  When a check fails it
    shows one error message and does nothing else. *)
Theorem renderQuartoDocument_runs_one_command (format : option jsstring)
    (editor : option TextDocument) (w : World) :
  (forall command cwd,
     Exec command cwd ∈ trace (renderQuartoDocument format editor w) ->
     exists document folder,
       editor = Some document /\ isQuartoDocument document = true /\
       workspaceFolder document = Some folder /\
       quartoWrapperPathOf (fsPath folder) ∈ files w /\
       command = renderCommand (quartoWrapperPathOf (fsPath folder))
                   (fileName document) format /\
       cwd = fsPath folder) /\
  (forall document folder,
     editor = Some document -> isQuartoDocument document = true ->
     workspaceFolder document = Some folder ->
     quartoWrapperPathOf (fsPath folder) ∈ files w ->
     List.filter isExec (trace (renderQuartoDocument format editor w))
     = [Exec (renderCommand (quartoWrapperPathOf (fsPath folder))
                (fileName document) format) (fsPath folder)]) /\
  (out (checkDocument editor w) = Ok None ->
   exists msg, trace (renderQuartoDocument format editor w) = [ShowErrorMessage msg]).
Proof.
  assert (Hpass : forall document folder,
     editor = Some document -> isQuartoDocument document = true ->
     workspaceFolder document = Some folder ->
     quartoWrapperPathOf (fsPath folder) ∈ files w ->
     List.filter isExec (trace (renderQuartoDocument format editor w))
     = [Exec (renderCommand (quartoWrapperPathOf (fsPath folder))
                (fileName document) format) (fsPath folder)]).
  { intros document folder -> Hq Hf Hw. unfold renderQuartoDocument.
    rewrite (bind_ok _ _ _ _ _ _ (checkDocument_passes _ _ _ Hq Hf Hw)).
    cbv beta iota zeta. rewrite !bind_emit.
    rewrite (bind_ok _ _ _ _ _ _ (forEach_emit execOutput _ w)).
    cbn [trace app List.filter isExec]. f_equal.
    rewrite List.filter_app.
    assert (Hout : forall l, List.filter isExec (map execOutput l) = []).
    { induction l as [|ch l IH]; [reflexivity|].
      cbn [map List.filter]. by rewrite execOutput_not_exec. }
    rewrite Hout. by destruct (failure _). }
  assert (Hfail : out (checkDocument editor w) = Ok None ->
     exists msg, trace (renderQuartoDocument format editor w) = [ShowErrorMessage msg]).
  { intros H. destruct (checkDocument_rejects editor w H) as [msg Hmsg].
    exists msg. unfold renderQuartoDocument.
    rewrite (bind_ok _ _ _ _ _ _ Hmsg). reflexivity. }
  split; [|split; [exact Hpass | exact Hfail]].
  intros command cwd Hin.
  destruct (checkDocument_cases editor w)
    as [[msg Hmsg]|(document & folder & Heq & Hq & Hf & Hw)].
  - exfalso. destruct Hfail as [msg' Htrace]; [by rewrite Hmsg|].
    rewrite Htrace in Hin. apply list_elem_of_singleton in Hin. discriminate Hin.
  - exists document, folder. split; [exact Heq|]. split; [exact Hq|].
    split; [exact Hf|]. split; [exact Hw|].
    assert (Hf' : In (Exec command cwd)
                     (List.filter isExec (trace (renderQuartoDocument format editor w)))).
    { apply filter_In. split; [by apply list_elem_of_In | reflexivity]. }
    rewrite (Hpass document folder Heq Hq Hf Hw) in Hf'.
    destruct Hf' as [Hf'|[]]. by injection Hf' as <- <-.
Qed.

(** When the installation fails in a folder, the error is logged and
    shown and the installation stops there with that error: the folders
    that come after are not looked at. *)
Theorem installPixiDependencies_stops_at_failure (folder : WorkspaceFolder)
    (others : list WorkspaceFolder) (w : World) (error : JsError) :
  path_join [fsPath folder; lit "pixi.toml"] ∈ files w \/
  path_join [fsPath folder; lit "pyproject.toml"] ∈ files w ->
  failure (execOf (lit "pixi add r-base r-languageserver quarto -c conda-forge")
             (fsPath folder)) = Some error ->
  installPixiDependencies (Some (folder :: others)) w
  = mkRes
      ([WithProgress (lit "Installing R and Quarto via Pixi in " ++ folderName folder
                        ++ lit "...");
        AppendLine (lit "Executing 'pixi add r-base r-languageserver quarto -c conda-forge' in "
                      ++ fsPath folder);
        Exec (lit "pixi add r-base r-languageserver quarto -c conda-forge")
             (fsPath folder)]
       ++ map execOutput
            (chunks (execOf (lit "pixi add r-base r-languageserver quarto -c conda-forge")
                       (fsPath folder)))
       ++ [AppendLine (lit "Install error: " ++ messageText error);
           AppendLine (lit "Stderr: "
                         ++ stderrText (execOf (lit "pixi add r-base r-languageserver quarto -c conda-forge")
                                          (fsPath folder)));
           ShowErrorMessage
             (lit "Failed to install R and Quarto via Pixi. Check the " ++ dq ++
              lit "R Pixi Venv" ++ dq ++ lit " output channel.")])
      w (Throw error).
Proof.
  intros Hmanifest Hfail.
  assert (Hb : bool_decide (path_join [fsPath folder; lit "pixi.toml"] ∈ files w)
            || bool_decide (path_join [fsPath folder; lit "pyproject.toml"] ∈ files w)
            = true).
  { apply orb_true_iff. destruct Hmanifest as [H|H]; [left|right];
      by apply bool_decide_eq_true. }
  unfold installPixiDependencies. cbn [forEach].
  apply bind_Throw. unfold installFolder. cbv zeta.
  rewrite !bind_existsSync, Hb, !bind_emit.
  rewrite (bind_ok _ _ _ _ _ _ (forEach_emit execOutput _ w)).
  rewrite Hfail, !bind_emit. reflexivity.
Qed.

(** ** The activation hook of the project *)

Lemma maintains_ret {A} (I : World -> Prop) (P : Effect -> Prop) (a : A) :
  maintains I P (ret a).
Proof. intros w Hw. by split; [constructor|]. Qed.

Lemma maintains_emit (I : World -> Prop) (P : Effect -> Prop) (e : Effect) :
  P e -> maintains I P (emit e).
Proof. intros He w Hw. split; [by repeat constructor | exact Hw]. Qed.

Lemma maintains_existsSync (I : World -> Prop) (P : Effect -> Prop) (path : jsstring) :
  maintains I P (existsSync path).
Proof. intros w Hw. by split; [constructor|]. Qed.

Lemma maintains_call (file : jsstring) (P : Effect -> Prop) (e : Effect) :
  P e -> maintains (fun w => file ∈ files w) P (call e).
Proof.
  intros He w Hw. unfold call. destruct (throws e); cbn [trace world files].
  - split; [by repeat constructor | exact Hw].
  - split; [by repeat constructor|]. apply elem_of_union. by left.
Qed.

Lemma maintains_bind {A B} (I : World -> Prop) (P : Effect -> Prop)
    (m : M A) (k : A -> M B) :
  maintains I P m -> (forall a, maintains I P (k a)) -> maintains I P (bind m k).
Proof.
  intros Hm Hk w Hw. destruct (Hm w Hw) as [Ht Hi].
  unfold bind. destruct (out (m w)) as [a|e]; cbn [trace world].
  - destruct (Hk a _ Hi) as [Ht' Hi']. split; [|exact Hi'].
    apply Forall_app. by split.
  - by split.
Qed.

Lemma maintains_found {B} (I : World -> Prop) (P : Effect -> Prop)
    (path : jsstring) (k : bool -> M B) :
  (forall w, I w -> path ∈ files w) ->
  maintains I P (k true) -> maintains I P (bind (existsSync path) k).
Proof.
  intros Hfound Hk w Hw. rewrite bind_existsSync.
  rewrite (bool_decide_eq_true_2 _ (Hfound w Hw)). by apply Hk.
Qed.

Lemma maintains_when (I : World -> Prop) (P : Effect -> Prop) (b : bool) (m : M unit) :
  maintains I P m -> maintains I P (when b m).
Proof. intros Hm. destruct b; [exact Hm | apply maintains_ret]. Qed.

Ltac maintains_step :=
  lazymatch goal with
  | |- maintains _ _ (bind (existsSync _) _) =>
    first [ apply maintains_found; [intros ? H; exact H|]
          | apply maintains_bind; [apply maintains_existsSync | intros ?] ]
  | |- maintains _ _ (bind _ _) => apply maintains_bind; [|intros ?]
  | |- maintains _ _ (ret _) => apply maintains_ret
  | |- maintains _ _ (emit _) => apply maintains_emit
  | |- maintains _ _ (call _) => apply maintains_call
  | |- maintains _ _ (when (negb true) _) => apply maintains_ret
  | |- maintains _ _ (when _ _) => apply maintains_when
  end.

(** An activation hook that is already in the workspace folder is left
    as it is: the only files the wrapper creation writes or changes the
    mode of are then the two wrappers and the two shims of the
    environment. *)
Theorem createWrapperScripts_keeps_existing_hook
    (workspacePath envName prefix : jsstring) (w : World) (e : Effect) :
  path_join [workspacePath; lit ".pixi-activate.sh"] ∈ files w ->
  e ∈ trace (createWrapperScripts workspacePath envName prefix w) ->
  writesOnly [rTermWrapperPathOf workspacePath; quartoWrapperPathOf workspacePath;
              path_join [path_join [prefix; lit "bin"]; lit "conda"];
              path_join [path_join [prefix; lit "bin"]; lit "activate"]] e.
Proof.
  intros Hhook.
  assert (H : maintains
                (fun w => path_join [workspacePath; lit ".pixi-activate.sh"] ∈ files w)
                (writesOnly
                   [rTermWrapperPathOf workspacePath; quartoWrapperPathOf workspacePath;
                    path_join [path_join [prefix; lit "bin"]; lit "conda"];
                    path_join [path_join [prefix; lit "bin"]; lit "activate"]])
                (createWrapperScripts workspacePath envName prefix)).
  { unfold createWrapperScripts. cbv zeta.
    repeat maintains_step; try exact I;
      cbn [writesOnly]; rewrite !elem_of_cons; auto 6. }
  destruct (H w Hhook) as [Hall _].
  intros Hin. by apply (proj1 (Forall_forall _ _) Hall).
Qed.

(** ** C2: from Running to Idle *)

Lemma onClose_idle (child : handle) (code : option Z) (w : World) :
  previewProcess (world (onClose child code w)) = None.
Proof.
  unfold onClose. rewrite bind_emit, bind_getPreviewProcess.
  by destruct (previewProcess w) eqn:Hp.
Qed.

Lemma handle_events_snoc (evs : list Event) (ev : Event) (w : World) :
  world (handle_events (evs ++ [ev]) w)
  = world (handle_event ev (world (handle_events evs w))).
Proof.
  revert w. induction evs as [|e evs IH]; intros w.
  - cbn [app handle_events forEach].
    by destruct (bind_Ok (handle_event ev) (fun _ => ret tt) w tt
                   (handle_event_Ok ev w)) as (_ & -> & _).
  - change (handle_events ((e :: evs) ++ [ev]))
      with (bind (handle_event e) (fun _ => handle_events (evs ++ [ev]))).
    change (handle_events (e :: evs))
      with (bind (handle_event e) (fun _ => handle_events evs)).
    destruct (bind_Ok (handle_event e) (fun _ => handle_events (evs ++ [ev])) w tt
                (handle_event_Ok e w)) as (_ & -> & _).
    destruct (bind_Ok (handle_event e) (fun _ => handle_events evs) w tt
                (handle_event_Ok e w)) as (_ & -> & _).
    apply IH.
Qed.

(** C2.  While a process is tracked, the supervisor goes back to Idle
    (the variable is cleared) in each of the three cases.
    (a) The close event of the process, with any exit code, clears the
    variable.
    (b) A process that errors: the error handler itself only logs, and
    the variable is cleared by what comes with the error.  For a process
    that could not be started the runtime delivers the close event after
    the error event, and after that close event the variable is clear,
    whatever is handled in between.  For a signal that could not be sent
    the error is raised inside [kill], and the statement after the call
    clears the variable, in [deactivate] as in a preview request.
    (c) A preview request that passes the checks sends the interrupt
    signal and clears the variable before it spawns and tracks the new
    process. *)
Theorem C2_running_to_idle (w : World) (child : handle) :
  previewProcess w = Some child ->
  (forall code,
     previewProcess (world (onClose child code w)) = None /\
     List.filter isSupervision (trace (onClose child code w)) = [Assign None]) /\
  (forall err code,
     trace (handle_events (spawnFailure child err code) w)
     = [AppendLine (nl ++ lit "[Preview process error: " ++ messageText err
                       ++ lit "]" ++ nl);
        AppendLine (nl ++ lit "[Preview process exited with code " ++ codeText code
                       ++ lit "]" ++ nl);
        Assign None] /\
     previewProcess (world (handle_events (spawnFailure child err code) w)) = None /\
     forall evs,
       previewProcess
         (world (handle_events (EvError child err :: evs ++ [EvClose child code]) w))
       = None) /\
  (forall err,
     throws (Kill child (lit "SIGINT")) = Some err ->
     trace (deactivate w)
     = [Kill child (lit "SIGINT");
        AppendLine (nl ++ lit "[Preview process error: " ++ messageText err
                       ++ lit "]" ++ nl);
        Assign None] /\
     previewProcess (world (deactivate w)) = None /\
     forall document folder,
       isQuartoDocument document = true ->
       workspaceFolder document = Some folder ->
       quartoWrapperPathOf (fsPath folder) ∈ files w ->
       firstn 4 (trace (previewQuartoDocument (Some document) w))
       = [AppendLine (lit "Killing existing preview process...");
          Kill child (lit "SIGINT");
          AppendLine (nl ++ lit "[Preview process error: " ++ messageText err
                         ++ lit "]" ++ nl);
          Assign None]) /\
  (forall document folder,
     isQuartoDocument document = true ->
     workspaceFolder document = Some folder ->
     quartoWrapperPathOf (fsPath folder) ∈ files w ->
     List.filter isSupervision (trace (previewQuartoDocument (Some document) w))
       = [Kill child (lit "SIGINT"); Assign None;
          Spawn (dq ++ quartoWrapperPathOf (fsPath folder) ++ dq)
                [lit "preview"; fileName document; lit "--no-browser"]
                (fsPath folder) (nextHandle w);
          Assign (Some (nextHandle w))]).
Proof.
  intros Hp. split; [|split; [|split]].
  - intros code. unfold onClose. rewrite bind_emit, bind_getPreviewProcess, Hp.
    split; reflexivity.
  - intros err code.
    assert (E : handle_events (spawnFailure child err code) w
                = mkRes
                    [AppendLine (nl ++ lit "[Preview process error: " ++ messageText err
                                    ++ lit "]" ++ nl);
                     AppendLine (nl ++ lit "[Preview process exited with code "
                                    ++ codeText code ++ lit "]" ++ nl);
                     Assign None]
                    (mkWorld (files w) None (browserOpened w) (nextHandle w)) (Ok tt)).
    { assert (Eclose : onClose child code w
                       = mkRes
                           [AppendLine (nl ++ lit "[Preview process exited with code "
                                           ++ codeText code ++ lit "]" ++ nl);
                            Assign None]
                           (mkWorld (files w) None (browserOpened w) (nextHandle w))
                           (Ok tt)).
      { unfold onClose. by rewrite bind_emit, bind_getPreviewProcess, Hp. }
      unfold spawnFailure, handle_events. cbn [forEach handle_event].
      rewrite (bind_ok _ _ _ _ _ _ (eq_refl : onError child err w = mkRes _ w (Ok tt))).
      by rewrite (bind_ok _ _ _ _ _ _ Eclose). }
    rewrite E. split; [reflexivity|]. split; [reflexivity|].
    intros evs.
    change (EvError child err :: evs ++ [EvClose child code])
      with ((EvError child err :: evs) ++ [EvClose child code]).
    rewrite handle_events_snoc. apply onClose_idle.
  - intros err Herr.
    assert (Hkill : trace (kill child (lit "SIGINT") w)
                    = [Kill child (lit "SIGINT");
                       AppendLine (nl ++ lit "[Preview process error: "
                                      ++ messageText err ++ lit "]" ++ nl)]).
    { by rewrite kill_trace, Herr. }
    assert (E : deactivate w
                = mkRes (trace (kill child (lit "SIGINT") w) ++ [Assign None])
                        (mkWorld (files w) None (browserOpened w) (nextHandle w))
                        (Ok tt)).
    { unfold deactivate. rewrite bind_getPreviewProcess, Hp.
      by rewrite (bind_ok _ _ _ _ _ _ (kill_run _ _ _)). }
    rewrite E, Hkill. split; [reflexivity|]. split; [reflexivity|].
    intros document folder Hq Hf Hw.
    rewrite (previewQuartoDocument_running _ _ _ _ Hq Hf Hw Hp). cbn [trace].
    rewrite Hkill. reflexivity.
  - intros document folder Hq Hf Hw.
    apply (previewQuartoDocument_running_supervision _ _ _ _ Hq Hf Hw Hp).
Qed.

(** ** C4: the environment the setup works with *)

Lemma defaultEnv_first_default (pre post : list EnvInfo) (d : EnvInfo) :
  name d = lit "default" ->
  (forall x, x ∈ pre -> name x <> lit "default") ->
  defaultEnv (pre ++ d :: post) = Some d.
Proof.
  intros Hd Hpre. unfold defaultEnv.
  assert (E : find isDefault (pre ++ d :: post) = Some d).
  { induction pre as [|a pre IH]; cbn [app find].
    - unfold isDefault. by rewrite (bool_decide_eq_true_2 _ Hd).
    - unfold isDefault at 1.
      rewrite (bool_decide_eq_false_2 _ (Hpre a (list_elem_of_here _ _))).
      apply IH. intros x Hx. apply Hpre. by apply list_elem_of_further. }
  by rewrite E.
Qed.

Lemma defaultEnv_no_default (d : EnvInfo) (rest : list EnvInfo) :
  (forall e, e ∈ d :: rest -> name e <> lit "default") ->
  defaultEnv (d :: rest) = Some d.
Proof.
  intros H. unfold defaultEnv. apply find_isDefault_none in H. by rewrite H.
Qed.

Lemma bind_trace_prefix {A B} (m : M A) (k : A -> M B) (w : World) :
  exists rest, trace (bind m k w) = trace (m w) ++ rest.
Proof.
  unfold bind. destruct (out (m w)); cbn [trace].
  - by eexists.
  - exists []. by rewrite app_nil_r.
Qed.

Lemma tryCatch_trace_prefix {A} (m : M A) (h : JsError -> M A) (w : World) :
  exists rest, trace (tryCatch m h w) = trace (m w) ++ rest.
Proof.
  unfold tryCatch. destruct (out (m w)); cbn [trace].
  - exists []. by rewrite app_nil_r.
  - by eexists.
Qed.

(** The calls of the setup of a folder when the wrappers can be written:
    the five first ones, the calls of [createWrapperScripts], the calls of
    [configureWorkspaceSettings], and the message. *)
Lemma setupFolder_success_trace (folder : WorkspaceFolder) (w : World)
    (info : option PixiInfo) (envs : list EnvInfo) (env : EnvInfo)
    (c : N) (p : jsstring) :
  path_join [fsPath folder; lit "pixi.toml"] ∈ files w \/
  path_join [fsPath folder; lit "pyproject.toml"] ∈ files w ->
  pixiInfoIn (fsPath folder) = PixiJson info ->
  environmentsOf info = Some envs ->
  defaultEnv envs = Some env ->
  prefix env = Some (c :: p) ->
  (forall e, isFileWrite e = true -> throws e = None) ->
  exists calls,
    trace (setupFolder folder w)
    = calls ++ [ShowInformationMessage
                  (lit "R and Quarto configured to use Pixi environment: " ++ name env)].
Proof.
  intros Hmanifest Hinfo Henvs Henv Hprefix Hfs.
  assert (Hb : bool_decide (path_join [fsPath folder; lit "pixi.toml"] ∈ files w)
            || bool_decide (path_join [fsPath folder; lit "pyproject.toml"] ∈ files w)
            = true).
  { apply orb_true_iff. destruct Hmanifest as [H|H]; [left|right];
      by apply bool_decide_eq_true. }
  destruct (createWrapperScripts_returns (fsPath folder) (name env) (c :: p) Hfs w)
    as (paths & Hout & ->).
  destruct (createWrapperScripts (fsPath folder) (name env) (c :: p) w)
    as [calls w2 o] eqn:Ecreate.
  cbn [out] in Hout. subst o.
  pose proof (configureWorkspaceSettings_Ok folder (rBinPathOf (c :: p))
                (rTermWrapperPathOf (fsPath folder))
                (quartoWrapperPathOf (fsPath folder)) w2) as Hok.
  destruct (configureWorkspaceSettings folder (rBinPathOf (c :: p))
              (rTermWrapperPathOf (fsPath folder))
              (quartoWrapperPathOf (fsPath folder)) w2)
    as [calls2 w3 o2] eqn:Econf.
  cbn [out] in Hok. subst o2.
  exists ([AppendLine (lit "Checking for pixi.toml or pyproject.toml at: "
                         ++ fsPath folder);
           AppendLine (lit "Found Pixi manifest in " ++ folderName folder);
           AppendLine (lit "Executing 'pixi info --json' in " ++ fsPath folder);
           Exec (lit "pixi info --json") (fsPath folder);
           AppendLine (lit "Detected Pixi environment prefix: " ++ c :: p)]
          ++ calls ++ calls2).
  unfold setupFolder. cbv zeta. rewrite bind_emit, !bind_existsSync, Hb.
  rewrite bind_emit.
  rewrite (tryCatch_ok _ _ w w3
    ([AppendLine (lit "Executing 'pixi info --json' in " ++ fsPath folder);
      Exec (lit "pixi info --json") (fsPath folder);
      AppendLine (lit "Detected Pixi environment prefix: " ++ c :: p)]
     ++ calls ++ calls2
     ++ [ShowInformationMessage
           (lit "R and Quarto configured to use Pixi environment: " ++ name env)]) tt).
  - cbn [trace app]. by rewrite <- !app_assoc.
  - rewrite (bind_ok _ _ _ _ _ _ (getPixiInfo_json _ _ w Hinfo)).
    rewrite Henvs, Henv, Hprefix. cbn [truthy default].
    rewrite bind_emit, (bind_ok _ _ _ _ _ _ Ecreate).
    cbn [rPath rTermPath quartoPath].
    rewrite (bind_ok _ _ _ _ _ _ Econf). reflexivity.
Qed.

(** What the setup does with the record [defaultEnv] gives. *)
Lemma setupFolder_uses_defaultEnv (folder : WorkspaceFolder) (w : World)
    (info : option PixiInfo) (envs : list EnvInfo) (env : EnvInfo) :
  path_join [fsPath folder; lit "pixi.toml"] ∈ files w \/
  path_join [fsPath folder; lit "pyproject.toml"] ∈ files w ->
  pixiInfoIn (fsPath folder) = PixiJson info ->
  environmentsOf info = Some envs ->
  defaultEnv envs = Some env ->
  setupUses folder w env.
Proof.
  intros Hmanifest Hinfo Henvs Henv.
  assert (Hb : bool_decide (path_join [fsPath folder; lit "pixi.toml"] ∈ files w)
            || bool_decide (path_join [fsPath folder; lit "pyproject.toml"] ∈ files w)
            = true).
  { apply orb_true_iff. destruct Hmanifest as [H|H]; [left|right];
      by apply bool_decide_eq_true. }
  split.
  - intros Hprefix. unfold setupFolder. cbv zeta.
    rewrite bind_emit, !bind_existsSync, Hb, bind_emit.
    rewrite (tryCatch_ok _ _ w w
      [AppendLine (lit "Executing 'pixi info --json' in " ++ fsPath folder);
       Exec (lit "pixi info --json") (fsPath folder);
       AppendLine (lit "Error: No prefix found for environment " ++ name env)] tt);
      [reflexivity|].
    rewrite (bind_ok _ _ _ _ _ _ (getPixiInfo_json _ _ w Hinfo)).
    rewrite Henvs, Henv, Hprefix. reflexivity.
  - intros c p Hprefix. split.
    + unfold setupFolder. cbv zeta.
      rewrite bind_emit, !bind_existsSync, Hb, bind_emit. cbn [trace].
      match goal with
      | |- context [trace (tryCatch ?m ?h w)] =>
        destruct (tryCatch_trace_prefix m h w) as [rest0 ->]
      end.
      rewrite (bind_ok _ _ _ _ _ _ (getPixiInfo_json _ _ w Hinfo)).
      rewrite Henvs, Henv, Hprefix. cbn [truthy default].
      rewrite bind_emit. cbn [trace app].
      match goal with
      | |- context [trace (bind ?m ?k w)] =>
        destruct (bind_trace_prefix m k w) as [rest1 ->]
      end.
      exists (rest1 ++ rest0). cbn [app]. by rewrite <- !app_assoc.
    + intros Hfs.
      destruct (setupFolder_success_trace folder w info envs env c p
                  Hmanifest Hinfo Henvs Henv Hprefix Hfs) as [calls ->].
      apply last_snoc.
Qed.

(** C4.  The record the setup of a folder works with is the first record
    of the answer that is named "default", wherever it stands in the
    list, and the first record of the list when none has that name: its
    prefix is the one logged, its name and prefix are the ones
    [createWrapperScripts] is called with, and its name is the one in the
    line that reports a missing prefix and in the message shown at the
    end.  The setup command starts with these calls for the first of its
    folders. *)
Theorem C4_setup_uses_default_env (folder : WorkspaceFolder) (w : World)
    (info : option PixiInfo) (envs : list EnvInfo) :
  path_join [fsPath folder; lit "pixi.toml"] ∈ files w \/
  path_join [fsPath folder; lit "pyproject.toml"] ∈ files w ->
  pixiInfoIn (fsPath folder) = PixiJson info ->
  environmentsOf info = Some envs ->
  (forall pre d post,
     envs = pre ++ d :: post ->
     name d = lit "default" ->
     (forall x, x ∈ pre -> name x <> lit "default") ->
     setupUses folder w d) /\
  (forall d rest,
     envs = d :: rest ->
     (forall e, e ∈ envs -> name e <> lit "default") ->
     setupUses folder w d) /\
  (forall others,
     exists after,
       trace (setupPixiEnvironment (Some (folder :: others)) w)
       = trace (setupFolder folder w) ++ after).
Proof.
  intros Hmanifest Hinfo Henvs. split; [|split].
  - intros pre d post Heq Hd Hpre.
    apply (setupFolder_uses_defaultEnv folder w info envs d Hmanifest Hinfo Henvs).
    rewrite Heq. by apply defaultEnv_first_default.
  - intros d rest Heq Hnone.
    apply (setupFolder_uses_defaultEnv folder w info envs d Hmanifest Hinfo Henvs).
    rewrite Heq in Hnone |- *. by apply defaultEnv_no_default.
  - intros others. cbn [setupPixiEnvironment forEach].
    apply bind_trace_prefix.
Qed.

(** ** C7: the command line of the render *)

Lemma renderQuartoDocument_exec (format : option jsstring)
    (document : TextDocument) (folder : WorkspaceFolder) (w : World) :
  isQuartoDocument document = true ->
  workspaceFolder document = Some folder ->
  quartoWrapperPathOf (fsPath folder) ∈ files w ->
  List.filter isExec (trace (renderQuartoDocument format (Some document) w))
  = [Exec (renderCommand (quartoWrapperPathOf (fsPath folder))
             (fileName document) format) (fsPath folder)].
Proof.
  intros Hq Hf Hw. unfold renderQuartoDocument.
  rewrite (bind_ok _ _ _ _ _ _ (checkDocument_passes _ _ _ Hq Hf Hw)).
  cbv beta iota zeta. rewrite !bind_emit.
  rewrite (bind_ok _ _ _ _ _ _ (forEach_emit execOutput _ w)).
  cbn [trace app List.filter isExec]. f_equal.
  rewrite List.filter_app.
  assert (Hout : forall l, List.filter isExec (map execOutput l) = []).
  { induction l as [|ch l IH]; [reflexivity|].
    cbn [map List.filter]. by rewrite execOutput_not_exec. }
  rewrite Hout. by destruct (failure _).
Qed.

(** C7.  A render that passes its checks runs one command.  With a
    format (a non-empty string) that command is the quoted wrapper,
    [render], the quoted file name, then [--to] and the format, so it
    contains [--to] followed by the format.  Without a format, or with
    the empty string, the command ends with the quoted file name: the
    extension adds no [--to], and the command contains [--to] nowhere
    when neither the wrapper path nor the file name does. *)
Theorem C7_render_exec_to_flag (format : option jsstring)
    (document : TextDocument) (folder : WorkspaceFolder) (w : World) :
  isQuartoDocument document = true ->
  workspaceFolder document = Some folder ->
  quartoWrapperPathOf (fsPath folder) ∈ files w ->
  exists command,
    List.filter isExec (trace (renderQuartoDocument format (Some document) w))
    = [Exec command (fsPath folder)] /\
    (forall c f,
       format = Some (c :: f) ->
       command = dq ++ quartoWrapperPathOf (fsPath folder) ++ dq ++ lit " render "
                    ++ dq ++ fileName document ++ dq ++ lit " --to " ++ c :: f /\
       includes command (lit "--to " ++ c :: f) = true) /\
    (format = None \/ format = Some [] ->
       command = dq ++ quartoWrapperPathOf (fsPath folder) ++ dq ++ lit " render "
                    ++ dq ++ fileName document ++ dq /\
       (includes (quartoWrapperPathOf (fsPath folder)) (lit "--to") = false ->
        includes (fileName document) (lit "--to") = false ->
        includes command (lit "--to") = false)).
Proof.
  intros Hq Hf Hw.
  exists (renderCommand (quartoWrapperPathOf (fsPath folder)) (fileName document) format).
  split; [by apply renderQuartoDocument_exec|].
  destruct (renderCommand_to_flag (quartoWrapperPathOf (fsPath folder))
              (fileName document)) as (Hwith & Hnone & Hempty & Hfree).
  split.
  - intros c f ->.
    destruct (Hwith (c :: f)) as [Heq Hin]; [discriminate|].
    split; [|exact Hin]. rewrite Heq, Hnone. by rewrite <- !app_assoc.
  - intros [-> | ->].
    + split; [exact Hnone | exact Hfree].
    + rewrite Hempty. split; [exact Hnone | exact Hfree].
Qed.

End Extension.

(** * The properties on a concrete host *)

(** Membership in a list that computes. *)
Ltac in_computed_list :=
  apply list_elem_of_In; vm_compute;
  repeat first [left; reflexivity | right].

(** A path is in a set of files that computes. *)
Ltac in_files :=
  match goal with
  | |- ?x ∈ ?X => apply (bool_decide_eq_true_1 (x ∈ X)); vm_compute; reflexivity
  end.

(** C6.  The standard-output handler of the render passes a chunk through
    [stripAnsi] only: on the chunk made of a cursor-movement sequence and
    of the box-drawing character U+2500 it appends that character, so the
    log view receives a non-ASCII code unit.  The standard-error handler
    and the preview's handler replace it by a space on the same chunk. *)
Theorem C6_render_stdout_keeps_non_ascii :
  stripAnsi boxChunk = [9472%N] /\
  execOutput (Stdout, boxChunk) = Append [9472%N] /\
  Append [9472%N]
    ∈ trace (renderQuartoDocument (lit "linux") posixJoin lastSegment boxOnStdout
               None (Some sampleDocument) idleWorld) /\
  execOutput (Stderr, boxChunk) = Append (lit " ") /\
  snd (handleOutput false boxChunk) = [Append (lit " ")].
Proof.
  split; [by vm_compute|]. split; [by vm_compute|]. split; [in_computed_list|].
  split; by vm_compute.
Qed.

(** C1.  Two preview processes alive at the same time.  A second preview
    request supersedes the process 0: it is sent the interrupt signal and
    the process 1 is tracked.  Then the close event of the process 0
    comes: its handler clears the variable although the process it holds
    is the process 1, which goes on, untracked.  The third request finds
    the variable clear, so it signals nothing and spawns the process 2:
    the processes 1 and 2 are both alive, and the process 1 has never
    been sent a signal. *)
Theorem C1_superseded_close_leaves_two_live :
  List.filter isSupervision
    (trace (handle_events (lit "linux") posixJoin lastSegment noThrow
              (answers [defaultEnvInfo]) noOutput
              [CmdPreview (Some sampleDocument); CmdPreview (Some sampleDocument);
               EvClose 0 None; CmdPreview (Some sampleDocument)] idleWorld))
  = [Spawn (dq ++ lit "/w/proj/.vscode/quarto-pixi-wrapper.sh" ++ dq)
           [lit "preview"; lit "/w/proj/doc.qmd"; lit "--no-browser"]
           (lit "/w/proj") 0;
     Assign (Some 0);
     Kill 0 (lit "SIGINT"); Assign None;
     Spawn (dq ++ lit "/w/proj/.vscode/quarto-pixi-wrapper.sh" ++ dq)
           [lit "preview"; lit "/w/proj/doc.qmd"; lit "--no-browser"]
           (lit "/w/proj") 1;
     Assign (Some 1);
     Assign None;
     Spawn (dq ++ lit "/w/proj/.vscode/quarto-pixi-wrapper.sh" ++ dq)
           [lit "preview"; lit "/w/proj/doc.qmd"; lit "--no-browser"]
           (lit "/w/proj") 2;
     Assign (Some 2)] /\
  live (lit "linux") posixJoin lastSegment noThrow (answers [defaultEnvInfo]) noOutput
       [CmdPreview (Some sampleDocument); CmdPreview (Some sampleDocument);
        EvClose 0 None] idleWorld = [1] /\
  previewProcess
    (world (handle_events (lit "linux") posixJoin lastSegment noThrow
              (answers [defaultEnvInfo]) noOutput
              [CmdPreview (Some sampleDocument); CmdPreview (Some sampleDocument);
               EvClose 0 None] idleWorld)) = None /\
  live (lit "linux") posixJoin lastSegment noThrow (answers [defaultEnvInfo]) noOutput
       [CmdPreview (Some sampleDocument); CmdPreview (Some sampleDocument);
        EvClose 0 None; CmdPreview (Some sampleDocument)] idleWorld = [1; 2] /\
  previewProcess
    (world (handle_events (lit "linux") posixJoin lastSegment noThrow
              (answers [defaultEnvInfo]) noOutput
              [CmdPreview (Some sampleDocument); CmdPreview (Some sampleDocument);
               EvClose 0 None; CmdPreview (Some sampleDocument)] idleWorld))
  = Some 2.
Proof.
  split; [by vm_compute|]. split; [by vm_compute|]. split; [by vm_compute|].
  split; by vm_compute.
Qed.

(** The process 0 is tracked; the signal to it cannot be sent. *)
Lemma C2_witness :
  previewProcess (world (onClose 0 (Some 0%Z) runningWorld)) = None /\
  previewProcess
    (world (handle_events (lit "linux") posixJoin lastSegment
              (fun e => match e with
                        | Kill _ _ =>
                          Some (mkJsError (Some (lit "kill EPERM")) None
                                          (lit "Error: kill EPERM"))
                        | _ => None
                        end)
              (answers [defaultEnvInfo]) noOutput
              (spawnFailure 0 someError (Some (-2)%Z)) runningWorld)) = None /\
  trace (deactivate
           (fun e => match e with
                     | Kill _ _ =>
                       Some (mkJsError (Some (lit "kill EPERM")) None
                                       (lit "Error: kill EPERM"))
                     | _ => None
                     end)
           runningWorld)
  = [Kill 0 (lit "SIGINT");
     AppendLine (nl ++ lit "[Preview process error: " ++ lit "kill EPERM"
                    ++ lit "]" ++ nl);
     Assign None] /\
  List.filter isSupervision
    (trace (previewQuartoDocument (lit "linux") posixJoin
              (fun e => match e with
                        | Kill _ _ =>
                          Some (mkJsError (Some (lit "kill EPERM")) None
                                          (lit "Error: kill EPERM"))
                        | _ => None
                        end)
              (Some sampleDocument) runningWorld))
    = [Kill 0 (lit "SIGINT"); Assign None;
       Spawn (dq ++ lit "/w/proj/.vscode/quarto-pixi-wrapper.sh" ++ dq)
             [lit "preview"; lit "/w/proj/doc.qmd"; lit "--no-browser"]
             (lit "/w/proj") 1;
       Assign (Some 1)].
Proof.
  destruct (C2_running_to_idle (lit "linux") posixJoin lastSegment
              (fun e => match e with
                        | Kill _ _ =>
                          Some (mkJsError (Some (lit "kill EPERM")) None
                                          (lit "Error: kill EPERM"))
                        | _ => None
                        end)
              (answers [defaultEnvInfo]) noOutput runningWorld 0 eq_refl)
    as (Hclose & Hspawn & Hkill & Hpreview).
  split; [exact (proj1 (Hclose (Some 0%Z)))|].
  split; [exact (proj1 (proj2 (Hspawn someError (Some (-2)%Z))))|].
  split; [exact (proj1 (Hkill _ eq_refl))|].
  apply (Hpreview sampleDocument sampleFolder).
  - reflexivity.
  - reflexivity.
  - in_files.
Defined.

Lemma C3_witness :
  exists url,
    search urlRe
      (cleanedStr ([27%N] ++ lit "[1mBrowse at http://127.0.0.1:4200/")) = Some url /\
    List.filter isBrowserOpen
      (trace (forEach [lit "Preparing to preview"] (onData 0) idleWorld)) = [] /\
    List.filter isBrowserOpen
      (trace (forEach ([lit "Preparing to preview"]
                         ++ [[27%N] ++ lit "[1mBrowse at http://127.0.0.1:4200/"])
                      (onData 0) idleWorld))
      = [OpenSimpleBrowser url] /\
    List.filter isBrowserOpen
      (trace (forEach ([lit "Preparing to preview"]
                         ++ ([27%N] ++ lit "[1mBrowse at http://127.0.0.1:4200/")
                         :: [lit "Watching http://localhost:4200/ for changes"])
                      (onData 0) idleWorld))
      = [OpenSimpleBrowser url].
Proof.
  apply (C3_browser_opened_once 0 idleWorld [lit "Preparing to preview"]
           ([27%N] ++ lit "[1mBrowse at http://127.0.0.1:4200/")
           [lit "Watching http://localhost:4200/ for changes"]).
  - apply not_elem_of_empty.
  - intros d Hd Hurl. apply list_elem_of_singleton in Hd. subst d.
    apply search_urlRe_spec in Hurl. vm_compute in Hurl.
    destruct Hurl as [url Hurl]. discriminate Hurl.
  - apply search_urlRe_spec. vm_compute. eexists. reflexivity.
Defined.

(** "default" last in the list, "default" first, and no "default". *)
Lemma C4_witness :
  last (trace (setupFolder (lit "linux") posixJoin noThrow
                 (answers [devEnv; defaultEnvInfo]) sampleFolder manifestWorld))
  = Some (ShowInformationMessage
            (lit "R and Quarto configured to use Pixi environment: " ++ lit "default")) /\
  last (trace (setupFolder (lit "linux") posixJoin noThrow
                 (answers [defaultEnvInfo; devEnv]) sampleFolder manifestWorld))
  = Some (ShowInformationMessage
            (lit "R and Quarto configured to use Pixi environment: " ++ lit "default")) /\
  last (trace (setupFolder (lit "linux") posixJoin noThrow
                 (answers [devEnv; testEnv]) sampleFolder manifestWorld))
  = Some (ShowInformationMessage
            (lit "R and Quarto configured to use Pixi environment: " ++ lit "dev")).
Proof.
  assert (Hmanifest :
            posixJoin [fsPath sampleFolder; lit "pixi.toml"] ∈ files manifestWorld \/
            posixJoin [fsPath sampleFolder; lit "pyproject.toml"] ∈ files manifestWorld).
  { right. in_files. }
  split; [|split].
  - destruct (C4_setup_uses_default_env (lit "linux") posixJoin noThrow
                (answers [devEnv; defaultEnvInfo]) sampleFolder manifestWorld
                (Some (mkPixiInfo (Some [devEnv; defaultEnvInfo])))
                [devEnv; defaultEnvInfo] Hmanifest eq_refl eq_refl) as [Hdefault _].
    assert (Huses : setupUses (lit "linux") posixJoin noThrow
                      (answers [devEnv; defaultEnvInfo]) sampleFolder manifestWorld
                      defaultEnvInfo).
    { apply (Hdefault [devEnv] defaultEnvInfo []); [reflexivity | reflexivity |].
      intros x Hx. apply list_elem_of_singleton in Hx. subst x. discriminate. }
    destruct Huses as [_ Hprefix].
    destruct (Hprefix 47%N (lit "w/proj/.pixi/envs/default") eq_refl) as [_ Hlast].
    apply Hlast. intros e _. reflexivity.
  - destruct (C4_setup_uses_default_env (lit "linux") posixJoin noThrow
                (answers [defaultEnvInfo; devEnv]) sampleFolder manifestWorld
                (Some (mkPixiInfo (Some [defaultEnvInfo; devEnv])))
                [defaultEnvInfo; devEnv] Hmanifest eq_refl eq_refl) as [Hdefault _].
    assert (Huses : setupUses (lit "linux") posixJoin noThrow
                      (answers [defaultEnvInfo; devEnv]) sampleFolder manifestWorld
                      defaultEnvInfo).
    { apply (Hdefault [] defaultEnvInfo [devEnv]); [reflexivity | reflexivity |].
      intros x Hx. inversion Hx. }
    destruct Huses as [_ Hprefix].
    destruct (Hprefix 47%N (lit "w/proj/.pixi/envs/default") eq_refl) as [_ Hlast].
    apply Hlast. intros e _. reflexivity.
  - destruct (C4_setup_uses_default_env (lit "linux") posixJoin noThrow
                (answers [devEnv; testEnv]) sampleFolder manifestWorld
                (Some (mkPixiInfo (Some [devEnv; testEnv])))
                [devEnv; testEnv] Hmanifest eq_refl eq_refl) as [_ [Hhead _]].
    assert (Huses : setupUses (lit "linux") posixJoin noThrow
                      (answers [devEnv; testEnv]) sampleFolder manifestWorld devEnv).
    { apply (Hhead devEnv [testEnv]); [reflexivity|].
      intros e He Hname. apply list_elem_of_In in He.
      destruct He as [<-|[<-|[]]]; discriminate Hname. }
    destruct Huses as [_ Hprefix].
    destruct (Hprefix 47%N (lit "w/proj/.pixi/envs/dev") eq_refl) as [_ Hlast].
    apply Hlast. intros e _. reflexivity.
Defined.

Lemma C5_witness :
  trace (setupFolder (lit "linux") posixJoin noThrow (answers [bareEnv])
           sampleFolder manifestWorld)
    = [AppendLine (lit "Checking for pixi.toml or pyproject.toml at: /w/proj");
       AppendLine (lit "Found Pixi manifest in proj");
       AppendLine (lit "Executing 'pixi info --json' in /w/proj");
       Exec (lit "pixi info --json") (lit "/w/proj");
       AppendLine (lit "Error: No prefix found for environment default")] /\
  world (setupFolder (lit "linux") posixJoin noThrow (answers [bareEnv])
           sampleFolder manifestWorld) = manifestWorld /\
  Forall (fun e => isFileWrite e = false /\ isSettingsUpdate e = false)
    (trace (setupFolder (lit "linux") posixJoin noThrow (answers [bareEnv])
              sampleFolder manifestWorld)).
Proof.
  apply (C5_no_prefix_no_writes (lit "linux") posixJoin noThrow (answers [bareEnv])
           sampleFolder manifestWorld (Some (mkPixiInfo (Some [bareEnv])))
           [bareEnv] bareEnv).
  - right. in_files.
  - reflexivity.
  - reflexivity.
  - reflexivity.
  - reflexivity.
Defined.

(** A render to PDF and a render without format of the same document. *)
Lemma C7_witness :
  (exists command,
     List.filter isExec
       (trace (renderQuartoDocument (lit "linux") posixJoin lastSegment noOutput
                 (Some (lit "pdf")) (Some sampleDocument) idleWorld))
     = [Exec command (lit "/w/proj")] /\
     includes command (lit "--to pdf") = true) /\
  (exists command,
     List.filter isExec
       (trace (renderQuartoDocument (lit "linux") posixJoin lastSegment noOutput
                 None (Some sampleDocument) idleWorld))
     = [Exec command (lit "/w/proj")] /\
     includes command (lit "--to") = false).
Proof.
  assert (Hwrapper : quartoWrapperPathOf (lit "linux") posixJoin (fsPath sampleFolder)
                       ∈ files idleWorld) by in_files.
  split.
  - destruct (C7_render_exec_to_flag (lit "linux") posixJoin lastSegment noOutput
                (Some (lit "pdf")) sampleDocument sampleFolder idleWorld
                eq_refl eq_refl Hwrapper) as (command & Hexec & Hwith & _).
    exists command. split; [exact Hexec|].
    exact (proj2 (Hwith 112%N (lit "df") eq_refl)).
  - destruct (C7_render_exec_to_flag (lit "linux") posixJoin lastSegment noOutput
                None sampleDocument sampleFolder idleWorld
                eq_refl eq_refl Hwrapper) as (command & Hexec & _ & Hwithout).
    exists command. split; [exact Hexec|].
    apply (proj2 (Hwithout (or_introl eq_refl))); vm_compute; reflexivity.
Defined.

(** C7, as the specification has it, fails for a document whose file
    name holds a double quote followed by the flag: the render without
    format of such a document, which passes the checks since its name
    ends in ".qmd", runs a command line that contains [--to pdf]. *)
Lemma C7_file_name_carries_flag :
  isQuartoDocument
    (mkTextDocument (lit "plaintext")
       (lit "/w/proj/a" ++ dq ++ lit " --to pdf " ++ dq ++ lit "b.qmd")
       (Some sampleFolder)) = true /\
  List.filter isExec
    (trace (renderQuartoDocument (lit "linux") posixJoin lastSegment noOutput None
              (Some (mkTextDocument (lit "plaintext")
                       (lit "/w/proj/a" ++ dq ++ lit " --to pdf " ++ dq ++ lit "b.qmd")
                       (Some sampleFolder)))
              idleWorld))
  = [Exec (dq ++ lit "/w/proj/.vscode/quarto-pixi-wrapper.sh" ++ dq ++ lit " render "
              ++ dq ++ lit "/w/proj/a" ++ dq ++ lit " --to pdf " ++ dq ++ lit "b.qmd"
              ++ dq)
          (lit "/w/proj")] /\
  includes (dq ++ lit "/w/proj/.vscode/quarto-pixi-wrapper.sh" ++ dq ++ lit " render "
              ++ dq ++ lit "/w/proj/a" ++ dq ++ lit " --to pdf " ++ dq ++ lit "b.qmd"
              ++ dq)
           (lit "--to pdf") = true.
Proof. split; [by vm_compute|]. split; by vm_compute. Qed.

Lemma C8_witness :
  trace (setupFolder (lit "linux") posixJoin noThrow (answers [defaultEnvInfo])
           sampleFolder emptyWorld)
    = [AppendLine (lit "Checking for pixi.toml or pyproject.toml at: /w/proj");
       AppendLine (lit "No pixi.toml found in proj")] /\
  world (setupFolder (lit "linux") posixJoin noThrow (answers [defaultEnvInfo])
           sampleFolder emptyWorld) = emptyWorld /\
  out (setupFolder (lit "linux") posixJoin noThrow (answers [defaultEnvInfo])
         sampleFolder emptyWorld) = Ok tt /\
  Forall (fun e => isFileWrite e = false /\ isSettingsUpdate e = false)
    (trace (setupFolder (lit "linux") posixJoin noThrow (answers [defaultEnvInfo])
              sampleFolder emptyWorld)).
Proof.
  apply (C8_no_manifest_nothing_produced (lit "linux") posixJoin noThrow
           (answers [defaultEnvInfo]) sampleFolder emptyWorld).
  - apply not_elem_of_empty.
  - apply not_elem_of_empty.
Defined.

(** The wrappers written in a folder that has a [pyproject.toml] only. *)
Example createWrapperScripts_sample :
  List.filter (fun e => match e with WriteFileSync _ _ => true | _ => false end)
    (firstn 3 (trace (createWrapperScripts (lit "linux") posixJoin noThrow
                        (lit "/w/proj") (lit "default")
                        (lit "/w/proj/.pixi/envs/default") manifestWorld)))
  = [WriteFileSync (lit "/w/proj/.vscode/rterm-pixi-wrapper.sh")
       (lit "#!/bin/sh" ++ nl ++ lit "exec pixi run --manifest-path " ++ dq
          ++ lit "/w/proj/pyproject.toml" ++ dq ++ lit " -e default R " ++ dq
          ++ lit "$@" ++ dq);
     WriteFileSync (lit "/w/proj/.vscode/quarto-pixi-wrapper.sh")
       (lit "#!/bin/sh" ++ nl ++ lit "exec pixi run --manifest-path " ++ dq
          ++ lit "/w/proj/pyproject.toml" ++ dq ++ lit " -e default quarto " ++ dq
          ++ lit "$@" ++ dq)].
Proof. by vm_compute. Qed.

(** The same on Windows, with [pixi.toml] present. *)
Example createWrapperScripts_sample_windows :
  List.filter (fun e => match e with WriteFileSync _ _ => true | _ => false end)
    (firstn 3 (trace (createWrapperScripts (lit "win32") posixJoin noThrow
                        (lit "C:/proj") (lit "default")
                        (lit "C:/proj/.pixi/envs/default")
                        (mkWorld {[ lit "C:/proj/pixi.toml" ]} None ∅ 0))))
  = [WriteFileSync (lit "C:/proj/.vscode/rterm-pixi-wrapper.bat")
       (lit "@echo off" ++ nl ++ lit "pixi run --manifest-path " ++ dq
          ++ lit "C:/proj/pixi.toml" ++ dq ++ lit " -e default R %*");
     WriteFileSync (lit "C:/proj/.vscode/quarto-pixi-wrapper.bat")
       (lit "@echo off" ++ nl ++ lit "pixi run --manifest-path " ++ dq
          ++ lit "C:/proj/pixi.toml" ++ dq ++ lit " -e default quarto %*")].
Proof. by vm_compute. Qed.

Lemma C9_witness :
  wrapperOrShim (lit "linux") posixJoin (lit "/w/proj") (lit "default")
    (lit "/w/proj/.pixi/envs/default")
    (WriteFileSync (lit "/w/proj/.pixi/envs/default/bin/conda") condaShimContent) /\
  exists manifestPath,
    (manifestPath = lit "/w/proj/pixi.toml" \/
     manifestPath = lit "/w/proj/pyproject.toml") /\
    WriteFileSync (lit "/w/proj/.vscode/rterm-pixi-wrapper.sh")
                  (wrapperScript false manifestPath (lit "default") (lit "R"))
      ∈ trace (createWrapperScripts (lit "linux") posixJoin noThrow
                 (lit "/w/proj") (lit "default")
                 (lit "/w/proj/.pixi/envs/default") manifestWorld) /\
    WriteFileSync (lit "/w/proj/.vscode/quarto-pixi-wrapper.sh")
                  (wrapperScript false manifestPath (lit "default") (lit "quarto"))
      ∈ trace (createWrapperScripts (lit "linux") posixJoin noThrow
                 (lit "/w/proj") (lit "default")
                 (lit "/w/proj/.pixi/envs/default") manifestWorld).
Proof.
  pose proof (C9_wrapper_script_is_single_invocation (lit "linux") posixJoin noThrow
                (lit "/w/proj") (lit "default") (lit "/w/proj/.pixi/envs/default"))
    as (_ & Hall & Hboth).
  split.
  - apply (Hall manifestWorld). in_computed_list.
  - apply (Hboth manifestWorld). intros e. reflexivity.
Defined.

Lemma C10_witness :
  ConfigUpdate (lit "/w/proj") (lit "quarto") (lit "path")
               (lit "/w/proj/.vscode/quarto-pixi-wrapper.sh") Workspace
    ∈ trace (handle_events (lit "linux") posixJoin lastSegment noThrow
               (answers [devEnv; defaultEnvInfo]) noOutput
               [CmdSetup (Some [sampleFolder])] manifestWorld) /\
  targetsWorkspace
    (ConfigUpdate (lit "/w/proj") (lit "r") (lit "rterm.linux")
                  (lit "/w/proj/.vscode/rterm-pixi-wrapper.sh") Workspace).
Proof.
  pose proof (C10_updates_target_workspace (lit "linux") posixJoin lastSegment
                noThrow (answers [devEnv; defaultEnvInfo]) noOutput)
    as (Hwriter & Hevents).
  assert (Hin : ConfigUpdate (lit "/w/proj") (lit "quarto") (lit "path")
               (lit "/w/proj/.vscode/quarto-pixi-wrapper.sh") Workspace
    ∈ trace (handle_events (lit "linux") posixJoin lastSegment noThrow
               (answers [devEnv; defaultEnvInfo]) noOutput
               [CmdSetup (Some [sampleFolder])] manifestWorld)).
  { in_computed_list. }
  split; [exact Hin|].
  apply (Hwriter sampleFolder (lit "/w/proj/.pixi/envs/default/bin/R")
           (lit "/w/proj/.vscode/rterm-pixi-wrapper.sh")
           (lit "/w/proj/.vscode/quarto-pixi-wrapper.sh") manifestWorld).
  in_computed_list.
Defined.

(** One preview from its request to its first URL: the browser is opened
    once, on the first URL. *)
Example preview_session :
  List.filter isBrowserOpen
    (trace (handle_events (lit "linux") posixJoin lastSegment noThrow
              (answers [defaultEnvInfo]) noOutput
              [CmdPreview (Some sampleDocument);
               EvData 0 (lit "Preparing to preview");
               EvData 0 ([27%N] ++ lit "[1mBrowse at http://127.0.0.1:4200/");
               EvData 0 (lit "Watching http://localhost:4200/ for changes")]
              idleWorld))
  = [OpenSimpleBrowser (lit "http://127.0.0.1:4200")].
Proof. by vm_compute. Qed.

(** The close handler of every preview process clears the variable
    whenever it holds a handle.  So the close event of a process that a
    later request has superseded clears the handle of the process spawned
    by that request, which goes on untracked. *)
Remark close_of_superseded_process :
  List.filter isSupervision
    (trace (handle_events (lit "linux") posixJoin lastSegment noThrow
              (answers [defaultEnvInfo]) noOutput
              [CmdPreview (Some sampleDocument); EvClose 0 None] runningWorld))
  = [Kill 0 (lit "SIGINT"); Assign None;
     Spawn (dq ++ lit "/w/proj/.vscode/quarto-pixi-wrapper.sh" ++ dq)
           [lit "preview"; lit "/w/proj/doc.qmd"; lit "--no-browser"]
           (lit "/w/proj") 1;
     Assign (Some 1); Assign None] /\
  previewProcess
    (world (handle_events (lit "linux") posixJoin lastSegment noThrow
              (answers [defaultEnvInfo]) noOutput
              [CmdPreview (Some sampleDocument); EvClose 0 None] runningWorld))
  = None.
Proof. split; by vm_compute. Qed.

(** ** Further properties on the concrete host *)

(** A decidable statement that computes. *)
Ltac by_computation :=
  match goal with
  | |- ?P => apply (bool_decide_eq_true_1 P); vm_compute; reflexivity
  end.

(** A property of every code unit of a literal. *)
Ltac every_code_unit := vm_compute; repeat constructor.

Lemma stripAnsi_plain_text_witness :
  stripAnsi (lit "Output created: doc.html") = lit "Output created: doc.html".
Proof. apply (stripAnsi_plain_text (lit "Output created: doc.html")). every_code_unit. Defined.


(** The colour sequence ESC [ 1 ; 32 m in the middle of a line. *)
Lemma stripAnsi_removes_csi_witness :
  stripAnsi (lit "ok " ++ 27%N :: 91%N :: lit "1;32" ++ 109%N :: lit " done")
  = lit "ok " ++ stripAnsi (lit " done").
Proof.
  apply (stripAnsi_removes_csi (lit "ok ") (lit "1;32") (lit " done") 27%N 109%N).
  - every_code_unit.
  - reflexivity.
  - right. exists (lit "1"), [lit "32"]. split; [reflexivity|].
    split; [discriminate|]. split.
    + split; [every_code_unit | vm_compute; lia].
    + constructor; [|constructor]. split; [every_code_unit | vm_compute; lia].
  - reflexivity.
  - reflexivity.
Defined.

Lemma search_urlRe_first_loopback_url_witness :
  isLoopbackUrl (lit "http://localhost:4200") /\
  exists pre rest,
    lit "Browse at http://localhost:4200/" = pre ++ lit "http://localhost:4200" ++ rest /\
    stops digit rest /\
    forall p1 p2, pre = p1 ++ p2 -> p2 <> [] ->
                  matchAt urlRe (p2 ++ lit "http://localhost:4200" ++ rest) = None.
Proof.
  apply (search_urlRe_first_loopback_url (lit "Browse at http://localhost:4200/")
           (lit "http://localhost:4200")).
  vm_compute. reflexivity.
Defined.

(** A preview request that supersedes the process 0, whose browser is
    open: the handles go on, the tracked process is the last spawned, and
    the latch of the process 0 stays. *)
Lemma handle_events_supervisor_witness :
  1 <= nextHandle
         (world (handle_events (lit "linux") posixJoin lastSegment noThrow
                   (answers [defaultEnvInfo]) noOutput
                   [CmdPreview (Some sampleDocument)]
                   (mkWorld {[ lit "/w/proj/.vscode/quarto-pixi-wrapper.sh" ]}
                            (Some 0) {[ 0 ]} 1))) /\
  tracksLatest
    (world (handle_events (lit "linux") posixJoin lastSegment noThrow
              (answers [defaultEnvInfo]) noOutput
              [CmdPreview (Some sampleDocument)]
              (mkWorld {[ lit "/w/proj/.vscode/quarto-pixi-wrapper.sh" ]}
                       (Some 0) {[ 0 ]} 1))) /\
  0 ∈ browserOpened
        (world (handle_events (lit "linux") posixJoin lastSegment noThrow
                  (answers [defaultEnvInfo]) noOutput
                  [CmdPreview (Some sampleDocument)]
                  (mkWorld {[ lit "/w/proj/.vscode/quarto-pixi-wrapper.sh" ]}
                           (Some 0) {[ 0 ]} 1))).
Proof.
  destruct (handle_events_supervisor (lit "linux") posixJoin lastSegment noThrow
              (answers [defaultEnvInfo]) noOutput
              [CmdPreview (Some sampleDocument)]
              (mkWorld {[ lit "/w/proj/.vscode/quarto-pixi-wrapper.sh" ]}
                       (Some 0) {[ 0 ]} 1))
    as (Hnext & Htracks & Hlatch).
  split; [exact Hnext|]. split.
  - apply Htracks. intros child [= <-]. reflexivity.
  - apply Hlatch; [vm_compute; lia | by_computation].
Defined.

Lemma browser_never_reopened_witness :
  List.filter isBrowserOpen
    (trace (handle_events (lit "linux") posixJoin lastSegment noThrow
              (answers [defaultEnvInfo]) noOutput
              ([CmdPreview (Some sampleDocument)]
                 ++ [EvData 0 (lit "Watching http://localhost:4200/ for changes")])
              (mkWorld {[ lit "/w/proj/.vscode/quarto-pixi-wrapper.sh" ]}
                       (Some 0) {[ 0 ]} 1)))
  = List.filter isBrowserOpen
      (trace (handle_events (lit "linux") posixJoin lastSegment noThrow
                (answers [defaultEnvInfo]) noOutput
                [CmdPreview (Some sampleDocument)]
                (mkWorld {[ lit "/w/proj/.vscode/quarto-pixi-wrapper.sh" ]}
                         (Some 0) {[ 0 ]} 1))).
Proof.
  apply (browser_never_reopened (lit "linux") posixJoin lastSegment noThrow
           (answers [defaultEnvInfo]) noOutput [CmdPreview (Some sampleDocument)]
           (mkWorld {[ lit "/w/proj/.vscode/quarto-pixi-wrapper.sh" ]}
                    (Some 0) {[ 0 ]} 1)
           0 (lit "Watching http://localhost:4200/ for changes")).
  - vm_compute. lia.
  - by_computation.
Defined.

Lemma kill_only_tracked_process_witness :
  previewProcess runningWorld = Some 0 /\ lit "SIGINT" = lit "SIGINT".
Proof.
  apply (kill_only_tracked_process (lit "linux") posixJoin lastSegment noThrow
           (answers [defaultEnvInfo]) noOutput (CmdPreview (Some sampleDocument))
           runningWorld 0 (lit "SIGINT")).
  in_computed_list.
Defined.

Lemma browser_opens_loopback_only_witness :
  isLoopbackUrl (lit "http://127.0.0.1:4200").
Proof.
  apply (browser_opens_loopback_only (lit "linux") posixJoin lastSegment noThrow
           (answers [defaultEnvInfo]) noOutput
           [CmdPreview (Some sampleDocument);
            EvData 0 ([27%N] ++ lit "[1mBrowse at http://127.0.0.1:4200/")]
           idleWorld (lit "http://127.0.0.1:4200")).
  in_computed_list.
Defined.

Lemma setupPixiEnvironment_checks_every_folder_witness :
  out (setupPixiEnvironment (lit "linux") posixJoin noThrow (answers [defaultEnvInfo])
         (Some [sampleFolder]) manifestWorld) = Ok tt /\
  AppendLine (lit "Checking for pixi.toml or pyproject.toml at: " ++ lit "/w/proj")
    ∈ trace (setupPixiEnvironment (lit "linux") posixJoin noThrow
               (answers [defaultEnvInfo]) (Some [sampleFolder]) manifestWorld).
Proof.
  apply (setupPixiEnvironment_checks_every_folder (lit "linux") posixJoin noThrow
           (answers [defaultEnvInfo]) [sampleFolder] manifestWorld sampleFolder).
  apply list_elem_of_here.
Defined.

(** The info command fails to run. *)
Lemma setupFolder_info_failure_witness :
  trace (setupFolder (lit "linux") posixJoin noThrow
           (fun _ => PixiExecError (lit "Command failed: pixi info --json") someError)
           sampleFolder manifestWorld)
  = [AppendLine (lit "Checking for pixi.toml or pyproject.toml at: " ++ lit "/w/proj");
     AppendLine (lit "Found Pixi manifest in " ++ lit "proj");
     AppendLine (lit "Executing 'pixi info --json' in " ++ lit "/w/proj");
     Exec (lit "pixi info --json") (lit "/w/proj");
     AppendLine (lit "Command execution error: Command failed: pixi info --json");
     AppendLine (lit "Failed to setup Pixi environment. Error: "
                   ++ lit "spawn /bin/sh ENOENT")]
    ++ [] ++ [ShowErrorMessage setupFailedMessage] /\
  world (setupFolder (lit "linux") posixJoin noThrow
           (fun _ => PixiExecError (lit "Command failed: pixi info --json") someError)
           sampleFolder manifestWorld) = manifestWorld /\
  Forall (fun e => isFileWrite e = false /\ isSettingsUpdate e = false)
    (trace (setupFolder (lit "linux") posixJoin noThrow
              (fun _ => PixiExecError (lit "Command failed: pixi info --json") someError)
              sampleFolder manifestWorld)).
Proof.
  apply (setupFolder_info_failure (lit "linux") posixJoin noThrow
           (fun _ => PixiExecError (lit "Command failed: pixi info --json") someError)
           sampleFolder manifestWorld
           (lit "Command execution error: Command failed: pixi info --json")
           someError).
  - right. in_files.
  - left. exists (lit "Command failed: pixi info --json"). split; reflexivity.
Defined.

(** The info command answers with an empty list of environments. *)
Lemma setupFolder_no_environments_witness :
  trace (setupFolder (lit "linux") posixJoin noThrow (answers []) sampleFolder
           manifestWorld)
  = [AppendLine (lit "Checking for pixi.toml or pyproject.toml at: " ++ lit "/w/proj");
     AppendLine (lit "Found Pixi manifest in " ++ lit "proj");
     AppendLine (lit "Executing 'pixi info --json' in " ++ lit "/w/proj");
     Exec (lit "pixi info --json") (lit "/w/proj");
     AppendLine (lit "Warning: Valid pixi info obtained, but no environments found.")] /\
  world (setupFolder (lit "linux") posixJoin noThrow (answers []) sampleFolder
           manifestWorld) = manifestWorld.
Proof.
  apply (setupFolder_no_environments (lit "linux") posixJoin noThrow (answers [])
           sampleFolder manifestWorld (Some (mkPixiInfo (Some [])))).
  - right. in_files.
  - reflexivity.
  - right. right. reflexivity.
Defined.

Lemma setupFolder_configures_witness :
  List.filter isSettingsUpdate
    (trace (setupFolder (lit "linux") posixJoin noThrow
              (answers [devEnv; defaultEnvInfo]) sampleFolder manifestWorld))
  = [ConfigUpdate (lit "/w/proj") (lit "r") (lit "rpath.linux")
                  (lit "/w/proj/.pixi/envs/default/bin/R") Workspace;
     ConfigUpdate (lit "/w/proj") (lit "r") (lit "rterm.linux")
                  (lit "/w/proj/.vscode/rterm-pixi-wrapper.sh") Workspace;
     ConfigUpdate (lit "/w/proj") (lit "quarto") (lit "path")
                  (lit "/w/proj/.vscode/quarto-pixi-wrapper.sh") Workspace] /\
  last (trace (setupFolder (lit "linux") posixJoin noThrow
                 (answers [devEnv; defaultEnvInfo]) sampleFolder manifestWorld))
  = Some (ShowInformationMessage
            (lit "R and Quarto configured to use Pixi environment: default")).
Proof.
  apply (setupFolder_configures (lit "linux") posixJoin noThrow
           (answers [devEnv; defaultEnvInfo]) sampleFolder manifestWorld
           (Some (mkPixiInfo (Some [devEnv; defaultEnvInfo])))
           [devEnv; defaultEnvInfo] defaultEnvInfo
           47%N (lit "w/proj/.pixi/envs/default")).
  - right. in_files.
  - reflexivity.
  - reflexivity.
  - reflexivity.
  - reflexivity.
  - intros e. reflexivity.
Defined.

(** Every settings update throws, no file-system call does. *)
Lemma setupFolder_reports_success_without_settings_witness :
  last (trace (setupFolder (lit "linux") posixJoin
                 (fun e => if isSettingsUpdate e then Some someError else None)
                 (answers [defaultEnvInfo]) sampleFolder manifestWorld))
  = Some (ShowInformationMessage
            (lit "R and Quarto configured to use Pixi environment: " ++ lit "default")) /\
  Forall (fun e => match e with ShowErrorMessage _ => False | _ => True end)
    (trace (setupFolder (lit "linux") posixJoin
              (fun e => if isSettingsUpdate e then Some someError else None)
              (answers [defaultEnvInfo]) sampleFolder manifestWorld)).
Proof.
  apply (setupFolder_reports_success_without_settings (lit "linux") posixJoin
           (fun e => if isSettingsUpdate e then Some someError else None)
           (answers [defaultEnvInfo]) sampleFolder manifestWorld
           (Some (mkPixiInfo (Some [defaultEnvInfo])))
           [defaultEnvInfo] defaultEnvInfo
           47%N (lit "w/proj/.pixi/envs/default")).
  - right. in_files.
  - reflexivity.
  - reflexivity.
  - reflexivity.
  - reflexivity.
  - intros e He. destruct e; try discriminate He; reflexivity.
Defined.

Lemma renderQuartoDocument_runs_one_command_witness :
  List.filter isExec
    (trace (renderQuartoDocument (lit "linux") posixJoin lastSegment noOutput
              (Some (lit "pdf")) (Some sampleDocument) idleWorld))
  = [Exec (renderCommand (lit "/w/proj/.vscode/quarto-pixi-wrapper.sh")
             (lit "/w/proj/doc.qmd") (Some (lit "pdf")))
          (lit "/w/proj")] /\
  exists msg,
    trace (renderQuartoDocument (lit "linux") posixJoin lastSegment noOutput
             (Some (lit "pdf")) (Some sampleDocument) emptyWorld)
    = [ShowErrorMessage msg].
Proof.
  split.
  - apply (proj1 (proj2 (renderQuartoDocument_runs_one_command (lit "linux") posixJoin
                           lastSegment noOutput (Some (lit "pdf"))
                           (Some sampleDocument) idleWorld))
             sampleDocument sampleFolder).
    + reflexivity.
    + reflexivity.
    + reflexivity.
    + in_files.
  - apply (proj2 (proj2 (renderQuartoDocument_runs_one_command (lit "linux") posixJoin
                           lastSegment noOutput (Some (lit "pdf"))
                           (Some sampleDocument) emptyWorld))).
    vm_compute. reflexivity.
Defined.

(** The installation fails in the first of two folders. *)
Lemma installPixiDependencies_stops_at_failure_witness :
  installPixiDependencies (lit "linux") posixJoin noThrow (answers [defaultEnvInfo])
    (fun _ _ => mkExecOutcome [(Stderr, lit "pixi: command not found")]
                  (Some someError) [] (lit "pixi: command not found"))
    (Some [sampleFolder; mkWorkspaceFolder (lit "other") (lit "/w/other")])
    manifestWorld
  = mkRes
      ([WithProgress (lit "Installing R and Quarto via Pixi in " ++ lit "proj"
                        ++ lit "...");
        AppendLine (lit "Executing 'pixi add r-base r-languageserver quarto -c conda-forge' in "
                      ++ lit "/w/proj");
        Exec (lit "pixi add r-base r-languageserver quarto -c conda-forge")
             (lit "/w/proj")]
       ++ [Append (lit "pixi: command not found")]
       ++ [AppendLine (lit "Install error: " ++ lit "spawn /bin/sh ENOENT");
           AppendLine (lit "Stderr: " ++ lit "pixi: command not found");
           ShowErrorMessage
             (lit "Failed to install R and Quarto via Pixi. Check the " ++ dq ++
              lit "R Pixi Venv" ++ dq ++ lit " output channel.")])
      manifestWorld (Throw someError).
Proof.
  apply (installPixiDependencies_stops_at_failure (lit "linux") posixJoin noThrow
           (answers [defaultEnvInfo])
           (fun _ _ => mkExecOutcome [(Stderr, lit "pixi: command not found")]
                         (Some someError) [] (lit "pixi: command not found"))
           sampleFolder [mkWorkspaceFolder (lit "other") (lit "/w/other")]
           manifestWorld someError).
  - right. in_files.
  - reflexivity.
Defined.

(** The wrapper creation in a folder that has its activation hook. *)
Lemma createWrapperScripts_keeps_existing_hook_witness :
  writesOnly [lit "/w/proj/.vscode/rterm-pixi-wrapper.sh";
              lit "/w/proj/.vscode/quarto-pixi-wrapper.sh";
              lit "/w/proj/.pixi/envs/default/bin/conda";
              lit "/w/proj/.pixi/envs/default/bin/activate"]
    (ChmodSync (lit "/w/proj/.pixi/envs/default/bin/activate") 493).
Proof.
  apply (createWrapperScripts_keeps_existing_hook (lit "linux") posixJoin noThrow
           (lit "/w/proj") (lit "default") (lit "/w/proj/.pixi/envs/default")
           (mkWorld {[ lit "/w/proj/pixi.toml"; lit "/w/proj/.pixi-activate.sh" ]}
                    None ∅ 0)
           (ChmodSync (lit "/w/proj/.pixi/envs/default/bin/activate") 493)).
  - by_computation.
  - in_computed_list.
Defined.
